(** * XIQ client report: ingestion and report builder

    A shallow embedding of [App/report_generator.py] (functions
    [ingest_files], [normalize_datetime], [csv_import],
    [generate_excel_report] and [generate_site_report]) together with the
    properties of it that the specification states.

    Conventions of the model.
    - A Python [str] is a [string]; a character is a code point below 256.
    - A Python exception is a constructor of [exn]; a function that may raise
      returns a [result].
    - Code that mutates an object (the worksheet grid, the workbook, the
      output file) is written in the state-and-exception monad [M].
    - Library behaviour the program relies on is modelled next to its use
      and named after the library function ([strptime], [unique], [nunique],
      [sorted], ...). Timestamps are those that pandas holds at nanosecond
      resolution. Cell formats and column widths carry no data and are left
      out; a written string is kept as the text given, whatever cell type
      xlsxwriter makes of it; the worksheet grid is unbounded. *)

From Stdlib Require Import Ascii String NArith DecimalString.
From stdpp Require Import gmap strings list sorting.

#[local] Set Warnings "-clear-no-such-hyp".

(** ** Exceptions and results *)

Inductive exn : Type :=
  | ValueError
  | TypeError
  | KeyError
  | IndexError
  | NameError
  | OSError
  | BadZipFile
  | SheetNameError.

Inductive result (A : Type) : Type :=
  | Ok (a : A)
  | Raise (e : exn).
Arguments Ok {A} a.
Arguments Raise {A} e.

#[global] Instance result_ret : MRet result := fun _ a => Ok a.
#[global] Instance result_bind : MBind result := fun _ _ f r =>
  match r with
  | Ok a => f a
  | Raise e => Raise e
  end.
#[global] Instance result_fmap : FMap result := fun _ _ f r =>
  match r with
  | Ok a => Ok (f a)
  | Raise e => Raise e
  end.

(** [[f(x) for x in l]] where [f] may raise: the first exception wins. *)
Fixpoint map_result {A B} (f : A → result B) (l : list A) : result (list B) :=
  match l with
  | [] => Ok []
  | x :: l => y ← f x; ys ← map_result f l; Ok (y :: ys)
  end.

Definition raises {A} (r : result A) : Prop := ∃ e, r = Raise e.

(** ** Characters and strings *)

(** [str.isspace] (and [\s] of [re]) on code points below 256. *)
Definition is_space (c : ascii) : bool :=
  let n := N_of_ascii c in
  (((9 <=? n) && (n <=? 13)) || ((28 <=? n) && (n <=? 32))
   || (n =? 133) || (n =? 160))%N.

(** [\d] of [re] on code points below 256: the ten ASCII digits. *)
Definition digit_of (c : ascii) : option N :=
  let n := N_of_ascii c in
  if ((48 <=? n) && (n <=? 57))%N then Some (n - 48)%N else None.

(** [str.lower] on one code point below 256. *)
Definition lower_char (c : ascii) : ascii :=
  let n := N_of_ascii c in
  if (((65 <=? n) && (n <=? 90))
      || ((192 <=? n) && (n <=? 222) && negb (n =? 215)))%N
  then ascii_of_N (n + 32) else c.

Fixpoint lower (s : string) : string :=
  match s with
  | "" => ""
  | String c s => String (lower_char c) (lower s)
  end.

Fixpoint startswith (p s : string) : bool :=
  match p, s with
  | "", _ => true
  | String a p, String b s => bool_decide (a = b) && startswith p s
  | String _ _, "" => false
  end.

Definition endswith (s suffix : string) : bool :=
  startswith (String.rev suffix) (String.rev s).

(** [s.lstrip()], [s.rstrip()] and [s.strip()]. *)
Fixpoint lstrip (s : string) : string :=
  match s with
  | "" => ""
  | String c s' => if is_space c then lstrip s' else s
  end.

Fixpoint rstrip (s : string) : string :=
  match s with
  | "" => ""
  | String c s' =>
      match rstrip s' with
      | "" => if is_space c then "" else String c ""
      | t => String c t
      end
  end.

Definition strip (s : string) : string := rstrip (lstrip s).

(** [s.split(sep, 1)[0]] for a one-character separator: the text before the
    first [sep], the whole of [s] when it has none. *)
Fixpoint split_head (sep : ascii) (s : string) : string :=
  match s with
  | "" => ""
  | String c s => if bool_decide (c = sep) then "" else String c (split_head sep s)
  end.

(** [s[:n]]. *)
Fixpoint str_take (n : nat) (s : string) : string :=
  match n, s with
  | S n, String c s => String c (str_take n s)
  | _, _ => ""
  end.

(** Decimal text of [n] on at least [w] digits, as [%02d] and [%04d] give. *)
Definition decimal (n : N) : string := NilEmpty.string_of_uint (N.to_uint n).

Fixpoint zeros (k : nat) : string :=
  match k with
  | 0 => ""
  | S k => String "0"%char (zeros k)
  end.

Definition pad (w : nat) (n : N) : string :=
  let d := decimal n in zeros (w - String.length d) +:+ d.

(** ** Timestamps *)

Local Open Scope N_scope.

(** A [datetime.datetime] (a pandas [Timestamp] once in the frame). *)
Record datetime : Type := mk_datetime {
  year : N;
  month : N;
  day : N;
  hour : N;
  minute : N;
  second : N;
  microsecond : N
}.

#[global] Instance datetime_eq_dec : EqDecision datetime.
Proof. solve_decision. Defined.

Definition dt_fields (d : datetime) : list N :=
  [year d; month d; day d; hour d; minute d; second d; microsecond d].

Fixpoint lex_compare (a b : list N) : comparison :=
  match a, b with
  | [], [] => Eq
  | [], _ :: _ => Lt
  | _ :: _, [] => Gt
  | x :: a, y :: b =>
      match N.compare x y with
      | Eq => lex_compare a b
      | c => c
      end
  end.

(** The chronological order of timestamps: [a <= b]. *)
Definition dt_leb (a b : datetime) : bool :=
  match lex_compare (dt_fields a) (dt_fields b) with
  | Gt => false
  | _ => true
  end.

Definition dt_le (a b : datetime) : Prop := dt_leb a b = true.

#[global] Instance dt_le_dec : RelDecision dt_le.
Proof. intros a b. unfold dt_le. apply _. Defined.

(** [.dt.normalize()]: the timestamp at midnight of the same calendar day. *)
Definition normalize (d : datetime) : datetime :=
  mk_datetime (year d) (month d) (day d) 0 0 0 0.

Definition is_leap (y : N) : bool :=
  ((y mod 4 =? 0) && negb (y mod 100 =? 0)) || (y mod 400 =? 0).

Definition days_in_month (y m : N) : N :=
  match m with
  | 1 | 3 | 5 | 7 | 8 | 10 | 12 => 31
  | 4 | 6 | 9 | 11 => 30
  | 2 => if is_leap y then 29 else 28
  | _ => 0
  end.

(** The checks of the [datetime] constructor. *)
Definition valid_datetime (d : datetime) : bool :=
  (1 <=? year d) && (year d <=? 9999)
  && (1 <=? month d) && (month d <=? 12)
  && (1 <=? day d) && (day d <=? days_in_month (year d) (month d))
  && (hour d <=? 23) && (minute d <=? 59) && (second d <=? 59)
  && (microsecond d <=? 999999).

(** ** [datetime.strptime]

    CPython's [_strptime] turns the format into a regular expression (a
    directive becomes a group of alternatives, a run of white space becomes
    [\s+], any other character stands for itself), takes the first match
    that the backtracking matcher finds from the start of the text, rejects
    it when text remains, converts the groups with [int] and hands them to
    the [datetime] constructor. A matcher below lists every way to match a
    prefix of the text, in the order the backtracking matcher tries them, so
    the head of the list is the match [re.match] returns. Only the seven
    directives that the program's formats use are modelled, and a literal
    character of a format matches itself only, as the punctuation of those
    formats does. *)

Definition matcher (A : Type) : Type := string → list (A * string).

(** One digit between [lo] and [hi]. *)
Definition digit_in (lo hi : N) : matcher N := fun s =>
  match s with
  | String c rest =>
      match digit_of c with
      | Some d => if (lo <=? d) && (d <=? hi) then [(d, rest)] else []
      | None => []
      end
  | "" => []
  end.

(** Two digits in a row, read as a decimal number. *)
Definition two_digits (lo1 hi1 lo2 hi2 : N) : matcher N := fun s =>
  '(a, s1) ← digit_in lo1 hi1 s;
  '(b, s2) ← digit_in lo2 hi2 s1;
  [(10 * a + b, s2)].

Definition one_char (c : ascii) : matcher unit := fun s =>
  match s with
  | String c' rest => if bool_decide (c' = c) then [(tt, rest)] else []
  | "" => []
  end.

(** [\s+], greedy: the longest run first. *)
Fixpoint spaces_from (s : string) : list (unit * string) :=
  match s with
  | String c rest => if is_space c then spaces_from rest ++ [(tt, rest)] else []
  | "" => []
  end.

Inductive directive : Type := dir_Y | dir_m | dir_d | dir_H | dir_M | dir_S | dir_y.

Definition directive_matcher (d : directive) : matcher N := fun s =>
  match d with
  | dir_Y => (* \d\d\d\d *)
      '(a, s1) ← two_digits 0 9 0 9 s;
      '(b, s2) ← two_digits 0 9 0 9 s1;
      [(100 * a + b, s2)]
  | dir_m => (* 1[0-2]|0[1-9]|[1-9] *)
      two_digits 1 1 0 2 s ++ two_digits 0 0 1 9 s ++ digit_in 1 9 s
  | dir_d => (* 3[0-1]|[1-2]\d|0[1-9]|[1-9]| [1-9] *)
      two_digits 3 3 0 1 s ++ two_digits 1 2 0 9 s ++ two_digits 0 0 1 9 s
      ++ digit_in 1 9 s ++ ('(_, s1) ← one_char " "%char s; digit_in 1 9 s1)
  | dir_H => (* 2[0-3]|[0-1]\d|\d *)
      two_digits 2 2 0 3 s ++ two_digits 0 1 0 9 s ++ digit_in 0 9 s
  | dir_M => (* [0-5]\d|\d *)
      two_digits 0 5 0 9 s ++ digit_in 0 9 s
  | dir_S => (* 6[0-1]|[0-5]\d|\d *)
      two_digits 6 6 0 1 s ++ two_digits 0 5 0 9 s ++ digit_in 0 9 s
  | dir_y => (* \d\d *)
      two_digits 0 9 0 9 s
  end.

Inductive format_item : Type :=
  | Directive (d : directive)
  | Whitespace
  | Literal (c : ascii).

Definition directive_of (c : ascii) : option directive :=
  match c with
  | "Y" => Some dir_Y
  | "m" => Some dir_m
  | "d" => Some dir_d
  | "H" => Some dir_H
  | "M" => Some dir_M
  | "S" => Some dir_S
  | "y" => Some dir_y
  | _ => None
  end%char.

(** The items of a format string; [None] for a directive outside the seven. *)
Fixpoint format_items (fmt : string) : option (list format_item) :=
  match fmt with
  | "" => Some []
  | String "%"%char (String c rest) =>
      d ← directive_of c; items ← format_items rest; Some (Directive d :: items)
  | String "%"%char "" => None
  | String c rest =>
      items ← format_items rest;
      Some (if is_space c
            then match items with
                 | Whitespace :: _ => items
                 | _ => Whitespace :: items
                 end
            else Literal c :: items)
  end.

(** What a directive's group sets; [%y] below 69 is in the 2000s. *)
Definition set_field (d : directive) (n : N) (t : datetime) : datetime :=
  match d with
  | dir_Y => mk_datetime n (month t) (day t) (hour t) (minute t) (second t) (microsecond t)
  | dir_y => mk_datetime (if n <=? 68 then n + 2000 else n + 1900)
               (month t) (day t) (hour t) (minute t) (second t) (microsecond t)
  | dir_m => mk_datetime (year t) n (day t) (hour t) (minute t) (second t) (microsecond t)
  | dir_d => mk_datetime (year t) (month t) n (hour t) (minute t) (second t) (microsecond t)
  | dir_H => mk_datetime (year t) (month t) (day t) n (minute t) (second t) (microsecond t)
  | dir_M => mk_datetime (year t) (month t) (day t) (hour t) n (second t) (microsecond t)
  | dir_S => mk_datetime (year t) (month t) (day t) (hour t) (minute t) n (microsecond t)
  end.

Fixpoint match_items (items : list format_item) (t : datetime) : matcher datetime :=
  fun s =>
  match items with
  | [] => [(t, s)]
  | Directive d :: items =>
      '(n, s1) ← directive_matcher d s; match_items items (set_field d n t) s1
  | Whitespace :: items =>
      '(_, s1) ← spaces_from s; match_items items t s1
  | Literal c :: items =>
      '(_, s1) ← one_char c s; match_items items t s1
  end.

(** [datetime.datetime.strptime(value, fmt)]; [None] stands for [ValueError]. *)
Definition strptime (value fmt : string) : option datetime :=
  items ← format_items fmt;
  match match_items items (mk_datetime 1900 1 1 0 0 0 0) value with
  | (t, "") :: _ => if valid_datetime t then Some t else None
  | _ => None
  end.

Local Close Scope N_scope.

(** ** [normalize_datetime] *)

Fixpoint normalize_datetime_loop (value : string) (fmts : list string) : result datetime :=
  match fmts with
  | [] => Raise ValueError
  | fmt :: fmts =>
      match strptime value fmt with
      | Some t => Ok t
      | None => normalize_datetime_loop value fmts
      end
  end.

Definition normalize_datetime (value : string) : result datetime :=
  normalize_datetime_loop value ["%Y-%m-%d %H:%M:%S"; "%m/%d/%y %H:%M"].

(** ** [csv_import]

    The text of a file is taken as [csv.reader] yields it: a list of rows,
    each a list of cells. A parsed row is a [dict] from header name to
    text. *)

Definition expected_headers : list string :=
  ["location"; "sublocation"; "associate_vlan"; "device_mac"; "client_mac";
   "start_time"; "end_time"; "client_ip"; "client_host_name"; "client_os_name";
   "bssid"; "ssid"].

(** [set(expected_headers[:4]).issubset(row)]. *)
Definition is_header_row (row : list string) : bool :=
  forallb (fun key => bool_decide (key ∈ row)) (take 4 expected_headers).

(** The first loop over [reader]: it stops after the first header row and
    leaves the rows behind it in the reader; when no row qualifies the
    reader is exhausted and [headers] was never assigned. *)
Fixpoint find_headers (reader : list (list string))
  : option (list string * list (list string)) :=
  match reader with
  | [] => None
  | row :: reader =>
      if is_header_row row then Some (row, reader) else find_headers reader
  end.

(** [headers.index(key)] when [key in headers]. *)
Definition index_of (key : string) (headers : list string) : option nat :=
  fst <$> list_find (fun h => h = key) headers.

(** [{key: headers.index(key) for key in expected_headers if key in headers}],
    in insertion order. *)
Definition make_header_map (headers : list string) : list (string * nat) :=
  omap (fun key => idx ← index_of key headers; Some (key, idx)) expected_headers.

(** [{key: row[idx].strip() for key, idx in header_map.items()}]. *)
Definition make_entry (header_map : list (string * nat)) (row : list string)
  : result (gmap string string) :=
  list_to_map <$>
    map_result (fun '(key, idx) =>
                  match row !! idx with
                  | Some cell => Ok (key, strip cell)
                  | None => Raise IndexError
                  end) header_map.

(** The second loop over [reader]. *)
Fixpoint import_rows (header_map : list (string * nat)) (reader : list (list string))
  : result (list (gmap string string)) :=
  match reader with
  | [] => Ok []
  | row :: reader =>
      if (length row <? length header_map)%nat then import_rows header_map reader
      else
        entry ← make_entry header_map row;
        rows ← import_rows header_map reader;
        Ok (entry :: rows)
  end.

(** [csv_import] on the rows of the opened file. *)
Definition csv_import (reader : list (list string)) : result (list (gmap string string)) :=
  match find_headers reader with
  | None => Raise NameError
  | Some (headers, reader) => import_rows (make_header_map headers) reader
  end.

(** ** [ingest_files]

    A file is known by what reading it gives: the rows of its text, or an
    exception, when it is opened as CSV text, and its members, or an
    exception, when it is opened as a ZIP archive. A member is a name and
    what reading its extracted copy as CSV text gives. *)

Record file : Type := mk_file {
  as_text : result (list (list string));
  as_zip : result (list (string * result (list (list string))))
}.

(** [csv_import(filepath)], opening the file included. *)
Definition csv_import_path (fs : gmap string file) (filepath : string)
  : result (list (gmap string string)) :=
  match fs !! filepath with
  | Some f => reader ← as_text f; csv_import reader
  | None => Raise OSError
  end.

(** [zipfile.ZipFile(path, 'r')]. *)
Definition open_zip (fs : gmap string file) (path : string)
  : result (list (string * result (list (list string)))) :=
  match fs !! path with
  | Some f => as_zip f
  | None => Raise OSError
  end.

(** [csv_import(z.extract(name, tmpdir))]: [extract] looks the name up in
    the archive's directory, where a later member of the same name
    replaces an earlier one. *)
Definition csv_import_member (z : list (string * result (list (list string))))
  (name : string) : result (list (gmap string string)) :=
  match last (filter (fun m => m.1 = name) z) with
  | Some m => reader ← m.2; csv_import reader
  | None => Raise KeyError
  end.

(** [for name in z.namelist(): ...]. *)
Fixpoint ingest_members (z : list (string * result (list (list string))))
  (names : list string) (combined_rows : list (gmap string string))
  : result (list (gmap string string)) :=
  match names with
  | [] => Ok combined_rows
  | name :: names =>
      if endswith (lower name) ".csv" then
        rows ← csv_import_member z name;
        ingest_members z names (combined_rows ++ rows)
      else ingest_members z names combined_rows
  end.

(** [for path in file_paths: ...]. *)
Fixpoint ingest_paths (fs : gmap string file) (file_paths : list string)
  (combined_rows : list (gmap string string)) : result (list (gmap string string)) :=
  match file_paths with
  | [] => Ok combined_rows
  | path :: file_paths =>
      if endswith (lower path) ".csv" then
        rows ← csv_import_path fs path;
        ingest_paths fs file_paths (combined_rows ++ rows)
      else if endswith (lower path) ".zip" then
        z ← open_zip fs path;
        combined_rows ← ingest_members z z.*1 combined_rows;
        ingest_paths fs file_paths combined_rows
      else ingest_paths fs file_paths combined_rows
  end.

Definition ingest_files (fs : gmap string file) (file_paths : list string)
  : result (list (gmap string string)) :=
  ingest_paths fs file_paths [].

(** ** pandas: the data frame

    [pd.DataFrame(data)] has one column per key that occurs in some record;
    a record without the key holds NaN there ([None] below). The frame of
    the report carries, next to the CSV columns, the derived columns of
    lines 63 to 70. [connected_time], a float that nothing reads, is left
    out. *)

Record row : Type := mk_row {
  fields : gmap string string;
  start_time : datetime;
  end_time : datetime;
  session_date : datetime;
  building : string
}.

Record frame : Type := mk_frame {
  columns : gset string;
  rows : list row
}.

(** The cell of a row in a text column. *)
Definition cell_of (name : string) (r : row) : option string :=
  if bool_decide (name = "building") then Some (building r) else fields r !! name.

(** [df[name]] for a text column: [KeyError] when there is no such column. *)
Definition column (df : frame) (name : string) : result (list (option string)) :=
  if bool_decide (name = "building") || bool_decide (name ∈ columns df)
  then Ok (cell_of name <$> rows df)
  else Raise KeyError.

(** [df[mask]]. *)
Definition select (mask : row → bool) (df : frame) : frame :=
  mk_frame (columns df) (filter (fun r => mask r = true) (rows df)).

(** [cell == value], where NaN equals nothing. *)
Definition eq_scalar (value cell : option string) : bool :=
  match value, cell with
  | Some v, Some c => bool_decide (c = v)
  | _, _ => false
  end.

(** [df[df[name] == value]]. *)
Definition where_eq (df : frame) (name : string) (value : option string) : result frame :=
  _ ← column df name; Ok (select (fun r => eq_scalar value (cell_of name r)) df).

(** [cell in values] of [isin]. *)
Definition isin (values : list string) (cell : option string) : bool :=
  match cell with
  | Some c => bool_decide (c ∈ values)
  | None => false
  end.

(** [df[df[name].isin(values)]]. *)
Definition where_isin (df : frame) (name : string) (values : list string) : result frame :=
  _ ← column df name; Ok (select (fun r => isin values (cell_of name r)) df).

(** [df[df['session_date'].dt.normalize() == day]]. *)
Definition on_day (day : datetime) (df : frame) : frame :=
  select (fun r => bool_decide (normalize (session_date r) = day)) df.

(** [.unique()]: the distinct values in order of first appearance. *)
Fixpoint unique {A} `{EqDecision A} (l : list A) : list A :=
  match l with
  | [] => []
  | x :: l => x :: filter (fun y => y ≠ x) (unique l)
  end.

(** [.dropna()]. *)
Definition dropna (cells : list (option string)) : list string := omap id cells.

(** [.nunique()]: the number of distinct values, NaN not counted. *)
Definition nunique (cells : list (option string)) : nat := length (unique (dropna cells)).

(** [sorted] of timestamps and of strings. *)
Definition sorted_datetimes (l : list datetime) : list datetime := merge_sort dt_le l.
Definition sorted_strings (l : list string) : list string := merge_sort String.le l.

(** [enumerate]. *)
Fixpoint enumerate_from {A} (start : nat) (l : list A) : list (nat * A) :=
  match l with
  | [] => []
  | x :: l => (start, x) :: enumerate_from (S start) l
  end.
Definition enumerate {A} (l : list A) : list (nat * A) := enumerate_from 0 l.

(** [series[0]] and [l[0]], [l[-1]] of a list. *)
Definition first_item {A} (l : list A) (e : exn) : result A :=
  match l with
  | x :: _ => Ok x
  | [] => Raise e
  end.
Definition last_item {A} (l : list A) : result A :=
  match last l with
  | Some x => Ok x
  | None => Raise IndexError
  end.

(** [.mode()]: the most frequent values, sorted. *)
Definition mode (l : list string) : list string :=
  let count x := length (filter (fun y => y = x) l) in
  sorted_strings
    (unique (filter (fun x => forallb (fun y => (count y <=? count x)%nat) l = true) l)).

(** Month names of [%B] and [%b], and the texts of [strftime('%d-%b')] and
    of [str] of a timestamp. *)
Definition month_name (m : N) : string :=
  match m with
  | 1 => "January" | 2 => "February" | 3 => "March" | 4 => "April"
  | 5 => "May" | 6 => "June" | 7 => "July" | 8 => "August"
  | 9 => "September" | 10 => "October" | 11 => "November" | _ => "December"
  end%N.

Definition strftime_B (t : datetime) : string := month_name (month t).

Definition strftime_d_b (t : datetime) : string :=
  pad 2 (day t) +:+ "-" +:+ str_take 3 (month_name (month t)).

Definition str_datetime (t : datetime) : string :=
  pad 4 (year t) +:+ "-" +:+ pad 2 (month t) +:+ "-" +:+ pad 2 (day t) +:+ " "
  +:+ pad 2 (hour t) +:+ ":" +:+ pad 2 (minute t) +:+ ":" +:+ pad 2 (second t)
  +:+ (if (microsecond t =? 0)%N then "" else "." +:+ pad 6 (microsecond t)).

(** ** State and exceptions *)

Definition M (S A : Type) : Type := S → S * result A.

#[global] Instance M_ret {S} : MRet (M S) := fun _ a s => (s, Ok a).
#[global] Instance M_bind {S} : MBind (M S) := fun _ _ f m s =>
  match m s with
  | (s', Ok a) => f a s'
  | (s', Raise e) => (s', Raise e)
  end.

(** A computation that reads no state. *)
Definition lift {S A} (r : result A) : M S A := fun s => (s, r).

(** [for x in l: body]. *)
Fixpoint for_each {S A} (l : list A) (body : A → M S unit) : M S unit :=
  match l with
  | [] => mret tt
  | x :: l => _ ← body x; for_each l body
  end.

(** [for x in l: acc = body(acc, x)], for a loop that updates a local. *)
Fixpoint fold_each {S A B} (l : list A) (acc : B) (body : B → A → M S B) : M S B :=
  match l with
  | [] => mret acc
  | x :: l => acc ← body acc x; fold_each l acc body
  end.

(** ** xlsxwriter: worksheets and workbooks

    A worksheet is its name and its grid, a map from (row, column), both
    counted from 0, to what was last written there; a merged range is the
    cell at its top left corner, which holds its text. *)

Inductive cell : Type :=
  | Blank
  | Text (s : string)
  | Number (n : nat).

Record worksheet : Type := mk_worksheet {
  ws_name : string;
  ws_table : gmap (nat * nat) cell
}.

(** [Workbook._check_sheetname]: given the names of the worksheets the
    workbook has and the name asked for, the name the new worksheet gets,
    or the exception for a name that Excel refuses or that is taken. *)
Class Xlsx : Type := check_sheetname : list string → string → result string.

(** [worksheet.write(row, col, value)]. *)
Definition write (r c : nat) (v : cell) : M (gmap (nat * nat) cell) unit :=
  fun table => (<[(r, c) := v]> table, Ok tt).

(** [worksheet.merge_range(row, col, ..., value)]. *)
Definition merge_range (r c : nat) (v : cell) : M (gmap (nat * nat) cell) unit :=
  write r c v.

(** The state of a run of the program: the [Workbook] object once it is
    constructed (the path it was given and its worksheets), and the
    workbook files on disk. *)
Record world : Type := mk_world {
  workbook : option (string * list worksheet);
  files : gmap string (list worksheet)
}.

(** [xlsxwriter.Workbook(output_path)]. *)
Definition new_workbook (output_path : string) : M world unit :=
  fun w => (mk_world (Some (output_path, [])) (files w), Ok tt).

(** Code that works on the worksheets of the run's workbook. *)
Definition with_workbook {A} (m : M (list worksheet) A) : M world A :=
  fun w =>
  match workbook w with
  | Some (path, sheets) =>
      let '(sheets', r) := m sheets in (mk_world (Some (path, sheets')) (files w), r)
  | None => (w, Raise NameError)
  end.

(** [workbook.close()]: the file is written; a workbook without a
    worksheet gets an empty one. *)
Definition close : M world unit :=
  fun w =>
  match workbook w with
  | Some (path, sheets) =>
      let sheets := match sheets with [] => [mk_worksheet "Sheet1" ∅] | _ => sheets end in
      (mk_world (workbook w) (<[path := sheets]> (files w)), Ok tt)
  | None => (w, Raise NameError)
  end.

(** ** [generate_excel_report], lines 62 to 78: the frame of the run *)

(** [df[name].apply(normalize_datetime)]: a NaN cell is not a string. *)
Definition apply_normalize_datetime (cells : list (option string)) : result (list datetime) :=
  map_result (fun cell =>
                match cell with
                | Some value => normalize_datetime value
                | None => Raise TypeError
                end) cells.

(** [df["sublocation"].astype(str).str.split("|", n=1).str[0].str.strip()]
    on one cell. *)
Definition building_of (sublocation : option string) : string :=
  strip (split_head "|" (default "nan" sublocation)).

(** [df[name]] on the frame of line 62. *)
Definition series (data : list (gmap string string)) (name : string)
  : result (list (option string)) :=
  if bool_decide (name ∈ (⋃ (dom <$> data) : gset string))
  then Ok ((fun entry => entry !! name) <$> data)
  else Raise KeyError.

(** Lines 62 to 70. *)
Definition build_frame (data : list (gmap string string)) : result frame :=
  starts ← series data "start_time" ≫= apply_normalize_datetime;
  ends ← series data "end_time" ≫= apply_normalize_datetime;
  _ ← series data "sublocation";
  Ok (mk_frame (⋃ (dom <$> data))
        (zip_with (fun entry '(st, et) =>
                     mk_row entry st et et (building_of (entry !! "sublocation")))
           data (zip starts ends))).

(** Lines 72 to 75. *)
Definition date_filter (date_from date_to : option datetime) (df : frame) : frame :=
  let df := match date_from with
            | Some d => select (fun r => dt_leb d (session_date r)) df
            | None => df
            end in
  match date_to with
  | Some d => select (fun r => dt_leb (session_date r) d) df
  | None => df
  end.

(** Line 78. *)
Definition day_columns (df : frame) : list datetime :=
  sorted_datetimes (unique (normalize ∘ session_date <$> rows df)).

(** ** [generate_site_report] *)

(** [len(df)] and [df.empty]. *)
Definition len (df : frame) : nat := length (rows df).
Definition empty (df : frame) : bool := bool_decide (rows df = []).

(** The text of a value inside an f-string. *)
Definition fmt_value (v : option string) : string := default "nan" v.

(** The total of a row and its loop over the days: lines 286 to 297, which
    lines 305 to 316 and 326 to 337 repeat for the ssid rows and the
    building or sublocation rows. *)
Definition write_counts (r : nat) (sub : frame) (date_cols : list datetime)
  : M (gmap (nat * nat) cell) unit :=
  _ ← write r 2 (Number (len sub));
  macs ← lift (column sub "client_mac");
  _ ← write r 3 (Number (nunique macs));
  for_each (enumerate date_cols) (fun '(i, day) =>
    let base_col := 5 + i * 2 in
    let day_df := on_day day sub in
    _ ← write r base_col (Number (len day_df));
    macs ← lift (column day_df "client_mac");
    write r (base_col + 1) (Number (nunique macs))).

(** The body of [generate_site_report] on the grid of the new worksheet,
    one definition for each of its parts. *)

(** Title. The month is computed and never used. *)
Definition write_title (df : frame) (sheet_name : string) : M (gmap (nat * nat) cell) unit :=
  month ← lift (first_item (mode (strftime_B ∘ start_time <$> rows df)) KeyError);
  _ ← merge_range 0 0 (Text "WiFi Statistics Summary Report");
  merge_range 1 0 (Text sheet_name).

(** Summary. *)
Definition write_summary (df : frame) : M (gmap (nat * nat) cell) unit :=
  _ ← write 3 2 (Text "Client User Summary");
  _ ← write 4 2 (Text "Number of Sessions");
  _ ← write 4 3 (Text "Number of Users");
  _ ← write 5 2 (Number (len df));
  macs ← lift (column df "client_mac");
  write 5 3 (Number (nunique macs)).

(** Static headers. *)
Definition write_static_headers : M (gmap (nat * nat) cell) unit :=
  _ ← write 7 0 (Text "Locations");
  _ ← write 7 1 (Text "SSID");
  _ ← write 7 2 (Text "Number of Sessions");
  _ ← write 7 3 (Text "Number of Users");
  write 7 4 Blank.

(** Day headers. *)
Definition write_day_headers (df : frame) (date_cols : list datetime)
  : M (gmap (nat * nat) cell) unit :=
  for_each (enumerate date_cols) (fun '(idx, day) =>
    let base_col := 5 + idx * 2 in
    _ ← merge_range 5 base_col (Text (strftime_d_b day));
    _ ← write 6 base_col (Text "Sessions");
    _ ← write 6 (base_col + 1) (Text "Users");
    let day_df := on_day day df in
    _ ← write 7 base_col (Number (len day_df));
    macs ← lift (column day_df "client_mac");
    write 7 (base_col + 1) (Number (nunique macs))).

(** Time range. *)
Definition write_time_range (df : frame) (date_cols : list datetime)
  : M (gmap (nat * nat) cell) unit :=
  let total_col := 5 + length date_cols * 2 in
  let timeset := sorted_datetimes (end_time <$> rows df) in
  _ ← write 4 (total_col + 2) (Text "Time Stamps from Client Summary");
  _ ← write 5 (total_col + 2) (Text "Start time:");
  first ← lift (first_item timeset IndexError);
  _ ← write 5 (total_col + 3) (Text (str_datetime first));
  _ ← write 6 (total_col + 2) (Text "End time:");
  final ← lift (last_item timeset);
  write 6 (total_col + 3) (Text (str_datetime final)).

(** Data rows: the SSID rows of a location. *)
Definition write_ssid_rows (loc_df : frame) (date_cols : list datetime) (cursor : nat)
  : M (gmap (nat * nat) cell) nat :=
  ssids ← lift (column loc_df "ssid");
  fold_each (unique ssids) cursor (fun cursor ssid =>
    ssid_df ← lift (where_eq loc_df "ssid" ssid);
    let cursor := cursor + 1 in
    _ ← write (cursor - 1) 1 (Text ("    " +:+ fmt_value ssid));
    _ ← write_counts (cursor - 1) ssid_df date_cols;
    mret cursor).

(** Data rows: the building or sublocation rows of a location. *)
Definition write_group_rows (loc_df : frame) (date_cols : list datetime)
  (aggregate_floors : bool) (cursor : nat) : M (gmap (nat * nat) cell) nat :=
  let group_col := if aggregate_floors then "building" else "sublocation" in
  groups ← lift (column loc_df group_col);
  fold_each (unique (dropna groups)) cursor (fun cursor name =>
    sub_df ← lift (where_eq loc_df group_col (Some name));
    let cursor := cursor + 1 in
    _ ← write (cursor - 1) 0 (Text ("        " +:+ name));
    _ ← write_counts (cursor - 1) sub_df date_cols;
    mret cursor).

(** Data rows: the block of one location. *)
Definition write_location_block (df : frame) (date_cols : list datetime)
  (aggregate_floors : bool) (cursor : nat) (location : option string)
  : M (gmap (nat * nat) cell) nat :=
  loc_df ← lift (where_eq df "location" location);
  let cursor := cursor + 1 in
  _ ← write (cursor - 1) 0 (Text ("    " +:+ fmt_value location));
  _ ← write_counts (cursor - 1) loc_df date_cols;
  cursor ← write_ssid_rows loc_df date_cols cursor;
  write_group_rows loc_df date_cols aggregate_floors cursor.

(** Data rows. *)
Definition write_data_rows (df : frame) (date_cols : list datetime)
  (aggregate_floors : bool) : M (gmap (nat * nat) cell) nat :=
  let cursor := 8 in
  locations ← lift (column df "location");
  fold_each (unique locations) cursor (write_location_block df date_cols aggregate_floors).

Definition site_report_cells (df : frame) (sheet_name : string)
  (date_cols : list datetime) (aggregate_floors : bool)
  : M (gmap (nat * nat) cell) unit :=
  _ ← write_title df sheet_name;
  _ ← write_summary df;
  _ ← write_static_headers;
  _ ← write_day_headers df date_cols;
  _ ← write_time_range df date_cols;
  _ ← write_data_rows df date_cols aggregate_floors;
  mret tt.

(** [generate_site_report(df, sheet_name, workbook, date_cols,
    aggregate_floors)]; the workbook is the state. An exception inside the
    body leaves the new worksheet in the workbook as far as it was
    written. *)
Definition generate_site_report `{Xlsx} (df : frame) (sheet_name : string)
  (date_cols : list datetime) (aggregate_floors : bool) : M (list worksheet) unit :=
  fun sheets =>
  match check_sheetname (ws_name <$> sheets) (str_take 31 sheet_name) with
  | Raise e => (sheets, Raise e)
  | Ok name =>
      let '(table, r) := site_report_cells df sheet_name date_cols aggregate_floors ∅ in
      (sheets ++ [mk_worksheet name table], r)
  end.

(** ** [generate_excel_report] *)

Definition generate_excel_report `{Xlsx} (data : list (gmap string string))
  (selected_sites : list string) (output_path : string)
  (date_from date_to : option datetime)
  (aggregate_floors tab_per_building : bool) : M world unit :=
  df ← lift (build_frame data);
  let df := date_filter date_from date_to df in
  (* Order of dates for consistent columns *)
  let date_cols := day_columns df in
  _ ← new_workbook output_path;
  (* Aggregate report (multiple sites) *)
  _ ← (if (1 <? length selected_sites)%nat then
         agg_df ← lift (where_isin df "location" selected_sites);
         with_workbook (generate_site_report agg_df "Report" date_cols aggregate_floors)
       else mret tt);
  (* Per-site reports *)
  _ ← for_each selected_sites (fun site =>
         site_df ← lift (where_eq df "location" (Some site));
         if negb (empty site_df) then
           with_workbook (generate_site_report site_df site date_cols aggregate_floors)
         else mret tt);
  (* Per-building reports (ONLY when aggregating floors) *)
  _ ← (if aggregate_floors && tab_per_building then
         building_df ← lift (where_isin df "location" selected_sites);
         buildings ← lift (column building_df "building");
         for_each (sorted_strings (unique (dropna buildings))) (fun building =>
           bldg_df ← lift (where_eq building_df "building" (Some building));
           if empty bldg_df then mret tt
           else
             let sheet_name := str_take 31 ("Bldg - " +:+ building) in
             with_workbook (generate_site_report bldg_df sheet_name date_cols true))
       else mret tt);
  close.

(** ** The checks of xlsxwriter on worksheet names

    The properties below hold for any [Xlsx]; this instance, the rules of
    [Workbook._check_sheetname], is the one the worked examples run with. *)

Fixpoint str_exists (p : ascii → bool) (s : string) : bool :=
  match s with
  | "" => false
  | String c s => p c || str_exists p s
  end.

Definition invalid_sheet_char (c : ascii) : bool :=
  bool_decide (c ∈ ["["; "]"; ":"; "*"; "?"; "/"; "\"]%char).

Definition xlsxwriter_check_sheetname : Xlsx := fun existing sheetname =>
  let sheetname :=
    if bool_decide (sheetname = "")
    then "Sheet" +:+ decimal (N.of_nat (S (length existing)))
    else sheetname in
  if (31 <? String.length sheetname)%nat then Raise SheetNameError
  else if str_exists invalid_sheet_char sheetname then Raise SheetNameError
  else if startswith "'" sheetname || endswith sheetname "'" then Raise SheetNameError
  else if bool_decide (lower sheetname ∈ lower <$> existing) then Raise SheetNameError
  else Ok sheetname.

(** ** Notions of the specification *)

Fixpoint str_forall (p : ascii → bool) (s : string) : bool :=
  match s with
  | "" => true
  | String c s => p c && str_forall p s
  end.

Definition first_char (s : string) : option ascii :=
  match s with
  | String c _ => Some c
  | "" => None
  end.

Fixpoint last_char (s : string) : option ascii :=
  match s with
  | "" => None
  | String c "" => Some c
  | String _ s => last_char s
  end.

(** [t] is [s] without its leading and trailing white space. *)
Definition trimmed (s t : string) : Prop :=
  ∃ before after, s = before +:+ t +:+ after
    ∧ str_forall is_space before = true ∧ str_forall is_space after = true
    ∧ (∀ c, first_char t = Some c → is_space c = false)
    ∧ (∀ c, last_char t = Some c → is_space c = false).

(** [p] is the text of [s] before its first ["|"], all of [s] when it has
    none. *)
Definition before_first_pipe (s p : string) : Prop :=
  str_exists (fun c => bool_decide (c = "|"%char)) p = false
  ∧ (s = p ∨ ∃ rest, s = p +:+ "|" +:+ rest).

(** A timestamp cell that is missing or matches neither pattern. *)
Definition bad_timestamp (cell : option string) : Prop :=
  match cell with
  | None => True
  | Some value =>
      strptime value "%Y-%m-%d %H:%M:%S" = None ∧ strptime value "%m/%d/%y %H:%M" = None
  end.

(** The inputs that ingestion recognises, and the records of one of them. *)
Definition is_csv_name (name : string) : bool := endswith (lower name) ".csv".
Definition is_zip_name (name : string) : bool := endswith (lower name) ".zip".
Definition recognized (path : string) : bool := is_csv_name path || is_zip_name path.

Definition source_records (fs : gmap string file) (path : string)
  : result (list (gmap string string)) :=
  if is_csv_name path then csv_import_path fs path
  else
    z ← open_zip fs path;
    rows ← map_result (csv_import_member z) (filter (fun n => is_csv_name n = true) z.*1);
    Ok (concat rows).

(** The granularities of the report: the whole sheet, a location, an SSID
    at a location, a building or sublocation at a location. *)
Inductive granularity : Type :=
  | Whole
  | Location (location : option string)
  | Ssid (location ssid : option string)
  | Group (location : option string) (name : string).

Definition group_column (aggregate_floors : bool) : string :=
  if aggregate_floors then "building" else "sublocation".

Definition in_granularity (aggregate_floors : bool) (g : granularity) (r : row) : bool :=
  match g with
  | Whole => true
  | Location l => eq_scalar l (cell_of "location" r)
  | Ssid l s => eq_scalar l (cell_of "location" r) && eq_scalar s (cell_of "ssid" r)
  | Group l name =>
      eq_scalar l (cell_of "location" r)
      && eq_scalar (Some name) (cell_of (group_column aggregate_floors) r)
  end.

(** The rows of a frame at a granularity. *)
Definition subset (aggregate_floors : bool) (g : granularity) (df : frame) : frame :=
  select (in_granularity aggregate_floors g) df.

(** The two statistics: the number of rows, and the number of distinct
    client MAC addresses. *)
Definition sessions (df : frame) : nat := length (rows df).
Definition users (df : frame) : nat :=
  size (list_to_set (dropna (cell_of "client_mac" <$> rows df)) : gset string).

(** The lines of the data rows, top to bottom: for each location its own
    line, a line for each SSID seen there, a line for each building or
    sublocation seen there. *)
Definition location_lines (aggregate_floors : bool) (df : frame) (l : option string)
  : list granularity :=
  let loc_df := subset aggregate_floors (Location l) df in
  Location l
  :: (Ssid l <$> unique (cell_of "ssid" <$> rows loc_df))
  ++ (Group l <$> unique (dropna (cell_of (group_column aggregate_floors) <$> rows loc_df))).

Definition report_lines (aggregate_floors : bool) (df : frame) : list granularity :=
  unique (cell_of "location" <$> rows df) ≫= location_lines aggregate_floors df.

(** The grid [t] shows the statistics of [sub]: the totals in columns 2 and
    3 of row [r_total], and for the [i]-th day column the sessions and
    users of that day in columns [5 + 2 i] and [6 + 2 i] of row [r_days]. *)
Definition shows_counts (t : gmap (nat * nat) cell) (r_total r_days : nat)
  (sub : frame) (date_cols : list datetime) : Prop :=
  t !! (r_total, 2) = Some (Number (sessions sub))
  ∧ t !! (r_total, 3) = Some (Number (users sub))
  ∧ ∀ i day, date_cols !! i = Some day →
      t !! (r_days, 5 + 2 * i) = Some (Number (sessions (on_day day sub)))
      ∧ t !! (r_days, 6 + 2 * i) = Some (Number (users (on_day day sub))).

(** The grid [t] has the day header of every day column. *)
Definition shows_day_headers (t : gmap (nat * nat) cell) (date_cols : list datetime) : Prop :=
  ∀ i day, date_cols !! i = Some day →
    t !! (5, 5 + 2 * i) = Some (Text (strftime_d_b day))
    ∧ t !! (6, 5 + 2 * i) = Some (Text "Sessions")
    ∧ t !! (6, 6 + 2 * i) = Some (Text "Users").

(** The grid [t] shows the lines [lines] in the rows from [top] down. *)
Definition shows_lines (t : gmap (nat * nat) cell) (top : nat) (lines : list granularity)
  (aggregate_floors : bool) (df : frame) (date_cols : list datetime) : Prop :=
  ∀ j g, lines !! j = Some g →
    shows_counts t (top + j) (top + j) (subset aggregate_floors g df) date_cols.

(** The sheets of a run, in order, each with its scope, the name asked
    for and its floor aggregation: the combined sheet when more than one
    site is selected, a sheet for each selected site that has rows, and,
    when both options are set, a sheet for each building of the selected
    sites. *)
Definition sheet_plan (df : frame) (selected_sites : list string)
  (aggregate_floors tab_per_building : bool) : list (frame * string * bool) :=
  let selected := select (fun r => isin selected_sites (cell_of "location" r)) df in
  (if (1 <? length selected_sites)%nat then [(selected, "Report", aggregate_floors)] else [])
  ++ (site ← selected_sites;
      let site_df := select (fun r => eq_scalar (Some site) (cell_of "location" r)) df in
      if empty site_df then [] else [(site_df, site, aggregate_floors)])
  ++ (if aggregate_floors && tab_per_building then
        (fun b => (select (fun r => eq_scalar (Some b) (cell_of "building" r)) selected,
                   str_take 31 ("Bldg - " +:+ b), true))
        <$> sorted_strings (unique (dropna (cell_of "building" <$> rows selected)))
      else []).

(** [new] are the worksheets that rendering the sheets of [plan] in order
    adds to a workbook that holds the worksheets [before]: each has the
    name that the workbook gives it and the grid that the body of
    [generate_site_report] fills for its entry. *)
Inductive rendered `{Xlsx} (date_cols : list datetime)
  : list worksheet → list (frame * string * bool) → list worksheet → Prop :=
  | rendered_nil before : rendered date_cols before [] []
  | rendered_cons before sub name aggregate_floors plan ws new :
      check_sheetname (ws_name <$> before) (str_take 31 name) = Ok (ws_name ws) →
      site_report_cells sub name date_cols aggregate_floors ∅ = (ws_table ws, Ok tt) →
      rendered date_cols (before ++ [ws]) plan new →
      rendered date_cols before ((sub, name, aggregate_floors) :: plan) (ws :: new).

(** Strictly earlier. *)
Definition dt_lt (a b : datetime) : Prop := dt_le a b ∧ a ≠ b.

(** ** Notions of the further properties *)

(** A step of a run that writes no file and, when the [Workbook] object
    exists, leaves it in place with the path it was given. *)
Definition keeps_files {A} (m : M world A) : Prop :=
  ∀ w w' r, m w = (w', r) →
    files w' = files w
    ∧ ∀ path sheets, workbook w = Some (path, sheets) →
        ∃ sheets', workbook w' = Some (path, sheets').

(** A computation that returns, whatever the state it starts in. *)
Definition returns {S A} (m : M S A) : Prop := ∀ s, ∃ s' a, m s = (s', Ok a).

(** The label of a line of the data rows: its column and its text. *)
Definition line_label (g : granularity) : option (nat * string) :=
  match g with
  | Whole => None
  | Location l => Some (0, "    " +:+ fmt_value l)
  | Ssid _ s => Some (1, "    " +:+ fmt_value s)
  | Group _ name => Some (0, "        " +:+ name)
  end.

(** From the grid [t0], the lines [lines] were written into the rows from
    [top] down, and nothing else: a row of a line has its label, and
    outside the label, the two totals and the [n] pairs of day cells it is
    as it was; the other rows are as they were. *)
Definition lines_written (t0 t : gmap (nat * nat) cell) (top : nat)
    (lines : list granularity) (n : nat) : Prop :=
  (∀ j g, lines !! j = Some g →
     ∃ c text, line_label g = Some (c, text)
       ∧ t !! (top + j, c) = Some (Text text)
       ∧ ∀ c', c' ≠ c → c' ≠ 2 → c' ≠ 3 → c' < 5 ∨ 5 + 2 * n ≤ c' →
           t !! (top + j, c') = t0 !! (top + j, c'))
  ∧ (∀ r c, r < top ∨ top + length lines ≤ r → t !! (r, c) = t0 !! (r, c)).

(** ** [Wifi_Client_Report_Generator.py]: the window

    The window [ReportUI] is the records it holds, the texts of its site
    list and the state of its check boxes. The selection in the site list,
    the dates in the two date fields and the answers of the file dialogs
    belong to Qt: a handler takes what it reads of them as arguments. A
    message box is its kind and its title; [file_path], which nothing
    reads, is left out. *)

(** A [datetime.date] and a [datetime.time]. *)
Record date : Type := mk_date {
  date_year : N;
  date_month : N;
  date_day : N
}.

Record time : Type := mk_time {
  time_hour : N;
  time_minute : N;
  time_second : N;
  time_microsecond : N
}.

(** [datetime.min.time()] and [datetime.max.time()]. *)
Definition min_time : time := mk_time 0 0 0 0.
Definition max_time : time := mk_time 23 59 59 999999.

(** [datetime.combine(d, t)]. *)
Definition combine (d : date) (t : time) : datetime :=
  mk_datetime (date_year d) (date_month d) (date_day d)
    (time_hour t) (time_minute t) (time_second t) (time_microsecond t).

(** What a handler shows: message boxes, and a file opened in the
    browser. *)
Inductive shown : Type :=
  | Warning (title : string)
  | Critical (title : string)
  | Information (title : string)
  | Opened (path : string).

Module ReportUI.

Record t : Type := mk {
  data : list (gmap string string);
  site_list : list string;
  combine_floors_cb : bool;
  tab_per_building : bool;
  tab_per_building_enabled : bool;
  open_after_checkbox : bool
}.

(** [__init__]. *)
Definition init : t := mk [] [] false false false false.

(** The loop of lines 93 to 100 over the records: the end times that
    parse. A record without end time, or with an empty one, is passed
    over, and so is one on which [normalize_datetime] raises [ValueError];
    another exception would leave the handler. *)
Fixpoint scan_dates (rows : list (gmap string string)) : result (list datetime) :=
  match rows with
  | [] => Ok []
  | row :: rows =>
      match row !! "end_time" with
      | None => scan_dates rows
      | Some end_time =>
          if bool_decide (end_time = "") then scan_dates rows
          else
            match normalize_datetime end_time with
            | Ok d => dates ← scan_dates rows; Ok (d :: dates)
            | Raise ValueError => scan_dates rows
            | Raise e => Raise e
            end
      end
  end.

(** [load_csv], where [paths] is the answer of the file dialog. The
    sorted list of a set of strings is the sorted list of its elements,
    in whichever order the set gives them. *)
Definition load_csv (fs : gmap string file) (paths : list string) (ui : t)
  : result (t * list shown) :=
  if bool_decide (paths = []) then Ok (ui, [])
  else
    match ingest_files fs paths with
    | Raise _ => Ok (ui, [Critical "Error"])
    | Ok rows =>
        let ui := mk rows (site_list ui) (combine_floors_cb ui) (tab_per_building ui)
                    (tab_per_building_enabled ui) (open_after_checkbox ui) in
        if bool_decide (rows = []) then Ok (ui, [Warning "No Data"])
        else
          dates ← scan_dates rows;
          if bool_decide (dates = []) then Ok (ui, [Warning "No Valid Dates"])
          else
            (* Populate sites *)
            sites ← map_result (fun d : gmap string string =>
                                  match d !! "location" with
                                  | Some site => Ok site
                                  | None => Raise KeyError
                                  end) rows;
            Ok (mk rows (sorted_strings (unique sites)) (combine_floors_cb ui)
                  (tab_per_building ui) (tab_per_building_enabled ui)
                  (open_after_checkbox ui), [])
    end.

(** [toggle_combine_floors(state)]. *)
Definition toggle_combine_floors (state : bool) (ui : t) : t :=
  if negb state then
    mk (data ui) (site_list ui) (combine_floors_cb ui) false false (open_after_checkbox ui)
  else
    mk (data ui) (site_list ui) (combine_floors_cb ui) (tab_per_building ui) true
      (open_after_checkbox ui).

(** A click on one of the two check boxes of the report options. A click
    on [combine_floors_cb] changes its state and emits [stateChanged],
    which is connected to [toggle_combine_floors]; a click on
    [tab_per_building] changes its state when the box is enabled, and does
    nothing when it is not. *)
Inductive click : Type :=
  | click_combine_floors_cb
  | click_tab_per_building.

Definition on_click (c : click) (ui : t) : t :=
  match c with
  | click_combine_floors_cb =>
      let state := negb (combine_floors_cb ui) in
      toggle_combine_floors state
        (mk (data ui) (site_list ui) state (tab_per_building ui)
           (tab_per_building_enabled ui) (open_after_checkbox ui))
  | click_tab_per_building =>
      if tab_per_building_enabled ui then
        mk (data ui) (site_list ui) (combine_floors_cb ui) (negb (tab_per_building ui))
          (tab_per_building_enabled ui) (open_after_checkbox ui)
      else ui
  end.

(** [generate_report], where [selected_sites] are the texts of the
    selected items, [chosen] is the answer of the save dialog (empty when
    the dialog is cancelled) and [date_from], [date_to] are the dates of
    the two date fields. Whatever [generate_excel_report] raises is shown
    and not raised again. *)
Definition generate_report `{Xlsx} (ui : t) (selected_sites : list string)
    (chosen : string) (date_from date_to : date) : M world (list shown) :=
  if bool_decide (data ui = []) then mret [Warning "No Data"]
  else if bool_decide (selected_sites = []) then mret [Warning "No Sites"]
  else
    let output_path := if endswith chosen ".xlsx" then chosen else chosen +:+ ".xlsx" in
    let date_from := combine date_from min_time in
    let date_to := combine date_to max_time in
    fun w =>
    match generate_excel_report (data ui) selected_sites output_path
            (Some date_from) (Some date_to) (combine_floors_cb ui) (tab_per_building ui) w
    with
    | (w', Ok _) =>
        (w', Ok (Information "Done"
                 :: if open_after_checkbox ui then [Opened output_path] else []))
    | (w', Raise _) => (w', Ok [Critical "Error"])
    end.

End ReportUI.

(** The states of the window that the user can bring about: from the
    window as [__init__] builds it, by clicks on the two check boxes and
    by loading files. [generate_report] leaves the window as it is. *)
Inductive reachable : ReportUI.t → Prop :=
  | reachable_init : reachable ReportUI.init
  | reachable_click ui c : reachable ui → reachable (ReportUI.on_click c ui)
  | reachable_load ui fs paths ui' shown :
      reachable ui → ReportUI.load_csv fs paths ui = Ok (ui', shown) → reachable ui'.

(** The strict order of strings by code points. *)
Definition string_lt (a b : string) : Prop := String.le a b ∧ a ≠ b.

(** ** A worked example

    The two sessions of the end-to-end scenario of the specification, a
    third record whose end time is no timestamp, and a small file system. *)

Definition is_ok {A} (r : result A) : bool :=
  match r with
  | Ok _ => true
  | Raise _ => false
  end.

Definition from_ok {A} (d : A) (r : result A) : A :=
  match r with
  | Ok a => a
  | Raise _ => d
  end.

Definition session_1 : gmap string string :=
  list_to_map
    [("location", "Site A"); ("sublocation", "Bldg1|F1"); ("ssid", "Guest");
     ("client_mac", "AA:BB"); ("start_time", "2024-01-01 08:00:00");
     ("end_time", "2024-01-01 08:30:00")].

Definition session_2 : gmap string string :=
  list_to_map
    [("location", "Site A"); ("sublocation", "Bldg1|F2"); ("ssid", "Guest");
     ("client_mac", "CC:DD"); ("start_time", "2024-01-01 09:00:00");
     ("end_time", "2024-01-01 09:15:00")].

Definition session_bad : gmap string string :=
  list_to_map
    [("location", "Site A"); ("sublocation", "Bldg1|F1"); ("ssid", "Guest");
     ("client_mac", "EE:FF"); ("start_time", "2024-01-01 10:00:00");
     ("end_time", "not-a-date")].

Definition example_data : list (gmap string string) := [session_1; session_2].

Definition example_frame : frame := from_ok (mk_frame ∅ []) (build_frame example_data).

Definition example_row : row :=
  default (mk_row ∅ (mk_datetime 1 1 1 0 0 0 0) (mk_datetime 1 1 1 0 0 0 0)
             (mk_datetime 1 1 1 0 0 0 0) "")
    (head (rows example_frame)).

Definition fresh_world : world := mk_world None ∅.

(** Two sites selected, of which ["Site B"] has no rows; both options set. *)
Definition example_run : world * result unit :=
  @generate_excel_report xlsxwriter_check_sheetname example_data ["Site A"; "Site B"]
    "report.xlsx" None None true true fresh_world.

(** The end-to-end scenario: one site selected, floors not aggregated. *)
Definition scenario_run : world * result unit :=
  @generate_excel_report xlsxwriter_check_sheetname example_data ["Site A"]
    "report.xlsx" None None false false fresh_world.

(** The cells of a sheet at the given places. *)
Definition cells_at (places : list (nat * nat)) (ws : worksheet) : list (option cell) :=
  (fun place => ws_table ws !! place) <$> places.

Definition example_files : gmap string file :=
  {[ "sessions.csv" :=
       mk_file
         (Ok [["location"; "sublocation"; "associate_vlan"; "device_mac"; "client_mac"];
              ["Site A"; "Bldg1|F1"; "10"; "00:11"; "AA:BB"]])
         (Raise BadZipFile) ]}.

(** A session at a site whose name Excel does not take as a sheet name. *)
Definition session_slash : gmap string string :=
  list_to_map
    [("location", "North/South"); ("sublocation", "Bldg1|F1"); ("ssid", "Guest");
     ("client_mac", "AA:BB"); ("start_time", "2024-01-01 08:00:00");
     ("end_time", "2024-01-01 08:30:00")].

Definition slash_frame : frame := from_ok (mk_frame ∅ []) (build_frame [session_slash]).

Definition slash_row : row :=
  default (mk_row ∅ (mk_datetime 1 1 1 0 0 0 0) (mk_datetime 1 1 1 0 0 0 0)
             (mk_datetime 1 1 1 0 0 0 0) "")
    (head (rows slash_frame)).

(** A file with a title line above the header row, a cell with white space
    around it and a row that is too short. *)
Definition example_headers : list string :=
  ["location"; "sublocation"; "associate_vlan"; "device_mac"; "client_mac"].

Definition example_after : list (list string) :=
  [["Site A"; " Bldg1|F1 "; "10"; "00:11"; "AA:BB"]; ["Site A"; "Bldg1|F2"]].

Definition example_reader : list (list string) :=
  [["Client report"]] ++ example_headers :: example_after.

(** * Properties *)

(** ** Results *)

Lemma bind_Ok {A B} (r : result A) (f : A → result B) b :
  r ≫= f = Ok b ↔ ∃ a, r = Ok a ∧ f a = Ok b.
Proof.
  destruct r as [a|e]; simpl; split.
  - eauto.
  - by intros (? & [= ->] & ?).
  - done.
  - by intros (? & [=] & _).
Qed.

Lemma map_result_Ok {A B} (f : A → result B) l ys :
  map_result f l = Ok ys ↔ Forall2 (fun x y => f x = Ok y) l ys.
Proof.
  revert ys. induction l as [|x l IH]; intros ys; simpl.
  - split; [intros [= <-]; constructor | by inversion 1].
  - split.
    + intros (y & Hy & (zs & Hzs & [= <-])%bind_Ok)%bind_Ok.
      constructor; [done | by apply IH].
    + inversion 1 as [|? y ? zs Hy Hzs]; subst.
      apply bind_Ok. exists y. split; [done|].
      apply bind_Ok. exists zs. split; [by apply IH | done].
Qed.

Lemma map_result_raises {A B} (f : A → result B) l x :
  x ∈ l → raises (f x) → raises (map_result f l).
Proof.
  intros Hin [e He]. induction l as [|y l IH]; [by apply elem_of_nil in Hin|].
  apply elem_of_cons in Hin as [<- | Hin]; simpl.
  - rewrite He. by exists e.
  - destruct (f y); simpl; [|by eexists].
    destruct (IH Hin) as [e' ->]. by exists e'.
Qed.

(** ** Timestamp normalisation *)

Lemma normalize_datetime_unfold value :
  normalize_datetime value =
    match strptime value "%Y-%m-%d %H:%M:%S" with
    | Some t => Ok t
    | None =>
        match strptime value "%m/%d/%y %H:%M" with
        | Some t => Ok t
        | None => Raise ValueError
        end
    end.
Proof. reflexivity. Qed.

(** C7. [normalize_datetime] tries ["%Y-%m-%d %H:%M:%S"] and then
    ["%m/%d/%y %H:%M"] and returns the first parse that succeeds; it raises
    exactly when neither pattern matches, and then it raises [ValueError].
    ["2024-03-01 13:45:00"] and ["3/1/24 13:45"] both parse, to the same
    calendar day, and ["not-a-date"] is refused. *)
Theorem normalize_datetime_first_match :
  (∀ value t, strptime value "%Y-%m-%d %H:%M:%S" = Some t →
     normalize_datetime value = Ok t)
  ∧ (∀ value t, strptime value "%Y-%m-%d %H:%M:%S" = None →
       strptime value "%m/%d/%y %H:%M" = Some t →
       normalize_datetime value = Ok t)
  ∧ (∀ value, raises (normalize_datetime value) ↔
       strptime value "%Y-%m-%d %H:%M:%S" = None
       ∧ strptime value "%m/%d/%y %H:%M" = None)
  ∧ (∀ value e, normalize_datetime value = Raise e → e = ValueError)
  ∧ (∃ a b, normalize_datetime "2024-03-01 13:45:00" = Ok a
       ∧ normalize_datetime "3/1/24 13:45" = Ok b
       ∧ normalize a = normalize b)
  ∧ normalize_datetime "not-a-date" = Raise ValueError.
Proof.
  split_and!.
  - intros value t H. by rewrite normalize_datetime_unfold, H.
  - intros value t H1 H2. by rewrite normalize_datetime_unfold, H1, H2.
  - intros value. rewrite normalize_datetime_unfold. unfold raises.
    destruct (strptime value "%Y-%m-%d %H:%M:%S"), (strptime value "%m/%d/%y %H:%M");
      (split; [intros [e He]; by simplify_eq | intros [H1 H2]; simplify_eq; eauto]).
  - intros value e. rewrite normalize_datetime_unfold.
    destruct (strptime value "%Y-%m-%d %H:%M:%S"), (strptime value "%m/%d/%y %H:%M");
      by intros [=].
  - exists (mk_datetime 2024 3 1 13 45 0 0), (mk_datetime 2024 3 1 13 45 0 0).
    split_and!; by vm_compute.
  - by vm_compute.
Qed.

(** ** Strings *)

Lemma app_String c s t : String c s +:+ t = String c (s +:+ t).
Proof. reflexivity. Qed.

Lemma app_empty_l s : "" +:+ s = s.
Proof. reflexivity. Qed.

Lemma app_empty_r s : s +:+ "" = s.
Proof. induction s as [|c s IH]; [done|]. by rewrite app_String, IH. Qed.

Lemma app_assoc_str s t u : (s +:+ t) +:+ u = s +:+ t +:+ u.
Proof. induction s as [|c s IH]; [done|]. by rewrite !app_String, IH. Qed.

Lemma lstrip_spec s :
  ∃ before, s = before +:+ lstrip s
    ∧ str_forall is_space before = true
    ∧ ∀ c, first_char (lstrip s) = Some c → is_space c = false.
Proof.
  induction s as [|c s (before & Hs & Hb & Hc)]; simpl.
  - by exists "".
  - destruct (is_space c) eqn:Hsp.
    + exists (String c before). rewrite app_String, <- Hs. simpl. by rewrite Hsp, Hb.
    + exists "". split_and!; [done..|]. by intros ? [= <-].
Qed.

Lemma rstrip_spec s :
  ∃ after, s = rstrip s +:+ after
    ∧ str_forall is_space after = true
    ∧ ∀ c, last_char (rstrip s) = Some c → is_space c = false.
Proof.
  induction s as [|c s (after & Hs & Ha & Hc)]; simpl.
  - by exists "".
  - destruct (rstrip s) as [|d t] eqn:Ht.
    + rewrite app_empty_l in Hs. subst after. destruct (is_space c) eqn:Hsp.
      * exists (String c s). rewrite app_empty_l. simpl. by rewrite Hsp, Ha.
      * exists s. rewrite app_String, app_empty_l.
        split_and!; [done..|]. by intros ? [= <-].
    + exists after. rewrite app_String, <- Hs. split_and!; [done..|].
      intros c'. simpl. apply Hc.
Qed.

Lemma rstrip_first_char s c : first_char (rstrip s) = Some c → first_char s = Some c.
Proof.
  destruct s as [|d s]; simpl; [done|].
  destruct (rstrip s); [destruct (is_space d)|]; simpl; congruence.
Qed.

Lemma strip_trimmed s : trimmed s (strip s).
Proof.
  destruct (lstrip_spec s) as (before & Hs & Hb & Hc).
  destruct (rstrip_spec (lstrip s)) as (after & Hl & Ha & Hd).
  exists before, after. unfold strip. split_and!; [|done..| |done].
  - by rewrite <- Hl.
  - intros c Hfirst. by apply Hc, rstrip_first_char.
Qed.

Lemma split_head_before_first_pipe s : before_first_pipe s (split_head "|" s).
Proof.
  unfold before_first_pipe. induction s as [|c s [Hno Hs]]; simpl.
  - auto.
  - case_bool_decide as Hc; simpl.
    + split; [done|]. right. exists s. by subst.
    + rewrite bool_decide_eq_false_2 by done. split; [done|].
      destruct Hs as [Hs | [rest Hs]].
      * left. by rewrite <- Hs.
      * right. exists rest. by rewrite app_String, <- Hs.
Qed.

(** ** The frame of the run *)

Lemma series_Ok data name cells :
  series data name = Ok cells → cells = (fun entry : gmap string string => entry !! name) <$> data.
Proof. unfold series. case_bool_decide; by intros [=]. Qed.

Lemma apply_normalize_datetime_Ok cells ts :
  apply_normalize_datetime cells = Ok ts →
  Forall2 (fun cell t => ∃ value, cell = Some value ∧ normalize_datetime value = Ok t) cells ts.
Proof.
  intros H%map_result_Ok. eapply Forall2_impl; [done|].
  intros [value|] t; simpl; [eauto | done].
Qed.

(** The rows of the frame, one per record and in the order of the records. *)
Lemma build_frame_rows data df :
  build_frame data = Ok df →
  Forall2 (fun entry r =>
             fields r = entry
             ∧ (∃ value, entry !! "start_time" = Some value
                  ∧ normalize_datetime value = Ok (start_time r))
             ∧ (∃ value, entry !! "end_time" = Some value
                  ∧ normalize_datetime value = Ok (end_time r))
             ∧ session_date r = end_time r
             ∧ building r = building_of (entry !! "sublocation"))
          data (rows df).
Proof.
  unfold build_frame.
  intros (starts & (c1 & Hc1 & Hs)%bind_Ok & (ends & (c2 & Hc2 & He)%bind_Ok
            & (c3 & _ & [= <-])%bind_Ok)%bind_Ok)%bind_Ok.
  apply series_Ok in Hc1 as ->. apply series_Ok in Hc2 as ->.
  apply apply_normalize_datetime_Ok in Hs, He. simpl.
  clear c3. revert starts ends Hs He.
  induction data as [|entry data IH]; intros starts ends Hs He.
  - inversion Hs; inversion He; subst. constructor.
  - inversion Hs as [|? st ? starts' Hst Hs']; inversion He as [|? et ? ends' Het He']; subst.
    simpl. constructor; [|by apply IH]. simpl. done.
Qed.

Lemma build_frame_row data df r :
  build_frame data = Ok df → r ∈ rows df →
  fields r ∈ data ∧ session_date r = end_time r
  ∧ building r = building_of (fields r !! "sublocation").
Proof.
  intros Hrows%build_frame_rows Hr.
  apply list_elem_of_lookup in Hr as [i Hi].
  destruct (Forall2_lookup_r _ _ _ _ _ Hrows Hi) as (entry & Hentry & <- & _ & _ & ? & ?).
  split_and!; [|done..]. by eapply list_elem_of_lookup_2.
Qed.

(** ** Header detection *)

Lemma is_header_row_spec row :
  is_header_row row = true ↔
  "location" ∈ row ∧ "sublocation" ∈ row ∧ "associate_vlan" ∈ row ∧ "device_mac" ∈ row.
Proof.
  unfold is_header_row. simpl. rewrite !andb_true_iff, !bool_decide_eq_true. tauto.
Qed.

Lemma find_headers_first before headers after :
  Forall (fun row => is_header_row row = false) before →
  is_header_row headers = true →
  find_headers (before ++ headers :: after) = Some (headers, after).
Proof.
  intros Hbefore Hheaders. induction Hbefore as [|row before Hrow _ IH]; simpl.
  - by rewrite Hheaders.
  - by rewrite Hrow.
Qed.

(** The first row that holds the four trigger names, wherever they stand in
    it, is the header row, and the rows behind it are parsed against it. *)
Lemma csv_import_header_row before headers after :
  Forall (fun row => is_header_row row = false) before →
  "location" ∈ headers → "sublocation" ∈ headers →
  "associate_vlan" ∈ headers → "device_mac" ∈ headers →
  csv_import (before ++ headers :: after) = import_rows (make_header_map headers) after.
Proof.
  intros Hbefore ????. unfold csv_import.
  rewrite (find_headers_first before headers after); [done..|].
  by apply is_header_row_spec.
Qed.

(** Without a header row [headers] is never bound, and line 51 raises. *)
Lemma csv_import_no_header reader :
  Forall (fun row => is_header_row row = false) reader →
  csv_import reader = Raise NameError.
Proof.
  intros Hreader. unfold csv_import.
  assert (find_headers reader = None) as ->; [|done].
  induction Hreader as [|row reader Hrow _ IH]; simpl; [done|]. by rewrite Hrow.
Qed.

Lemma find_headers_Some reader headers rest :
  find_headers reader = Some (headers, rest) → is_header_row headers = true.
Proof.
  induction reader as [|row reader IH]; simpl; [done|].
  destruct (is_header_row row) eqn:Hrow; [by intros [= <- _]|done].
Qed.

Lemma make_header_map_key key headers :
  key ∈ expected_headers → key ∈ headers → key ∈ (make_header_map headers).*1.
Proof.
  intros Hexpected Hheaders.
  destruct (list_find_elem_of (fun h => h = key) headers key Hheaders eq_refl) as [[idx h] Hfind].
  apply list_elem_of_fmap. exists (key, idx). split; [done|].
  apply list_elem_of_omap. exists key. split; [done|].
  unfold index_of. by rewrite Hfind.
Qed.

Lemma make_entry_keys header_map row entry key :
  make_entry header_map row = Ok entry → key ∈ header_map.*1 → is_Some (entry !! key).
Proof.
  unfold make_entry. destruct (map_result _ header_map) as [l|] eqn:Hl; [|done].
  intros [= <-] Hkey. apply map_result_Ok in Hl.
  assert (l.*1 = header_map.*1) as Hkeys.
  { clear Hkey. induction Hl as [|[k idx] y header_map l Hy _ IH]; [done|].
    destruct (row !! idx); [|done]. injection Hy as <-. rewrite !fmap_cons. by f_equal. }
  apply not_eq_None_Some. rewrite <- not_elem_of_list_to_map, Hkeys. by intros [].
Qed.

Lemma import_rows_keys header_map reader rows entry key :
  import_rows header_map reader = Ok rows → entry ∈ rows →
  key ∈ header_map.*1 → is_Some (entry !! key).
Proof.
  revert rows. induction reader as [|row reader IH]; intros rows; simpl.
  - intros [= <-]. by intros ?%elem_of_nil.
  - destruct (_ <? _)%nat; [apply IH|].
    intros (entry' & Hentry & (rows' & Hrows & [= <-])%bind_Ok)%bind_Ok.
    intros [-> | Hin]%elem_of_cons Hkey; [by eapply make_entry_keys | by eapply IH].
Qed.

(** Every record that [csv_import] returns has the four trigger fields. *)
Lemma csv_import_trigger_fields reader rows entry :
  csv_import reader = Ok rows → entry ∈ rows →
  is_Some (entry !! "location") ∧ is_Some (entry !! "sublocation")
  ∧ is_Some (entry !! "associate_vlan") ∧ is_Some (entry !! "device_mac").
Proof.
  unfold csv_import. destruct (find_headers reader) as [[headers rest]|] eqn:Hfind; [|done].
  apply find_headers_Some, is_header_row_spec in Hfind as (? & ? & ? & ?).
  intros Hrows Hentry.
  split_and!; eapply import_rows_keys; try done; apply make_header_map_key; try done;
    unfold expected_headers; set_solver.
Qed.

(** C3. A file none of whose rows holds the four trigger names does not
    give zero records: [csv_import] raises [NameError]. *)
Theorem csv_import_without_header_raises :
  csv_import [["name"; "value"]; ["a"; "1"]] = Raise NameError.
Proof. apply csv_import_no_header. by repeat constructor. Qed.

(** ** Ingestion *)

Lemma ingest_members_concat z names combined_rows :
  ingest_members z names combined_rows =
    rows ← map_result (csv_import_member z) (filter (fun n => is_csv_name n = true) names);
    Ok (combined_rows ++ concat rows).
Proof.
  revert combined_rows. induction names as [|name names IH]; intros combined_rows.
  - simpl. by rewrite app_nil_r.
  - cbn [ingest_members]. fold (is_csv_name name). destruct (is_csv_name name) eqn:Hname.
    + rewrite filter_cons, decide_True by done. cbn [map_result].
      destruct (csv_import_member z name) as [rows|e]; simpl; [|done].
      rewrite IH. destruct (map_result _ _); simpl; [|done]. by rewrite app_assoc.
    + rewrite filter_cons, decide_False by (by rewrite Hname). apply IH.
Qed.

Lemma source_records_csv fs path :
  is_csv_name path = true → source_records fs path = csv_import_path fs path.
Proof. unfold source_records. by intros ->. Qed.

Lemma source_records_zip fs path :
  is_csv_name path = false →
  source_records fs path =
    z ← open_zip fs path;
    rows ← map_result (csv_import_member z) (filter (fun n => is_csv_name n = true) z.*1);
    Ok (concat rows).
Proof. unfold source_records. by intros ->. Qed.

Lemma ingest_paths_concat fs paths combined_rows :
  ingest_paths fs paths combined_rows =
    rows ← map_result (source_records fs) (filter (fun p => recognized p = true) paths);
    Ok (combined_rows ++ concat rows).
Proof.
  revert combined_rows. induction paths as [|path paths IH]; intros combined_rows.
  - simpl. by rewrite app_nil_r.
  - cbn [ingest_paths]. fold (is_csv_name path) (is_zip_name path).
    destruct (is_csv_name path) eqn:Hcsv; [|destruct (is_zip_name path) eqn:Hzip].
    + rewrite filter_cons, decide_True by (unfold recognized; by rewrite Hcsv).
      cbn [map_result]. rewrite source_records_csv by done.
      destruct (csv_import_path fs path) as [rows|e]; simpl; [|done].
      rewrite IH. destruct (map_result _ _); simpl; [|done]. by rewrite app_assoc.
    + rewrite filter_cons, decide_True by (unfold recognized; by rewrite Hcsv, Hzip).
      cbn [map_result]. rewrite source_records_zip by done.
      destruct (open_zip fs path) as [z|e]; simpl; [|done].
      rewrite ingest_members_concat.
      destruct (map_result (csv_import_member z) _) as [rows|e]; simpl; [|done].
      rewrite IH. destruct (map_result _ _); simpl; [|done]. by rewrite app_assoc.
    + rewrite filter_cons, decide_False by (unfold recognized; by rewrite Hcsv, Hzip).
      apply IH.
Qed.

(** C10. What [ingest_files] returns is the concatenation, in order, of the
    records of the paths that end in [.csv] and of the [.csv] members of the
    paths that end in [.zip], whatever the case of the letters; any other
    path, and any other member of an archive, adds no record and raises
    nothing, be it unreadable or absent. *)
Theorem ingest_files_recognized_sources fs :
  (∀ file_paths,
     ingest_files fs file_paths =
       rows ← map_result (source_records fs) (filter (fun p => recognized p = true) file_paths);
       Ok (concat rows))
  ∧ (∀ before path after,
       recognized path = false →
       ingest_files fs (before ++ path :: after) = ingest_files fs (before ++ after))
  ∧ (∀ path z before name after,
       is_csv_name path = false → open_zip fs path = Ok z →
       z.*1 = before ++ name :: after → is_csv_name name = false →
       source_records fs path =
         rows ← map_result (csv_import_member z)
                  (filter (fun n => is_csv_name n = true) (before ++ after));
         Ok (concat rows)).
Proof.
  split_and!.
  - intros file_paths. unfold ingest_files. by rewrite ingest_paths_concat.
  - intros before path after Hpath. unfold ingest_files.
    rewrite !ingest_paths_concat, !filter_app, filter_cons, decide_False; [done|].
    by rewrite Hpath.
  - intros path z before name after Hpath Hz Hnames Hname.
    rewrite source_records_zip, Hz by done. simpl.
    rewrite Hnames, !filter_app, filter_cons, decide_False; [done|]. by rewrite Hname.
Qed.

(** ** The order of timestamps *)

Lemma lex_compare_refl a : lex_compare a a = Eq.
Proof. induction a as [|x a IH]; simpl; [done|]. by rewrite N.compare_refl. Qed.

Lemma lex_compare_Eq a b : lex_compare a b = Eq → a = b.
Proof.
  revert b. induction a as [|x a IH]; intros [|y b]; simpl; try done.
  destruct (N.compare x y) eqn:Hxy; try done.
  apply N.compare_eq in Hxy as ->. by intros ->%IH.
Qed.

Lemma lex_compare_antisym a b : lex_compare b a = CompOpp (lex_compare a b).
Proof.
  revert b. induction a as [|x a IH]; intros [|y b]; simpl; try done.
  rewrite (N.compare_antisym x y). destruct (N.compare x y); simpl; auto.
Qed.

Lemma lex_compare_Lt_trans a b c :
  lex_compare a b = Lt → lex_compare b c = Lt → lex_compare a c = Lt.
Proof.
  revert b c. induction a as [|x a IH]; intros [|y b] [|z c]; simpl; try done.
  destruct (N.compare x y) eqn:Hxy, (N.compare y z) eqn:Hyz; try done.
  - apply N.compare_eq in Hxy as ->, Hyz as ->. rewrite N.compare_refl. apply IH.
  - apply N.compare_eq in Hxy as ->. by rewrite Hyz.
  - apply N.compare_eq in Hyz as <-. by rewrite Hxy.
  - intros _ _. apply N.compare_lt_iff in Hxy, Hyz.
    by rewrite (proj2 (N.compare_lt_iff x z)) by (by etrans).
Qed.

Lemma dt_fields_inj a b : dt_fields a = dt_fields b → a = b.
Proof. destruct a, b. by intros [= -> -> -> -> -> -> ->]. Qed.

#[global] Instance dt_le_refl : Reflexive dt_le.
Proof. intros a. unfold dt_le, dt_leb. by rewrite lex_compare_refl. Qed.

#[global] Instance dt_le_trans : Transitive dt_le.
Proof.
  intros a b c. unfold dt_le, dt_leb.
  destruct (lex_compare (dt_fields a) (dt_fields b)) eqn:Hab; [| |done].
  - by apply lex_compare_Eq in Hab as ->.
  - destruct (lex_compare (dt_fields b) (dt_fields c)) eqn:Hbc; [| |done].
    + apply lex_compare_Eq in Hbc as <-. by rewrite Hab.
    + by rewrite (lex_compare_Lt_trans _ _ _ Hab Hbc).
Qed.

#[global] Instance dt_le_total : Total dt_le.
Proof.
  intros a b. unfold dt_le, dt_leb.
  rewrite (lex_compare_antisym (dt_fields a) (dt_fields b)).
  destruct (lex_compare (dt_fields a) (dt_fields b)); simpl; auto.
Qed.

#[global] Instance dt_le_antisym : AntiSymm (=) dt_le.
Proof.
  intros a b. unfold dt_le, dt_leb.
  rewrite (lex_compare_antisym (dt_fields a) (dt_fields b)).
  destruct (lex_compare (dt_fields a) (dt_fields b)) eqn:Hab; simpl; try done.
  intros _ _. by apply dt_fields_inj, lex_compare_Eq.
Qed.

(** ** The date range *)

Lemma elem_of_select mask df r :
  r ∈ rows (select mask df) ↔ r ∈ rows df ∧ mask r = true.
Proof. unfold select. simpl. by rewrite list_elem_of_filter, (comm and). Qed.

Lemma elem_of_date_filter date_from date_to df r :
  r ∈ rows (date_filter date_from date_to df) ↔
  r ∈ rows df
  ∧ (∀ d, date_from = Some d → dt_le d (session_date r))
  ∧ (∀ d, date_to = Some d → dt_le (session_date r) d).
Proof.
  unfold date_filter, dt_le.
  destruct date_from as [d1|], date_to as [d2|]; rewrite ?elem_of_select;
    (split;
     [ intros Hr; split_and!; [tauto | intros ? [= <-]; tauto ..]
     | intros (? & H1 & H2); split_and?; eauto ]).
Qed.

(** C2, as the code has it. The session date of a record is its end time,
    not cut to the day. The date range is inclusive on that timestamp: a
    record stays exactly when its end time is neither before [date_from]
    nor after [date_to], so one whose end time equals a bound stays; a
    bound that is not given does not restrict. *)
Theorem date_filter_on_end_time data df :
  build_frame data = Ok df →
  (∀ r, r ∈ rows df → session_date r = end_time r)
  ∧ (∀ date_from date_to r,
       r ∈ rows (date_filter date_from date_to df) ↔
       r ∈ rows df
       ∧ (∀ d, date_from = Some d → dt_le d (end_time r))
       ∧ (∀ d, date_to = Some d → dt_le (end_time r) d))
  ∧ (∀ r, r ∈ rows df →
       r ∈ rows (date_filter (Some (end_time r)) (Some (end_time r)) df)).
Proof.
  intros Hdf.
  assert (∀ r, r ∈ rows df → session_date r = end_time r) as Hdate.
  { intros r Hr. by destruct (build_frame_row _ _ _ Hdf Hr) as (_ & ? & _). }
  split_and!; [done| |].
  - intros date_from date_to r. rewrite elem_of_date_filter.
    split; intros (Hr & ? & ?); (split_and!; [done|..]);
      intros d ?; specialize (Hdate r Hr); [rewrite <- Hdate|rewrite <- Hdate|rewrite Hdate..]; auto.
  - intros r Hr. apply elem_of_date_filter. rewrite (Hdate r Hr).
    split_and!; [done|..]; by intros ? [= <-].
Qed.

(** ** Timestamps that do not parse *)

Lemma bad_timestamp_raises cell :
  bad_timestamp cell →
  raises (match cell with
          | Some value => normalize_datetime value
          | None => Raise TypeError
          end).
Proof.
  destruct cell as [value|]; simpl; [|by eexists].
  intros [H1 H2]. rewrite normalize_datetime_unfold, H1, H2. by eexists.
Qed.

Lemma timestamp_column_raises data name entry :
  entry ∈ data → bad_timestamp (entry !! name) →
  raises (series data name ≫= apply_normalize_datetime).
Proof.
  intros Hentry Hbad. unfold series. case_bool_decide; simpl; [|by eexists].
  eapply map_result_raises; [|by apply bad_timestamp_raises].
  apply list_elem_of_fmap. eauto.
Qed.

Lemma build_frame_raises data entry :
  entry ∈ data →
  bad_timestamp (entry !! "start_time") ∨ bad_timestamp (entry !! "end_time") →
  raises (build_frame data).
Proof.
  intros Hentry Hbad. unfold build_frame.
  destruct (series data "start_time" ≫= apply_normalize_datetime) as [starts|e] eqn:Hs;
    simpl; [|by eexists].
  destruct Hbad as [Hbad|Hbad].
  { destruct (timestamp_column_raises data "start_time" entry Hentry Hbad) as [e He].
    congruence. }
  destruct (timestamp_column_raises data "end_time" entry Hentry Hbad) as [e ->].
  by eexists.
Qed.

(** C9. When some record has a start or end time that is missing or that
    matches neither pattern, [generate_excel_report] raises and leaves the
    world as it found it: no [Workbook] object was constructed and no file
    was written. *)
Theorem bad_timestamp_raises_before_workbook `{Xlsx} data selected_sites output_path
    date_from date_to aggregate_floors tab_per_building w entry :
  entry ∈ data →
  bad_timestamp (entry !! "start_time") ∨ bad_timestamp (entry !! "end_time") →
  ∃ e, generate_excel_report data selected_sites output_path date_from date_to
         aggregate_floors tab_per_building w = (w, Raise e).
Proof.
  intros Hentry Hbad. destruct (build_frame_raises data entry Hentry Hbad) as [e He].
  exists e. unfold generate_excel_report. rewrite He. reflexivity.
Qed.

(** ** Building derivation *)

Lemma str_forall_app p s t :
  str_forall p (s +:+ t) = str_forall p s && str_forall p t.
Proof.
  induction s as [|c s IH]; [done|]. rewrite app_String. simpl. by rewrite IH, andb_assoc.
Qed.

Lemma lstrip_spaces s : str_forall is_space s = true → lstrip s = "".
Proof. induction s as [|c s IH]; simpl; [done|]. intros [-> ?]%andb_true_iff. auto. Qed.

Lemma rstrip_spaces s : str_forall is_space s = true → rstrip s = "".
Proof.
  induction s as [|c s IH]; simpl; [done|]. intros [-> ?]%andb_true_iff. by rewrite IH.
Qed.

Lemma lstrip_app_spaces before s :
  str_forall is_space before = true → lstrip (before +:+ s) = lstrip s.
Proof.
  induction before as [|c before IH]; [done|]. rewrite app_String. simpl.
  intros [-> ?]%andb_true_iff. auto.
Qed.

Lemma rstrip_app_spaces t after :
  (∀ c, last_char t = Some c → is_space c = false) →
  str_forall is_space after = true →
  rstrip (t +:+ after) = t.
Proof.
  intros Hlast Hafter. induction t as [|c t IH].
  - rewrite app_empty_l. by apply rstrip_spaces.
  - rewrite app_String. simpl. destruct t as [|d t].
    + rewrite app_empty_l, rstrip_spaces by done. by rewrite (Hlast c).
    + rewrite IH; [done|]. intros c'. apply Hlast.
Qed.

Lemma trimmed_unique s t : trimmed s t → t = strip s.
Proof.
  intros (before & after & -> & Hb & Ha & Hfirst & Hlast). unfold strip.
  rewrite lstrip_app_spaces by done. destruct t as [|c t].
  - rewrite app_empty_l, lstrip_spaces by done. done.
  - rewrite app_String. simpl. rewrite (Hfirst c) by done.
    rewrite <- app_String. by rewrite rstrip_app_spaces.
Qed.

Lemma before_first_pipe_unique s p : before_first_pipe s p → p = split_head "|" s.
Proof.
  intros [Hno Hs]. revert s Hs. induction p as [|c p IH]; intros s Hs.
  - destruct Hs as [-> | [rest ->]]; [done|]. by rewrite app_empty_l.
  - simpl in Hno. apply orb_false_iff in Hno as [Hc Hno].
    destruct Hs as [-> | [rest ->]]; rewrite ?app_String; simpl; rewrite Hc; f_equal.
    + apply IH; auto.
    + apply IH; eauto.
Qed.

(** C8. The building of a record is the text of its sublocation before the
    first ["|"], all of it when there is none, without the white space
    around it, and no other string answers that description;
    ["HQ|3rd Floor"] gives ["HQ"] and ["Annex"] gives ["Annex"]. *)
Theorem building_derivation :
  (∀ data df r sublocation,
     build_frame data = Ok df → r ∈ rows df →
     fields r !! "sublocation" = Some sublocation →
     (∃ prefix, before_first_pipe sublocation prefix ∧ trimmed prefix (building r))
     ∧ (∀ prefix t, before_first_pipe sublocation prefix → trimmed prefix t →
          t = building r))
  ∧ building_of (Some "HQ|3rd Floor") = "HQ"
  ∧ building_of (Some "Annex") = "Annex"
  ∧ building_of (Some "  HQ |3rd Floor") = "HQ".
Proof.
  split_and!; [|by vm_compute..].
  intros data df r sublocation Hdf Hr Hsub.
  destruct (build_frame_row _ _ _ Hdf Hr) as (_ & _ & ->).
  rewrite Hsub. unfold building_of. simpl. split.
  - exists (split_head "|" sublocation).
    split; [apply split_head_before_first_pipe | apply strip_trimmed].
  - intros prefix t ->%before_first_pipe_unique ->%trimmed_unique. done.
Qed.

(** ** State and exceptions *)

Lemma M_bind_Ok {S A B} (m : M S A) (f : A → M S B) s s' b :
  (m ≫= f) s = (s', Ok b) ↔ ∃ s1 a, m s = (s1, Ok a) ∧ f a s1 = (s', Ok b).
Proof.
  unfold mbind, M_bind. destruct (m s) as [s1 [a|e]]; split.
  - eauto.
  - by intros (? & ? & [= <- <-] & ?).
  - done.
  - by intros (? & ? & [=] & _).
Qed.

Lemma lift_Ok {S A} (r : result A) (s s' : S) a :
  lift r s = (s', Ok a) ↔ s' = s ∧ r = Ok a.
Proof. unfold lift. split; [by intros [= <- ->] | by intros [-> ->]]. Qed.

Lemma mret_Ok {S A} (a b : A) (s s' : S) :
  (mret a : M S A) s = (s', Ok b) ↔ s' = s ∧ b = a.
Proof. unfold mret, M_ret. split; [by intros [= <- <-] | by intros [-> ->]]. Qed.

Lemma write_Ok r c v t t' u :
  write r c v t = (t', Ok u) ↔ t' = <[(r, c) := v]> t.
Proof. unfold write. destruct u. split; [by intros [= <-] | by intros ->]. Qed.

Lemma merge_range_Ok r c v t t' u :
  merge_range r c v t = (t', Ok u) ↔ t' = <[(r, c) := v]> t.
Proof. apply write_Ok. Qed.

(** Takes a successful run of a sequence of steps apart. *)
Ltac m_inv :=
  repeat match goal with
    | H : (_ ≫= _) _ = (_, Ok _) |- _ =>
        let s := fresh "t" in let a := fresh "a" in let H1 := fresh "Hstep" in
        apply M_bind_Ok in H as (s & a & H1 & H)
    | H : lift _ _ = (_, Ok _) |- _ =>
        let E := fresh "E" in apply lift_Ok in H as [-> E]
    | H : @mret (M _) _ _ _ _ = (_, Ok _) |- _ =>
        let E := fresh "E" in
        apply mret_Ok in H as [-> E];
        first [ match type of E with ?b = _ => is_var b; subst b end | clear E ]
    | H : write _ _ _ _ = (_, Ok _) |- _ => apply write_Ok in H as ->
    | H : merge_range _ _ _ _ = (_, Ok _) |- _ => apply merge_range_Ok in H as ->
    | u : unit |- _ => destruct u
    end.

(** ** Distinct values *)

Lemma elem_of_unique {A} `{EqDecision A} (l : list A) x : x ∈ unique l ↔ x ∈ l.
Proof.
  induction l as [|y l IH]; simpl; [done|].
  rewrite !elem_of_cons, list_elem_of_filter, IH.
  destruct (decide (x = y)); naive_solver.
Qed.

Lemma NoDup_unique {A} `{EqDecision A} (l : list A) : NoDup (unique l).
Proof.
  induction l as [|y l IH]; simpl; [constructor|].
  constructor; [|by apply NoDup_filter].
  rewrite list_elem_of_filter. naive_solver.
Qed.

Lemma nunique_size cells :
  nunique cells = size (list_to_set (dropna cells) : gset string).
Proof.
  unfold nunique. rewrite <- (size_list_to_set (C := gset string)) by apply NoDup_unique.
  f_equal. apply set_eq. intros x. by rewrite !elem_of_list_to_set, elem_of_unique.
Qed.

Lemma column_Ok df name cells :
  column df name = Ok cells → cells = cell_of name <$> rows df.
Proof. unfold column. destruct (_ || _); by intros [=]. Qed.

Lemma column_select df mask name :
  column (select mask df) name = Ok (cell_of name <$> rows (select mask df))
  ∨ ∃ e, column (select mask df) name = Raise e ∧ column df name = Raise e.
Proof. unfold column. simpl. destruct (_ || _); eauto. Qed.

Lemma where_eq_Ok df name value sub :
  where_eq df name value = Ok sub →
  sub = select (fun r => eq_scalar value (cell_of name r)) df.
Proof. unfold where_eq. by intros (? & _ & [= <-])%bind_Ok. Qed.

Lemma where_isin_Ok df name values sub :
  where_isin df name values = Ok sub →
  sub = select (fun r => isin values (cell_of name r)) df.
Proof. unfold where_isin. by intros (? & _ & [= <-])%bind_Ok. Qed.

Lemma select_select p q df :
  select q (select p df) = select (fun r => p r && q r) df.
Proof.
  unfold select. simpl. f_equal. rewrite list_filter_filter.
  apply list_filter_iff. intros r. rewrite andb_true_iff. tauto.
Qed.

Lemma nunique_users df macs :
  column df "client_mac" = Ok macs → nunique macs = users df.
Proof. intros ->%column_Ok. apply nunique_size. Qed.

(** ** The grid of a worksheet *)

Lemma lookup_write_same (t : gmap (nat * nat) cell) r c r' c' v :
  r = r' → c = c' → <[(r, c) := v]> t !! (r', c') = Some v.
Proof. intros -> ->. apply lookup_insert_eq. Qed.

Lemma lookup_write_other (t : gmap (nat * nat) cell) r c r' c' v :
  r ≠ r' ∨ c ≠ c' → <[(r, c) := v]> t !! (r', c') = t !! (r', c').
Proof. intros Hne. apply lookup_insert_ne. intros [= -> ->]. by destruct Hne. Qed.

(** The loop over the days of [write_counts]. *)
Lemma day_counts_loop r sub start date_cols t t' :
  for_each (enumerate_from start date_cols) (fun '(i, day) =>
    let base_col := 5 + i * 2 in
    let day_df := on_day day sub in
    _ ← write r base_col (Number (len day_df));
    macs ← lift (column day_df "client_mac");
    write r (base_col + 1) (Number (nunique macs))) t = (t', Ok tt) →
  (∀ i day, date_cols !! i = Some day →
     t' !! (r, 5 + 2 * (start + i)) = Some (Number (sessions (on_day day sub)))
     ∧ t' !! (r, 6 + 2 * (start + i)) = Some (Number (users (on_day day sub))))
  ∧ (∀ r' c, r' ≠ r ∨ c < 5 + 2 * start → t' !! (r', c) = t !! (r', c)).
Proof.
  revert start t. induction date_cols as [|d date_cols IH]; intros start t Hrun.
  - simpl in Hrun. m_inv. split; [by intros i day; rewrite lookup_nil|done].
  - cbn [for_each enumerate_from] in Hrun. m_inv.
    apply IH in Hrun as [Hcells Hframe]. split.
    + intros [|i] day Hday; simplify_eq/=.
      * rewrite !Hframe by lia. apply nunique_users in E.
        rewrite lookup_write_other, lookup_write_same, lookup_write_same by lia.
        by rewrite E.
      * destruct (Hcells i day Hday) as [H1 H2].
        by replace (start + S i) with (S start + i) by lia.
    + intros r' c Hrc. rewrite Hframe by lia. by rewrite !lookup_write_other by lia.
Qed.

Lemma write_counts_cells r sub date_cols t t' :
  write_counts r sub date_cols t = (t', Ok tt) →
  shows_counts t' r r sub date_cols
  ∧ (∀ r' c, r' ≠ r → t' !! (r', c) = t !! (r', c)).
Proof.
  unfold write_counts. intros Hrun. m_inv.
  apply day_counts_loop in Hrun as [Hcells Hframe]. apply nunique_users in E.
  split; [split_and!|].
  - rewrite Hframe by lia. by rewrite lookup_write_other, lookup_write_same by lia.
  - rewrite Hframe by lia. rewrite lookup_write_same by lia. by rewrite E.
  - intros i day Hday. apply (Hcells i day Hday).
  - intros r' c Hr. rewrite Hframe by lia. by rewrite !lookup_write_other by lia.
Qed.

Lemma shows_counts_frame t t' r_total r_days sub date_cols :
  (∀ c, t' !! (r_total, c) = t !! (r_total, c)) →
  (∀ c, t' !! (r_days, c) = t !! (r_days, c)) →
  shows_counts t r_total r_days sub date_cols →
  shows_counts t' r_total r_days sub date_cols.
Proof.
  intros H1 H2 (Hs & Hu & Hdays). unfold shows_counts. rewrite !H1. split_and!; [done..|].
  intros i day Hday. rewrite !H2. by apply Hdays.
Qed.

Lemma shows_lines_frame t t' top lines aggregate_floors df date_cols :
  (∀ r c, top ≤ r < top + length lines → t' !! (r, c) = t !! (r, c)) →
  shows_lines t top lines aggregate_floors df date_cols →
  shows_lines t' top lines aggregate_floors df date_cols.
Proof.
  intros Hframe Hlines j g Hg. pose proof (lookup_lt_Some _ _ _ Hg).
  eapply shows_counts_frame; [| |by apply Hlines]; intros c; apply Hframe; lia.
Qed.

Lemma shows_lines_app t top lines1 lines2 aggregate_floors df date_cols :
  shows_lines t top lines1 aggregate_floors df date_cols →
  shows_lines t (top + length lines1) lines2 aggregate_floors df date_cols →
  shows_lines t top (lines1 ++ lines2) aggregate_floors df date_cols.
Proof.
  intros H1 H2 j g Hg. apply lookup_app_Some in Hg as [Hg | [Hj Hg]].
  - by apply H1.
  - replace (top + j) with (top + length lines1 + (j - length lines1)) by lia. by apply H2.
Qed.

(** A loop that writes one line for each key, from row [cursor] down. *)
Lemma fold_lines {K} (sel : K → result frame) (label_col : nat) (label : K → string)
    date_cols (keys : list K) cursor t t' cursor' :
  fold_each keys cursor (fun cursor key =>
    sub ← lift (sel key);
    let cursor := cursor + 1 in
    _ ← write (cursor - 1) label_col (Text (label key));
    _ ← write_counts (cursor - 1) sub date_cols;
    mret cursor) t = (t', Ok cursor') →
  cursor' = cursor + length keys
  ∧ (∀ j key, keys !! j = Some key →
       ∃ sub, sel key = Ok sub ∧ shows_counts t' (cursor + j) (cursor + j) sub date_cols)
  ∧ (∀ r c, r < cursor → t' !! (r, c) = t !! (r, c)).
Proof.
  revert cursor t. induction keys as [|key keys IH]; intros cursor t Hrun.
  - simpl in Hrun. m_inv. split_and!; [simpl; lia| |done].
    intros j k. by rewrite lookup_nil.
  - cbn [fold_each] in Hrun. m_inv.
    match goal with
    | H : write_counts _ ?sub _ _ = _ |- _ =>
        rename sub into sub0; apply write_counts_cells in H as [Hcounts Hframe1]
    end.
    apply IH in Hrun as (-> & Hlines & Hframe).
    replace (cursor + 1 - 1) with cursor in * by lia.
    split_and!; [simpl; lia| |].
    + intros [|j] k Hk; simplify_eq/=.
      * exists sub0. split; [done|]. replace (cursor + 0) with cursor by lia.
        eapply shows_counts_frame; [| |done]; intros c; apply Hframe; lia.
      * replace (cursor + S j) with (cursor + 1 + j) by lia. by apply Hlines.
    + intros r c Hr. rewrite Hframe, Hframe1 by lia. by rewrite lookup_write_other by lia.
Qed.

Lemma write_ssid_rows_cells aggregate_floors df l date_cols cursor t t' cursor' :
  let loc_df := subset aggregate_floors (Location l) df in
  let lines := Ssid l <$> unique (cell_of "ssid" <$> rows loc_df) in
  write_ssid_rows loc_df date_cols cursor t = (t', Ok cursor') →
  cursor' = cursor + length lines
  ∧ shows_lines t' cursor lines aggregate_floors df date_cols
  ∧ (∀ r c, r < cursor → t' !! (r, c) = t !! (r, c)).
Proof.
  intros loc_df lines Hrun. unfold write_ssid_rows in Hrun. m_inv.
  apply column_Ok in E as ->.
  apply (fold_lines (fun ssid => where_eq loc_df "ssid" ssid) 1
           (fun ssid => "    " +:+ fmt_value ssid)) in Hrun as (-> & Hlines & Hframe).
  unfold lines. rewrite length_fmap. split_and!; [done| |done].
  intros j g (s & -> & Hs)%list_lookup_fmap_Some.
  destruct (Hlines j s Hs) as (sub & ->%where_eq_Ok & Hcounts).
  unfold loc_df, subset in Hcounts. by rewrite select_select in Hcounts.
Qed.

Lemma write_group_rows_cells aggregate_floors df l date_cols cursor t t' cursor' :
  let loc_df := subset aggregate_floors (Location l) df in
  let lines :=
    Group l <$> unique (dropna (cell_of (group_column aggregate_floors) <$> rows loc_df)) in
  write_group_rows loc_df date_cols aggregate_floors cursor t = (t', Ok cursor') →
  cursor' = cursor + length lines
  ∧ shows_lines t' cursor lines aggregate_floors df date_cols
  ∧ (∀ r c, r < cursor → t' !! (r, c) = t !! (r, c)).
Proof.
  intros loc_df lines Hrun. unfold write_group_rows in Hrun. m_inv.
  apply column_Ok in E as ->. fold (group_column aggregate_floors) in Hrun.
  apply (fold_lines
           (fun name => where_eq loc_df (group_column aggregate_floors) (Some name)) 0
           (fun name => "        " +:+ name)) in Hrun as (-> & Hlines & Hframe).
  unfold lines. rewrite length_fmap. split_and!; [done| |done].
  intros j g (s & -> & Hs)%list_lookup_fmap_Some.
  destruct (Hlines j s Hs) as (sub & ->%where_eq_Ok & Hcounts).
  unfold loc_df, subset in Hcounts. by rewrite select_select in Hcounts.
Qed.

Lemma write_location_block_cells aggregate_floors df date_cols cursor l t t' cursor' :
  let lines := location_lines aggregate_floors df l in
  write_location_block df date_cols aggregate_floors cursor l t = (t', Ok cursor') →
  cursor' = cursor + length lines
  ∧ shows_lines t' cursor lines aggregate_floors df date_cols
  ∧ (∀ r c, r < cursor → t' !! (r, c) = t !! (r, c)).
Proof.
  intros lines Hrun. unfold write_location_block in Hrun. m_inv.
  match goal with H : where_eq _ _ _ = _ |- _ => apply where_eq_Ok in H as -> end.
  match goal with
  | H : write_counts _ _ _ _ = _ |- _ => apply write_counts_cells in H as [Hcounts Hframe1]
  end.
  match goal with
  | H : write_ssid_rows _ _ _ _ = _ |- _ =>
      apply (write_ssid_rows_cells aggregate_floors df l) in H as (-> & Hssid & Hframe2)
  end.
  apply (write_group_rows_cells aggregate_floors df l) in Hrun as (-> & Hgroup & Hframe3).
  replace (cursor + 1 - 1) with cursor in * by lia.
  unfold lines, location_lines. cbn [length]. rewrite length_app.
  split_and!; [lia| |].
  - apply (shows_lines_app _ _ [Location l]).
    + intros [|j] g Hg; simplify_eq/=. replace (cursor + 0) with cursor by lia.
      eapply shows_counts_frame; [| |exact Hcounts];
        intros c; rewrite Hframe3, Hframe2 by lia; done.
    + cbn [length]. apply shows_lines_app; [|done].
      eapply shows_lines_frame; [|done]. intros r c Hr. apply Hframe3. lia.
  - intros r c Hr. rewrite Hframe3, Hframe2, Hframe1 by lia.
    by rewrite lookup_write_other by lia.
Qed.

Lemma fold_location_blocks aggregate_floors df date_cols locations cursor t t' cursor' :
  let lines := locations ≫= location_lines aggregate_floors df in
  fold_each locations cursor (write_location_block df date_cols aggregate_floors) t
    = (t', Ok cursor') →
  cursor' = cursor + length lines
  ∧ shows_lines t' cursor lines aggregate_floors df date_cols
  ∧ (∀ r c, r < cursor → t' !! (r, c) = t !! (r, c)).
Proof.
  revert cursor t. induction locations as [|l locations IH]; intros cursor t lines Hrun.
  - simpl in Hrun. m_inv. split_and!; [simpl; lia| |done].
    intros j g. unfold lines. simpl. by rewrite lookup_nil.
  - cbn [fold_each] in Hrun. m_inv.
    match goal with
    | H : write_location_block _ _ _ _ _ _ = _ |- _ =>
        apply write_location_block_cells in H as (-> & Hblock & Hframe1)
    end.
    apply IH in Hrun as (-> & Hrest & Hframe2).
    unfold lines. rewrite bind_cons, length_app. split_and!; [lia| |].
    + apply shows_lines_app; [|done].
      eapply shows_lines_frame; [|done]. intros r c Hr. apply Hframe2. lia.
    + intros r c Hr. rewrite Hframe2, Hframe1 by lia. done.
Qed.

Lemma write_data_rows_cells df date_cols aggregate_floors t t' cursor' :
  write_data_rows df date_cols aggregate_floors t = (t', Ok cursor') →
  shows_lines t' 8 (report_lines aggregate_floors df) aggregate_floors df date_cols
  ∧ (∀ r c, r < 8 → t' !! (r, c) = t !! (r, c)).
Proof.
  unfold write_data_rows. intros Hrun. m_inv. apply column_Ok in E as ->.
  by apply fold_location_blocks in Hrun as (_ & Hlines & Hframe).
Qed.

(** The other parts of the sheet. *)
Lemma write_day_headers_loop df start date_cols t t' :
  for_each (enumerate_from start date_cols) (fun '(idx, day) =>
    let base_col := 5 + idx * 2 in
    _ ← merge_range 5 base_col (Text (strftime_d_b day));
    _ ← write 6 base_col (Text "Sessions");
    _ ← write 6 (base_col + 1) (Text "Users");
    let day_df := on_day day df in
    _ ← write 7 base_col (Number (len day_df));
    macs ← lift (column day_df "client_mac");
    write 7 (base_col + 1) (Number (nunique macs))) t = (t', Ok tt) →
  (∀ i day, date_cols !! i = Some day →
     t' !! (5, 5 + 2 * (start + i)) = Some (Text (strftime_d_b day))
     ∧ t' !! (6, 5 + 2 * (start + i)) = Some (Text "Sessions")
     ∧ t' !! (6, 6 + 2 * (start + i)) = Some (Text "Users")
     ∧ t' !! (7, 5 + 2 * (start + i)) = Some (Number (sessions (on_day day df)))
     ∧ t' !! (7, 6 + 2 * (start + i)) = Some (Number (users (on_day day df))))
  ∧ (∀ r c, r < 5 ∨ 7 < r ∨ c < 5 + 2 * start → t' !! (r, c) = t !! (r, c)).
Proof.
  revert start t. induction date_cols as [|d date_cols IH]; intros start t Hrun.
  - simpl in Hrun. m_inv. split; [by intros i day; rewrite lookup_nil|done].
  - cbn [for_each enumerate_from] in Hrun. m_inv.
    apply IH in Hrun as [Hcells Hframe]. split.
    + intros [|i] day Hday; simplify_eq/=.
      * rewrite !Hframe by lia. apply nunique_users in E.
        repeat (rewrite ?lookup_write_same by lia; try rewrite lookup_write_other by lia).
        by rewrite E.
      * replace (start + S i) with (S start + i) by lia. by apply Hcells.
    + intros r c Hrc. rewrite Hframe by lia. by rewrite !lookup_write_other by lia.
Qed.

Lemma write_day_headers_cells df date_cols t t' :
  write_day_headers df date_cols t = (t', Ok tt) →
  shows_day_headers t' date_cols
  ∧ (∀ i day, date_cols !! i = Some day →
       t' !! (7, 5 + 2 * i) = Some (Number (sessions (on_day day df)))
       ∧ t' !! (7, 6 + 2 * i) = Some (Number (users (on_day day df))))
  ∧ (∀ r c, r < 5 ∨ 7 < r ∨ c < 5 → t' !! (r, c) = t !! (r, c)).
Proof.
  intros [Hcells Hframe]%write_day_headers_loop. split_and!.
  - intros i day Hday. destruct (Hcells i day Hday) as (? & ? & ? & _). done.
  - intros i day Hday. destruct (Hcells i day Hday) as (_ & _ & _ & ? & ?). done.
  - intros r c Hrc. apply Hframe. lia.
Qed.

Lemma write_time_range_frame df date_cols t t' :
  write_time_range df date_cols t = (t', Ok tt) →
  ∀ r c, c < 7 + 2 * length date_cols → t' !! (r, c) = t !! (r, c).
Proof.
  unfold write_time_range. intros Hrun r c Hc. m_inv.
  by rewrite !lookup_write_other by lia.
Qed.

Lemma write_static_headers_frame t t' :
  write_static_headers t = (t', Ok tt) →
  ∀ r c, r ≠ 7 ∨ 4 < c → t' !! (r, c) = t !! (r, c).
Proof.
  unfold write_static_headers. intros Hrun r c Hc. m_inv.
  by rewrite !lookup_write_other by lia.
Qed.

Lemma write_summary_cells df t t' :
  write_summary df t = (t', Ok tt) →
  t' !! (5, 2) = Some (Number (sessions df)) ∧ t' !! (5, 3) = Some (Number (users df)).
Proof.
  unfold write_summary. intros Hrun. m_inv. apply nunique_users in E. split.
  - by rewrite lookup_write_other, lookup_write_same by lia.
  - rewrite lookup_write_same by lia. by rewrite E.
Qed.

(** What a rendered sheet shows: the day header of every day column, the
    statistics of the sheet (totals in row 5, days in row 7), and the
    statistics of every line in the rows from 8 down. *)
Lemma site_report_cells_shows df sheet_name date_cols aggregate_floors t0 t :
  site_report_cells df sheet_name date_cols aggregate_floors t0 = (t, Ok tt) →
  shows_day_headers t date_cols
  ∧ shows_counts t 5 7 df date_cols
  ∧ shows_lines t 8 (report_lines aggregate_floors df) aggregate_floors df date_cols.
Proof.
  unfold site_report_cells. intros Hrun. m_inv.
  repeat match goal with
  | H : write_summary _ _ = _ |- _ => apply write_summary_cells in H as [Hsessions Husers]
  | H : write_static_headers _ = _ |- _ => pose proof (write_static_headers_frame _ _ H) as Hstatic; clear H
  | H : write_day_headers _ _ _ = _ |- _ => apply write_day_headers_cells in H as (Hheaders & Hdays & Hframe_days)
  | H : write_time_range _ _ _ = _ |- _ => pose proof (write_time_range_frame _ _ _ _ H) as Hrange; clear H
  | H : write_data_rows _ _ _ _ = _ |- _ => apply write_data_rows_cells in H as [Hlines Hrows]
  end.
  split_and!; [| |done].
  - intros i day Hday. pose proof (lookup_lt_Some _ _ _ Hday).
    destruct (Hheaders i day Hday) as (? & ? & ?).
    rewrite !Hrows, !Hrange by lia. done.
  - split_and!.
    + rewrite Hrows, Hrange, Hframe_days, Hstatic by lia. done.
    + rewrite Hrows, Hrange, Hframe_days, Hstatic by lia. done.
    + intros i day Hday. pose proof (lookup_lt_Some _ _ _ Hday).
      destruct (Hdays i day Hday) as [? ?]. rewrite !Hrows, !Hrange by lia. done.
Qed.

(** ** The sheets of a run *)

Section run.
Context `{Xlsx}.

Lemma rendered_app date_cols before plan1 new1 plan2 new2 :
  rendered date_cols before plan1 new1 →
  rendered date_cols (before ++ new1) plan2 new2 →
  rendered date_cols before (plan1 ++ plan2) (new1 ++ new2).
Proof.
  induction 1 as [before|before sub name agg plan ws new Hname Hcells _ IH]; simpl.
  - by rewrite app_nil_r.
  - intros Hrest. constructor; [done..|]. apply IH. by rewrite <- app_assoc.
Qed.

Lemma rendered_elem date_cols before plan new ws :
  rendered date_cols before plan new → ws ∈ new →
  ∃ sub name aggregate_floors,
    (sub, name, aggregate_floors) ∈ plan
    ∧ site_report_cells sub name date_cols aggregate_floors ∅ = (ws_table ws, Ok tt).
Proof.
  induction 1 as [|before sub name agg plan ws' new Hname Hcells _ IH].
  - by intros ?%elem_of_nil.
  - intros [-> | Hws]%elem_of_cons.
    + exists sub, name, agg. split; [left|done].
    + destruct (IH Hws) as (sub' & name' & agg' & ? & ?).
      exists sub', name', agg'. split; [by right|done].
Qed.

Lemma rendered_length date_cols before plan new :
  rendered date_cols before plan new → length new = length plan.
Proof. induction 1; simpl; congruence. Qed.

Lemma generate_site_report_Ok df sheet_name date_cols aggregate_floors sheets sheets' :
  generate_site_report df sheet_name date_cols aggregate_floors sheets = (sheets', Ok tt) →
  ∃ ws, sheets' = sheets ++ [ws]
    ∧ rendered date_cols sheets [(df, sheet_name, aggregate_floors)] [ws].
Proof.
  unfold generate_site_report.
  destruct (check_sheetname _ _) as [name|e] eqn:Hname; [|done].
  destruct (site_report_cells _ _ _ _ ∅) as [table r] eqn:Hcells.
  intros [= <- ->]. eexists. split; [done|].
  constructor; [done..|]. constructor.
Qed.

Lemma with_workbook_Ok {A} (m : M (list worksheet) A) path sheets fs w' a :
  with_workbook m (mk_world (Some (path, sheets)) fs) = (w', Ok a) →
  ∃ sheets', m sheets = (sheets', Ok a) ∧ w' = mk_world (Some (path, sheets')) fs.
Proof.
  unfold with_workbook. simpl. destruct (m sheets) as [sheets' r].
  intros [= <- ->]. eauto.
Qed.

(** Per-site reports. *)
Lemma site_sheets_rendered df date_cols aggregate_floors selected_sites path sheets fs w' :
  for_each selected_sites (fun site =>
    site_df ← lift (where_eq df "location" (Some site));
    if negb (empty site_df) then
      with_workbook (generate_site_report site_df site date_cols aggregate_floors)
    else mret tt) (mk_world (Some (path, sheets)) fs) = (w', Ok tt) →
  ∃ new, w' = mk_world (Some (path, sheets ++ new)) fs
    ∧ rendered date_cols sheets
        (site ← selected_sites;
         let site_df := select (fun r => eq_scalar (Some site) (cell_of "location" r)) df in
         if empty site_df then [] else [(site_df, site, aggregate_floors)]) new.
Proof.
  revert sheets. induction selected_sites as [|site sites IH]; intros sheets Hrun.
  - simpl in Hrun. m_inv. exists []. rewrite app_nil_r. split; [done|constructor].
  - cbn [for_each] in Hrun. m_inv.
    match goal with E : where_eq _ _ _ = _ |- _ => apply where_eq_Ok in E as -> end.
    rewrite bind_cons. cbn zeta.
    destruct (empty _) eqn:Hempty; simpl in *.
    + m_inv. apply IH in Hrun as (new & -> & Hnew). by exists new.
    + match goal with
      | H : with_workbook _ _ = _ |- _ => apply with_workbook_Ok in H as (sheets1 & Hsite & ->)
      end.
      apply generate_site_report_Ok in Hsite as (ws & -> & Hws).
      apply IH in Hrun as (new & -> & Hnew).
      exists (ws :: new). rewrite <- app_assoc. split; [done|].
      by apply (rendered_app _ _ [_] [_]).
Qed.

(** Per-building reports. *)
Lemma building_sheets_rendered building_df date_cols buildings path sheets fs w' :
  for_each buildings (fun building =>
    bldg_df ← lift (where_eq building_df "building" (Some building));
    if empty bldg_df then mret tt
    else
      let sheet_name := str_take 31 ("Bldg - " +:+ building) in
      with_workbook (generate_site_report bldg_df sheet_name date_cols true))
    (mk_world (Some (path, sheets)) fs) = (w', Ok tt) →
  Forall (fun b => b ∈ dropna (cell_of "building" <$> rows building_df)) buildings →
  ∃ new, w' = mk_world (Some (path, sheets ++ new)) fs
    ∧ rendered date_cols sheets
        ((fun b => (select (fun r => eq_scalar (Some b) (cell_of "building" r)) building_df,
                    str_take 31 ("Bldg - " +:+ b), true)) <$> buildings) new.
Proof.
  revert sheets. induction buildings as [|b buildings IH]; intros sheets Hrun Hin.
  - simpl in Hrun. m_inv. exists []. rewrite app_nil_r. split; [done|constructor].
  - cbn [for_each] in Hrun. m_inv.
    match goal with E : where_eq _ _ _ = _ |- _ => apply where_eq_Ok in E as -> end.
    apply Forall_cons in Hin as [Hb Hin].
    destruct (empty _) eqn:Hempty.
    { exfalso. unfold empty in Hempty. apply bool_decide_eq_true in Hempty.
      apply list_elem_of_omap in Hb as (cell & (r & -> & Hr)%list_elem_of_fmap & Hcell).
      simpl in Hcell. assert (r ∈ @nil row) as Hnil; [|by apply elem_of_nil in Hnil].
      rewrite <- Hempty. apply elem_of_select. split; [done|].
      rewrite Hcell. simpl. by apply bool_decide_eq_true. }
    cbn zeta in *.
    match goal with
    | H : with_workbook _ _ = _ |- _ => apply with_workbook_Ok in H as (sheets1 & Hsite & ->)
    end.
    apply generate_site_report_Ok in Hsite as (ws & -> & Hws).
    apply (IH _ Hrun) in Hin as (new & -> & Hnew).
    exists (ws :: new). rewrite <- app_assoc. split; [done|].
    rewrite fmap_cons. by apply (rendered_app _ _ [_] [_]).
Qed.

End run.

Lemma elem_of_sorted_strings l x : x ∈ sorted_strings l ↔ x ∈ l.
Proof. unfold sorted_strings. by rewrite merge_sort_Permutation. Qed.

Lemma elem_of_sorted_datetimes l x : x ∈ sorted_datetimes l ↔ x ∈ l.
Proof. unfold sorted_datetimes. by rewrite merge_sort_Permutation. Qed.

Lemma new_workbook_Ok output_path w w' u :
  new_workbook output_path w = (w', Ok u) → w' = mk_world (Some (output_path, [])) (files w).
Proof. unfold new_workbook. by intros [= <-]. Qed.

Lemma close_Ok path sheets fs w' u :
  close (mk_world (Some (path, sheets)) fs) = (w', Ok u) →
  w' = mk_world (Some (path, sheets))
         (<[path := match sheets with [] => [mk_worksheet "Sheet1" ∅] | _ => sheets end]> fs).
Proof. unfold close. simpl. by intros [= <-]. Qed.

(** A run that returns has rendered the sheets of the plan, in order, into
    a new workbook and has written the workbook to [output_path]. *)
Lemma generate_excel_report_Ok `{Xlsx} data selected_sites output_path date_from date_to
    aggregate_floors tab_per_building w w' :
  generate_excel_report data selected_sites output_path date_from date_to
    aggregate_floors tab_per_building w = (w', Ok tt) →
  ∃ df0 sheets,
    build_frame data = Ok df0
    ∧ rendered (day_columns (date_filter date_from date_to df0)) []
        (sheet_plan (date_filter date_from date_to df0) selected_sites
           aggregate_floors tab_per_building) sheets
    ∧ w' = mk_world (Some (output_path, sheets))
             (<[output_path := match sheets with
                               | [] => [mk_worksheet "Sheet1" ∅]
                               | _ => sheets
                               end]> (files w)).
Proof.
  unfold generate_excel_report. intros Hrun. m_inv.
  match goal with E : build_frame _ = Ok ?d |- _ => rename d into df0, E into Hdf0 end.
  set (df := date_filter date_from date_to df0) in *.
  set (date_cols := day_columns df) in *.
  match goal with
  | H : new_workbook _ _ = _ |- _ => apply new_workbook_Ok in H as ->
  end.
  exists df0.
  (* the combined sheet *)
  match goal with
  | H : (if (1 <? _)%nat then _ else _) _ = (?w2, Ok _) |- _ =>
      assert (∃ new1, w2 = mk_world (Some (output_path, [] ++ new1)) (files w)
                ∧ rendered date_cols []
                    (if (1 <? length selected_sites)%nat
                     then [(select (fun r => isin selected_sites (cell_of "location" r)) df,
                            "Report", aggregate_floors)]
                     else []) new1) as (new1 & -> & Hnew1);
      [destruct (1 <? length selected_sites)%nat; m_inv|clear H]
  end.
  { match goal with E : where_isin _ _ _ = _ |- _ => apply where_isin_Ok in E as -> end.
    match goal with
    | H : with_workbook _ _ = _ |- _ => apply with_workbook_Ok in H as (sheets1 & Hsite & ->)
    end.
    apply generate_site_report_Ok in Hsite as (ws & -> & Hws). by exists [ws]. }
  { exists []. split; [done|constructor]. }
  (* the sheets of the sites *)
  match goal with
  | H : for_each selected_sites _ _ = _ |- _ =>
      apply site_sheets_rendered in H as (new2 & -> & Hnew2)
  end.
  (* the sheets of the buildings *)
  match goal with
  | H : (if aggregate_floors && tab_per_building then _ else _) _ = (?w4, Ok _) |- _ =>
      assert (∃ new3, w4 = mk_world (Some (output_path, ([] ++ new1) ++ new2 ++ new3)) (files w)
                ∧ rendered date_cols (([] ++ new1) ++ new2)
                    (if aggregate_floors && tab_per_building then
                       let selected :=
                         select (fun r => isin selected_sites (cell_of "location" r)) df in
                       (fun b =>
                          (select (fun r => eq_scalar (Some b) (cell_of "building" r)) selected,
                           str_take 31 ("Bldg - " +:+ b), true))
                       <$> sorted_strings (unique (dropna (cell_of "building" <$> rows selected)))
                     else []) new3) as (new3 & -> & Hnew3);
      [destruct (aggregate_floors && tab_per_building); m_inv|clear H]
  end.
  { match goal with E : where_isin _ _ _ = _ |- _ => apply where_isin_Ok in E as -> end.
    match goal with E : column _ _ = _ |- _ => apply column_Ok in E as -> end.
    match goal with
    | H : for_each _ _ _ = _ |- _ =>
        apply building_sheets_rendered in H as (new3 & -> & Hnew3)
    end.
    - exists new3. by rewrite <- app_assoc.
    - apply Forall_forall. intros b. by rewrite elem_of_sorted_strings, elem_of_unique. }
  { exists []. rewrite !app_nil_r. split; [done|constructor]. }
  apply close_Ok in Hrun as ->. simpl.
  exists (new1 ++ new2 ++ new3). split_and!; [done| |done].
  unfold sheet_plan. apply rendered_app; [done|]. by apply rendered_app.
Qed.

(** ** The day columns *)

Lemma NoDup_day_columns df : NoDup (day_columns df).
Proof.
  unfold day_columns, sorted_datetimes. rewrite merge_sort_Permutation. apply NoDup_unique.
Qed.

Lemma elem_of_day_columns df d :
  d ∈ day_columns df ↔ ∃ r, r ∈ rows df ∧ normalize (session_date r) = d.
Proof.
  unfold day_columns. rewrite elem_of_sorted_datetimes, elem_of_unique, list_elem_of_fmap.
  naive_solver.
Qed.

Lemma StronglySorted_NoDup_lt l :
  StronglySorted dt_le l → NoDup l → StronglySorted dt_lt l.
Proof.
  induction 1 as [|x l Hsorted IH Hx]; intros Hnodup; [constructor|].
  apply NoDup_cons in Hnodup as [Hnotin Hnodup]. constructor; [by apply IH|].
  apply Forall_forall. intros y Hy. split.
  - by apply (proj1 (Forall_forall _ _) Hx).
  - by intros ->.
Qed.

Lemma day_columns_ascending df : StronglySorted dt_lt (day_columns df).
Proof.
  apply StronglySorted_NoDup_lt; [|apply NoDup_day_columns].
  unfold day_columns, sorted_datetimes. apply StronglySorted_merge_sort; apply _.
Qed.

(** ** Sums over the day columns *)

Lemma sum_indicator (days : list datetime) x :
  NoDup days → x ∈ days →
  sum_list ((fun d => if decide (x = d) then 1 else 0) <$> days) = 1.
Proof.
  induction 1 as [|d days Hnotin _ IH]; [by intros ?%elem_of_nil|].
  intros Hx. csimpl. destruct (decide (x = d)) as [->|Hne].
  - assert (sum_list ((fun d0 => if decide (d = d0) then 1 else 0) <$> days) = 0) as ->; [|done].
    clear IH Hx. induction days as [|d' days IH]; [done|]. csimpl.
    apply not_elem_of_cons in Hnotin as [? ?]. rewrite decide_False by done. auto.
  - apply elem_of_cons in Hx as [?|Hx]; [done|]. by rewrite IH.
Qed.

Lemma sum_list_fmap_plus {A} (f g : A → nat) l :
  sum_list ((fun x => f x + g x) <$> l) = sum_list (f <$> l) + sum_list (g <$> l).
Proof. induction l as [|x l IH]; csimpl; lia. Qed.

Lemma sum_list_fmap_zero {A} (l : list A) : sum_list ((fun _ => 0) <$> l) = 0.
Proof. induction l; csimpl; lia. Qed.

Lemma sessions_by_day (days : list datetime) (l : list row) :
  NoDup days →
  (∀ r, r ∈ l → normalize (session_date r) ∈ days) →
  sum_list ((fun day =>
               length (filter (fun r => bool_decide (normalize (session_date r) = day) = true) l))
            <$> days) = length l.
Proof.
  intros Hnodup. induction l as [|r l IH]; intros Hin.
  - simpl. apply sum_list_fmap_zero.
  - transitivity (sum_list ((fun day =>
        (if decide (normalize (session_date r) = day) then 1 else 0)
        + length (filter (fun r => bool_decide (normalize (session_date r) = day) = true) l))
        <$> days)).
    + f_equal. apply list_fmap_ext. intros _ day _. rewrite filter_cons.
      destruct (decide (normalize (session_date r) = day)) as [Heq|Hne].
      * rewrite decide_True; [done|]. by apply bool_decide_eq_true.
      * rewrite decide_False; [done|]. by rewrite bool_decide_eq_true.
    + rewrite sum_list_fmap_plus, sum_indicator, IH; [done| |done|].
      * intros r' Hr'. apply Hin. by right.
      * apply Hin. left.
Qed.

(** Over the day columns of a frame, the sessions of the days add up to
    the sessions, for any part of the frame. *)
Lemma sessions_sum_over_day_columns df sub :
  (∀ r, r ∈ rows sub → r ∈ rows df) →
  sum_list ((fun day => sessions (on_day day sub)) <$> day_columns df) = sessions sub.
Proof.
  intros Hsub. unfold sessions, on_day, select. simpl.
  apply sessions_by_day; [apply NoDup_day_columns|].
  intros r Hr. apply elem_of_day_columns. eauto.
Qed.

Lemma sheet_plan_rows df selected_sites aggregate_floors tab_per_building sub name a :
  (sub, name, a) ∈ sheet_plan df selected_sites aggregate_floors tab_per_building →
  ∀ r, r ∈ rows sub → r ∈ rows df.
Proof.
  unfold sheet_plan. rewrite !elem_of_app. intros [Hin | [Hin | Hin]] r.
  - destruct (1 <? _)%nat; [|by apply elem_of_nil in Hin].
    apply list_elem_of_singleton in Hin as [= -> _ _]. by intros [? _]%elem_of_select.
  - apply list_elem_of_bind in Hin as (site & Hin & _). cbn zeta in Hin.
    destruct (empty _); [by apply elem_of_nil in Hin|].
    apply list_elem_of_singleton in Hin as [= -> _ _]. by intros [? _]%elem_of_select.
  - destruct (_ && _); [|by apply elem_of_nil in Hin]. cbn zeta in Hin.
    apply list_elem_of_fmap in Hin as (b & [= -> _ _] & _).
    by intros [[? _]%elem_of_select _]%elem_of_select.
Qed.

Lemma length_str_take n s : String.length (str_take n s) ≤ n.
Proof.
  revert s. induction n as [|n IH]; intros [|c s]; simpl; try lia.
  specialize (IH s). lia.
Qed.

(** ** The report *)

(** C4. A run that returns has rendered into its workbook, in order: the
    combined sheet ["Report"], scoped to the selected sites, exactly when
    more than one site is selected; a sheet for each selected site that has
    rows after the filter, a site without rows being passed over; and,
    exactly when [aggregate_floors] and [tab_per_building] are both set, a
    sheet for each building of the records of the selected sites, named
    ["Bldg - "] and the building. Every name is cut to 31 characters before
    the workbook is asked for the sheet. *)
Theorem sheets_emitted `{Xlsx} data selected_sites output_path date_from date_to
    aggregate_floors tab_per_building w w' :
  generate_excel_report data selected_sites output_path date_from date_to
    aggregate_floors tab_per_building w = (w', Ok tt) →
  ∃ df0 sheets,
    build_frame data = Ok df0
    ∧ workbook w' = Some (output_path, sheets)
    ∧ is_Some (files w' !! output_path)
    ∧ rendered (day_columns (date_filter date_from date_to df0)) []
        (sheet_plan (date_filter date_from date_to df0) selected_sites
           aggregate_floors tab_per_building) sheets
    ∧ length sheets
      = length (sheet_plan (date_filter date_from date_to df0) selected_sites
                  aggregate_floors tab_per_building)
    ∧ ∀ sub name a,
        (sub, name, a) ∈ sheet_plan (date_filter date_from date_to df0) selected_sites
                           aggregate_floors tab_per_building →
        String.length (str_take 31 name) ≤ 31.
Proof.
  intros (df0 & sheets & Hdf0 & Hsheets & ->)%generate_excel_report_Ok.
  exists df0, sheets. cbn [workbook files]. split_and!.
  - done.
  - done.
  - rewrite lookup_insert_eq. by eexists.
  - done.
  - by eapply rendered_length.
  - intros sub name a _. apply length_str_take.
Qed.

(** C5. The day columns are the calendar days of the session dates of the
    filtered records, each once and in ascending order, and every sheet of
    a run that returns, combined, per site or per building, has the header
    of every one of them, at the same place. *)
Theorem day_columns_shared `{Xlsx} data selected_sites output_path date_from date_to
    aggregate_floors tab_per_building w w' :
  generate_excel_report data selected_sites output_path date_from date_to
    aggregate_floors tab_per_building w = (w', Ok tt) →
  ∃ df0 sheets,
    build_frame data = Ok df0
    ∧ workbook w' = Some (output_path, sheets)
    ∧ StronglySorted dt_lt (day_columns (date_filter date_from date_to df0))
    ∧ (∀ d, d ∈ day_columns (date_filter date_from date_to df0) ↔
            ∃ r, r ∈ rows (date_filter date_from date_to df0)
                 ∧ normalize (session_date r) = d)
    ∧ Forall (fun ws =>
                shows_day_headers (ws_table ws)
                  (day_columns (date_filter date_from date_to df0))) sheets.
Proof.
  intros (df0 & sheets & Hdf0 & Hsheets & ->)%generate_excel_report_Ok.
  exists df0, sheets. split_and!; [done..| | |].
  - apply day_columns_ascending.
  - apply elem_of_day_columns.
  - apply Forall_forall. intros ws Hws.
    destruct (rendered_elem _ _ _ _ _ Hsheets Hws) as (sub & name & a & _ & Hcells).
    by apply site_report_cells_shows in Hcells as (? & _).
Qed.

(** C1. In every sheet of a run that returns, the sheet being the
    rendering of some scope [sub] of the plan: the totals of the sheet and
    of every line of the data rows, and their cells under every day column,
    show the number of rows and the number of distinct client MAC addresses
    of the rows they stand for; and at every granularity the sessions under
    the day columns add up to the sessions of the total. *)
Theorem uniform_aggregation `{Xlsx} data selected_sites output_path date_from date_to
    aggregate_floors tab_per_building w w' :
  generate_excel_report data selected_sites output_path date_from date_to
    aggregate_floors tab_per_building w = (w', Ok tt) →
  ∃ df0 sheets,
    build_frame data = Ok df0
    ∧ workbook w' = Some (output_path, sheets)
    ∧ Forall (fun ws =>
        ∃ sub name a,
          (sub, name, a) ∈ sheet_plan (date_filter date_from date_to df0) selected_sites
                             aggregate_floors tab_per_building
          ∧ shows_counts (ws_table ws) 5 7 sub
              (day_columns (date_filter date_from date_to df0))
          ∧ shows_lines (ws_table ws) 8 (report_lines a sub) a sub
              (day_columns (date_filter date_from date_to df0))
          ∧ ∀ g,
              sum_list ((fun day => sessions (on_day day (subset a g sub)))
                        <$> day_columns (date_filter date_from date_to df0))
              = sessions (subset a g sub)) sheets.
Proof.
  intros (df0 & sheets & Hdf0 & Hsheets & ->)%generate_excel_report_Ok.
  exists df0, sheets. split_and!; [done..|].
  apply Forall_forall. intros ws Hws.
  destruct (rendered_elem _ _ _ _ _ Hsheets Hws) as (sub & name & a & Hplan & Hcells).
  exists sub, name, a. apply site_report_cells_shows in Hcells as (_ & ? & ?).
  split_and!; [done..|]. intros g. apply sessions_sum_over_day_columns.
  intros r [Hr _]%elem_of_select. by eapply sheet_plan_rows.
Qed.

(** Rendering a scope without rows raises at the first line of the body,
    before anything is written. *)
Lemma site_report_cells_empty df sheet_name date_cols aggregate_floors t :
  rows df = [] →
  site_report_cells df sheet_name date_cols aggregate_floors t = (t, Raise KeyError).
Proof. intros Hrows. unfold site_report_cells, write_title. by rewrite Hrows. Qed.

(** ** The worked example *)

Lemma from_ok_eq {A} (d : A) (r : result A) : is_ok r = true → r = Ok (from_ok d r).
Proof. by destruct r. Qed.

Lemma run_returned {S A} (run : S * result A) a : run.2 = Ok a → run = (run.1, Ok a).
Proof. destruct run. simpl. by intros ->. Qed.

Lemma head_elem_of {A} (d : A) (l : list A) : 0 < length l → default d (head l) ∈ l.
Proof. destruct l; simpl; [lia|]. intros _. left. Qed.

Lemma example_frame_built : build_frame example_data = Ok example_frame.
Proof. apply from_ok_eq. by vm_compute. Qed.

Lemma example_row_in_frame : example_row ∈ rows example_frame.
Proof.
  apply head_elem_of. assert (length (rows example_frame) = 2) as ->; [by vm_compute|lia].
Qed.

(** C6. With no record in the date range the day columns are empty, and
    rendering does not give a sheet with title and summary: the combined
    sheet of a run with two selected sites raises at the first line of the
    body, the workbook is never closed and no file is written. *)
Theorem empty_range_combined_sheet_raises :
  day_columns (date_filter (Some (mk_datetime 2025 1 1 0 0 0 0)) None example_frame) = []
  ∧ @generate_excel_report xlsxwriter_check_sheetname example_data ["Site A"; "Site B"]
      "report.xlsx" (Some (mk_datetime 2025 1 1 0 0 0 0)) None false false fresh_world
    = (mk_world (Some ("report.xlsx", [mk_worksheet "Report" ∅])) ∅, Raise KeyError).
Proof. split; by vm_compute. Qed.

(** C2, as the specification states it, fails on the first session of the
    example: its session date is not its end time cut to the day, and with
    [date_to] at the midnight that starts its day, the day its end time
    falls on, the record is dropped. *)
Lemma session_date_is_not_truncated :
  build_frame example_data = Ok example_frame
  ∧ example_row ∈ rows example_frame
  ∧ session_date example_row ≠ normalize (end_time example_row)
  ∧ normalize (session_date example_row) = mk_datetime 2024 1 1 0 0 0 0
  ∧ example_row ∉ rows (date_filter None (Some (mk_datetime 2024 1 1 0 0 0 0)) example_frame).
Proof.
  split_and!.
  - apply example_frame_built.
  - apply example_row_in_frame.
  - intros Heq. vm_compute in Heq. discriminate.
  - by vm_compute.
  - rewrite elem_of_date_filter. intros (_ & _ & Hto).
    specialize (Hto _ eq_refl). vm_compute in Hto. discriminate.
Qed.

(** The end-to-end scenario of the specification: one sheet ["Site A"]
    with one day column, the location with 2 sessions and 2 users, one SSID
    row with 2 and 2, and two sublocation rows with 1 and 1 each. *)
Example end_to_end_scenario :
  scenario_run.2 = Ok tt
  ∧ (ws_name <$> default [] (snd <$> workbook scenario_run.1)) = ["Site A"]
  ∧ (cells_at [(5, 5); (5, 7); (8, 0); (8, 2); (8, 3); (8, 5); (8, 6)]
       <$> default [] (snd <$> workbook scenario_run.1))
    = [[Some (Text "01-Jan"); None; Some (Text "    Site A");
        Some (Number 2); Some (Number 2); Some (Number 2); Some (Number 2)]]
  ∧ (cells_at [(9, 1); (9, 2); (9, 3); (10, 0); (10, 2); (10, 3);
               (11, 0); (11, 2); (11, 3); (12, 0); (12, 1)]
       <$> default [] (snd <$> workbook scenario_run.1))
    = [[Some (Text "    Guest"); Some (Number 2); Some (Number 2);
        Some (Text "        Bldg1|F1"); Some (Number 1); Some (Number 1);
        Some (Text "        Bldg1|F2"); Some (Number 1); Some (Number 1);
        None; None]].
Proof. split_and!; by vm_compute. Qed.

(** ** The properties at the worked example *)

Lemma normalize_datetime_first_match_witness :
  strptime "3/1/24 13:45" "%Y-%m-%d %H:%M:%S" = None
  ∧ strptime "3/1/24 13:45" "%m/%d/%y %H:%M" = Some (mk_datetime 2024 3 1 13 45 0 0)
  ∧ normalize_datetime "3/1/24 13:45" = Ok (mk_datetime 2024 3 1 13 45 0 0).
Proof.
  split; [vm_compute; reflexivity|]. split; [vm_compute; reflexivity|].
  apply (proj1 (proj2 normalize_datetime_first_match)); vm_compute; reflexivity.
Defined.

Lemma building_derivation_witness :
  fields example_row !! "sublocation" = Some "Bldg1|F1"
  ∧ (∃ prefix, before_first_pipe "Bldg1|F1" prefix ∧ trimmed prefix (building example_row))
  ∧ (∀ prefix t, before_first_pipe "Bldg1|F1" prefix → trimmed prefix t →
       t = building example_row).
Proof.
  assert (fields example_row !! "sublocation" = Some "Bldg1|F1") as Hsub.
  { vm_compute. reflexivity. }
  split; [exact Hsub|].
  exact (proj1 building_derivation example_data example_frame example_row "Bldg1|F1"
           example_frame_built example_row_in_frame Hsub).
Defined.

Lemma date_filter_on_end_time_witness :
  build_frame example_data = Ok example_frame
  ∧ (∀ r, r ∈ rows example_frame → session_date r = end_time r)
  ∧ (∀ date_from date_to r,
       r ∈ rows (date_filter date_from date_to example_frame) ↔
       r ∈ rows example_frame
       ∧ (∀ d, date_from = Some d → dt_le d (end_time r))
       ∧ (∀ d, date_to = Some d → dt_le (end_time r) d))
  ∧ (∀ r, r ∈ rows example_frame →
       r ∈ rows (date_filter (Some (end_time r)) (Some (end_time r)) example_frame)).
Proof.
  split; [exact example_frame_built|].
  exact (date_filter_on_end_time example_data example_frame example_frame_built).
Defined.

Lemma bad_timestamp_raises_before_workbook_witness :
  session_bad ∈ [session_1; session_bad]
  ∧ bad_timestamp (session_bad !! "end_time")
  ∧ ∃ e, @generate_excel_report xlsxwriter_check_sheetname [session_1; session_bad]
           ["Site A"] "report.xlsx" None None false false fresh_world
         = (fresh_world, Raise e).
Proof.
  assert (session_bad ∈ [session_1; session_bad]) as Hin by (right; left).
  assert (bad_timestamp (session_bad !! "end_time")) as Hbad.
  { vm_compute. split; reflexivity. }
  split; [exact Hin|]. split; [exact Hbad|].
  exact (@bad_timestamp_raises_before_workbook xlsxwriter_check_sheetname
           [session_1; session_bad] ["Site A"] "report.xlsx" None None false false
           fresh_world session_bad Hin (or_intror Hbad)).
Defined.

Lemma ingest_files_recognized_sources_witness :
  recognized "notes.txt" = false
  ∧ ingest_files example_files ["sessions.csv"; "notes.txt"]
    = ingest_files example_files ["sessions.csv"].
Proof.
  assert (recognized "notes.txt" = false) as Hpath by (vm_compute; reflexivity).
  split; [exact Hpath|].
  exact (proj1 (proj2 (ingest_files_recognized_sources example_files))
           ["sessions.csv"] "notes.txt" [] Hpath).
Defined.

Lemma example_run_returned : example_run = (example_run.1, Ok tt).
Proof. apply run_returned. vm_compute. reflexivity. Defined.

Lemma sheets_emitted_witness :
  example_run = (example_run.1, Ok tt)
  ∧ ∃ df0 sheets,
      build_frame example_data = Ok df0
      ∧ workbook example_run.1 = Some ("report.xlsx", sheets)
      ∧ is_Some (files example_run.1 !! "report.xlsx")
      ∧ @rendered xlsxwriter_check_sheetname (day_columns (date_filter None None df0)) []
          (sheet_plan (date_filter None None df0) ["Site A"; "Site B"] true true) sheets
      ∧ length sheets
        = length (sheet_plan (date_filter None None df0) ["Site A"; "Site B"] true true)
      ∧ ∀ sub name a,
          (sub, name, a) ∈ sheet_plan (date_filter None None df0) ["Site A"; "Site B"]
                             true true →
          String.length (str_take 31 name) ≤ 31.
Proof.
  split; [exact example_run_returned|].
  exact (@sheets_emitted xlsxwriter_check_sheetname example_data ["Site A"; "Site B"]
           "report.xlsx" None None true true fresh_world example_run.1 example_run_returned).
Defined.

Lemma day_columns_shared_witness :
  example_run = (example_run.1, Ok tt)
  ∧ ∃ df0 sheets,
      build_frame example_data = Ok df0
      ∧ workbook example_run.1 = Some ("report.xlsx", sheets)
      ∧ StronglySorted dt_lt (day_columns (date_filter None None df0))
      ∧ (∀ d, d ∈ day_columns (date_filter None None df0) ↔
              ∃ r, r ∈ rows (date_filter None None df0) ∧ normalize (session_date r) = d)
      ∧ Forall (fun ws =>
                  shows_day_headers (ws_table ws) (day_columns (date_filter None None df0)))
          sheets.
Proof.
  split; [exact example_run_returned|].
  exact (@day_columns_shared xlsxwriter_check_sheetname example_data ["Site A"; "Site B"]
           "report.xlsx" None None true true fresh_world example_run.1 example_run_returned).
Defined.

Lemma uniform_aggregation_witness :
  example_run = (example_run.1, Ok tt)
  ∧ ∃ df0 sheets,
      build_frame example_data = Ok df0
      ∧ workbook example_run.1 = Some ("report.xlsx", sheets)
      ∧ Forall (fun ws =>
          ∃ sub name a,
            (sub, name, a) ∈ sheet_plan (date_filter None None df0) ["Site A"; "Site B"]
                               true true
            ∧ shows_counts (ws_table ws) 5 7 sub (day_columns (date_filter None None df0))
            ∧ shows_lines (ws_table ws) 8 (report_lines a sub) a sub
                (day_columns (date_filter None None df0))
            ∧ ∀ g,
                sum_list ((fun day => sessions (on_day day (subset a g sub)))
                          <$> day_columns (date_filter None None df0))
                = sessions (subset a g sub)) sheets.
Proof.
  split; [exact example_run_returned|].
  exact (@uniform_aggregation xlsxwriter_check_sheetname example_data ["Site A"; "Site B"]
           "report.xlsx" None None true true fresh_world example_run.1 example_run_returned).
Defined.

(** * Further properties *)

(** ** Parsing the rows of a CSV file *)

Lemma NoDup_expected_headers : NoDup expected_headers.
Proof. apply (bool_decide_unpack (NoDup expected_headers)). by vm_compute. Qed.

Lemma index_of_Some key headers idx :
  index_of key headers = Some idx ↔
  headers !! idx = Some key ∧ ∀ j, j < idx → headers !! j ≠ Some key.
Proof.
  unfold index_of. split.
  - destruct (list_find _ headers) as [[i h]|] eqn:Hfind; [|done].
    intros [= <-]. apply list_find_Some in Hfind as (Hi & -> & Hbefore).
    split; [done|]. intros j Hj Hkey. by eapply Hbefore.
  - intros [Hidx Hbefore].
    assert (list_find (fun h => h = key) headers = Some (idx, key)) as ->; [|done].
    apply list_find_Some. split_and!; [done..|].
    intros j h Hh Hj ->. by eapply Hbefore.
Qed.

Lemma index_of_lt key headers idx : index_of key headers = Some idx → idx < length headers.
Proof. intros [Hidx _]%index_of_Some. by eapply lookup_lt_Some. Qed.

Lemma elem_of_make_header_map key idx headers :
  (key, idx) ∈ make_header_map headers ↔
  key ∈ expected_headers ∧ index_of key headers = Some idx.
Proof.
  unfold make_header_map. rewrite list_elem_of_omap. split.
  - intros (k & Hk & Hf). destruct (index_of k headers) as [i|] eqn:Hi; [|done].
    by injection Hf as -> ->.
  - intros [Hkey Hidx]. exists key. by rewrite Hidx.
Qed.

Lemma make_header_map_keys headers :
  (make_header_map headers).*1
  = filter (fun key => is_Some (index_of key headers)) expected_headers.
Proof.
  unfold make_header_map. generalize expected_headers. intros keys.
  induction keys as [|key keys IH]; [done|].
  rewrite filter_cons. csimpl. destruct (index_of key headers) as [idx|]; csimpl.
  - by rewrite IH.
  - done.
Qed.

Lemma NoDup_make_header_map headers : NoDup (make_header_map headers).*1.
Proof. rewrite make_header_map_keys. apply NoDup_filter, NoDup_expected_headers. Qed.

Lemma make_entry_lookup header_map row entry key :
  NoDup header_map.*1 →
  make_entry header_map row = Ok entry →
  entry !! key
  = idx ← (list_to_map header_map : gmap string nat) !! key; strip <$> row !! idx.
Proof.
  intros Hnodup. unfold make_entry.
  destruct (map_result _ header_map) as [l|] eqn:Hl; [|done].
  intros [= <-]. apply map_result_Ok in Hl.
  induction Hl as [|[k idx] y header_map l Hy _ IH]; [done|].
  destruct (row !! idx) as [cell|] eqn:Hcell; [|done]. injection Hy as <-.
  rewrite fmap_cons in Hnodup. apply NoDup_cons in Hnodup as [Hk Hnodup].
  cbn [list_to_map foldr uncurry]. destruct (decide (k = key)) as [->|Hne].
  - rewrite !lookup_insert_eq. simpl. by rewrite Hcell.
  - rewrite !lookup_insert_ne by done. by apply IH.
Qed.

(** X1. Behind the header row, the rows that have at least as many cells as
    there are mapped headers give the records, one each and in order; the
    other rows give none. A record holds, for every expected header that
    the header row has, the cell under the first column of that name,
    without the white space around it, and holds nothing else. *)
Theorem csv_import_records before headers after records :
  Forall (fun row => is_header_row row = false) before →
  is_header_row headers = true →
  csv_import (before ++ headers :: after) = Ok records →
  Forall2 (fun row entry =>
             ∀ key, entry !! key
                    = if decide (key ∈ expected_headers)
                      then idx ← index_of key headers; strip <$> row !! idx
                      else None)
    (filter (fun row => length (make_header_map headers) ≤ length row) after) records.
Proof.
  intros Hbefore Hheaders. unfold csv_import.
  rewrite (find_headers_first before headers after) by done.
  revert records. induction after as [|row after IH]; intros records; simpl.
  - intros [= <-]. constructor.
  - rewrite filter_cons. destruct (_ <? _)%nat eqn:Hlen.
    + apply Nat.ltb_lt in Hlen. rewrite decide_False by lia. apply IH.
    + apply Nat.ltb_ge in Hlen. rewrite decide_True by lia.
      intros (entry & Hentry & (rest & Hrest & [= <-])%bind_Ok)%bind_Ok.
      constructor; [|by apply IH].
      intros key. rewrite (make_entry_lookup _ _ _ key (NoDup_make_header_map _) Hentry).
      destruct (decide (key ∈ expected_headers)) as [Hkey|Hkey].
      * destruct (index_of key headers) as [idx|] eqn:Hidx.
        -- rewrite (elem_of_list_to_map_1 _ key idx); [done|apply NoDup_make_header_map|].
           by apply elem_of_make_header_map.
        -- assert ((list_to_map (make_header_map headers) : gmap string nat) !! key = None)
             as ->; [|done].
           apply not_elem_of_list_to_map. rewrite make_header_map_keys, list_elem_of_filter.
           rewrite Hidx. by intros [[? ?] _].
      * assert ((list_to_map (make_header_map headers) : gmap string nat) !! key = None)
          as ->; [|done].
        apply not_elem_of_list_to_map. rewrite make_header_map_keys, list_elem_of_filter.
        by intros [_ ?].
Qed.

Lemma find_headers_None reader :
  find_headers reader = None ↔ Forall (fun row => is_header_row row = false) reader.
Proof.
  induction reader as [|row reader IH]; simpl.
  - split; [constructor|done].
  - destruct (is_header_row row) eqn:Hrow.
    + split; [done|]. intros [? _]%Forall_cons. congruence.
    + rewrite IH. split; [by constructor|by intros [_ ?]%Forall_cons].
Qed.

Lemma find_headers_split reader headers after :
  find_headers reader = Some (headers, after) ↔
  ∃ before, reader = before ++ headers :: after
    ∧ Forall (fun row => is_header_row row = false) before
    ∧ is_header_row headers = true.
Proof.
  split.
  - revert headers after. induction reader as [|row reader IH]; intros headers after; simpl.
    + done.
    + destruct (is_header_row row) eqn:Hrow.
      * intros [= <- <-]. exists []. by split_and!.
      * intros (before & -> & ? & ?)%IH. exists (row :: before). split_and!; [done| |done].
        by constructor.
  - intros (before & -> & ? & ?). by apply find_headers_first.
Qed.

Lemma entry_cells_raises (header_map : list (string * nat)) (row : list string) e :
  map_result (fun '(key, idx) =>
                match row !! idx with
                | Some cell => Ok (key, strip cell)
                | None => Raise IndexError
                end) header_map = Raise e ↔
  e = IndexError ∧ ∃ key idx, (key, idx) ∈ header_map ∧ length row ≤ idx.
Proof.
  revert e. induction header_map as [|[k i] header_map IH]; intros e; simpl.
  - split; [done|]. intros (_ & ? & ? & []%elem_of_nil & _).
  - destruct (row !! i) as [cell|] eqn:Hcell; simpl.
    + destruct (map_result _ header_map) as [l|e'] eqn:Hl; simpl.
      * split; [done|]. intros (-> & key & idx & [[= -> ->]|Hin]%elem_of_cons & Hlen).
        -- apply lookup_lt_Some in Hcell. lia.
        -- assert (Ok l = Raise IndexError) as Habs; [|done]. apply IH. eauto.
      * destruct (proj1 (IH e') eq_refl) as (-> & key & idx & Hin & Hlen). split.
        -- intros [= <-]. split; [done|]. exists key, idx. split; [by right|done].
        -- by intros (-> & _).
    + apply lookup_ge_None in Hcell. split.
      * intros [= <-]. split; [done|]. exists k, i. split; [left|done].
      * by intros (-> & _).
Qed.

Lemma make_entry_raises header_map row e :
  make_entry header_map row = Raise e ↔
  e = IndexError ∧ ∃ key idx, (key, idx) ∈ header_map ∧ length row ≤ idx.
Proof.
  rewrite <- entry_cells_raises. unfold make_entry.
  destruct (map_result _ header_map); simpl; split; congruence.
Qed.

Lemma import_rows_raises header_map reader e :
  import_rows header_map reader = Raise e ↔
  e = IndexError
  ∧ ∃ row key idx, row ∈ reader ∧ (key, idx) ∈ header_map
      ∧ length header_map ≤ length row ≤ idx.
Proof.
  revert e. induction reader as [|row reader IH]; intros e; simpl.
  - split; [done|]. intros (_ & ? & ? & ? & []%elem_of_nil & _).
  - destruct (_ <? _)%nat eqn:Hlen.
    + apply Nat.ltb_lt in Hlen. rewrite IH. split; intros (-> & r & key & idx & Hr & Hk & Hl).
      * split; [done|]. exists r, key, idx. split_and!; [by right|done|lia|lia].
      * split; [done|]. apply elem_of_cons in Hr as [->|Hr]; [lia|].
        exists r, key, idx. split_and!; [done..|lia|lia].
    + apply Nat.ltb_ge in Hlen.
      destruct (make_entry header_map row) as [entry|e'] eqn:Hentry; simpl.
      * destruct (import_rows header_map reader) as [rows|e'] eqn:Hrows; simpl.
        -- split; [done|]. intros (-> & r & key & idx & [->|Hr]%elem_of_cons & Hk & Hl).
           ++ assert (make_entry header_map row = Raise IndexError) as Hraise; [|congruence].
              apply make_entry_raises. split; [done|]. exists key, idx. split; [done|lia].
           ++ assert (Ok rows = Raise IndexError) as Habs; [|done].
              apply IH. split; [done|]. exists r, key, idx. eauto.
        -- destruct (proj1 (IH e') eq_refl) as (-> & r & key & idx & Hr & Hk & Hl). split.
           ++ intros [= <-]. split; [done|]. exists r, key, idx.
              split_and!; [by right|done|lia|lia].
           ++ by intros (-> & _).
      * apply make_entry_raises in Hentry as (-> & key & idx & Hk & Hl). split.
        -- intros [= <-]. split; [done|]. exists row, key, idx. split_and!; [left|done|lia|lia].
        -- by intros (-> & _).
Qed.

(** X2. [csv_import] raises in two cases only: [NameError] when no row
    holds the four trigger names, and [IndexError] when, behind the header
    row, some row has as many cells as there are mapped headers and still
    none under the column of one of them. *)
Theorem csv_import_raises reader e :
  csv_import reader = Raise e ↔
  (e = NameError ∧ Forall (fun row => is_header_row row = false) reader)
  ∨ (e = IndexError
     ∧ ∃ before headers after row key idx,
         reader = before ++ headers :: after
         ∧ Forall (fun row => is_header_row row = false) before
         ∧ is_header_row headers = true
         ∧ row ∈ after ∧ key ∈ expected_headers ∧ index_of key headers = Some idx
         ∧ length (make_header_map headers) ≤ length row ≤ idx).
Proof.
  unfold csv_import. destruct (find_headers reader) as [[headers after]|] eqn:Hfind.
  - rewrite import_rows_raises. split.
    + intros (-> & row & key & idx & Hrow & [Hkey Hidx]%elem_of_make_header_map & Hlen).
      right. split; [done|]. apply find_headers_split in Hfind as (before & -> & ? & ?).
      exists before, headers, after, row, key, idx. split_and!; [done..|lia|lia].
    + intros [[-> Hnone%find_headers_None]|(-> & before & headers' & after' & row & key & idx
                 & -> & Hbefore & Hheaders & Hrow & Hkey & Hidx & Hlen)]; [congruence|].
      rewrite (find_headers_first before headers' after') in Hfind by done.
      injection Hfind as <- <-. split; [done|]. exists row, key, idx.
      split_and!; [done| |lia|lia]. by apply elem_of_make_header_map.
  - apply find_headers_None in Hfind as Hnone. split.
    + intros [= <-]. by left.
    + intros [[-> _]|(-> & before & headers & after & _ & _ & _ & -> & ? & ? & _)]; [done|].
      by rewrite find_headers_first in Hfind.
Qed.

Lemma length_make_header_map headers :
  NoDup headers → Forall (fun h => h ∈ expected_headers) headers →
  length (make_header_map headers) = length headers.
Proof.
  intros Hnodup Hexpected.
  rewrite <- (length_fmap fst), make_header_map_keys.
  apply Permutation_length, NoDup_Permutation; [|done|].
  - apply NoDup_filter, NoDup_expected_headers.
  - intros key. rewrite list_elem_of_filter. split.
    + intros [[idx [Hidx _]%index_of_Some] _]. by eapply list_elem_of_lookup_2.
    + intros Hkey. split; [|by apply (proj1 (Forall_forall _ _) Hexpected)].
      destruct (list_find_elem_of (fun h => h = key) headers key Hkey eq_refl) as [[i h] Hfind].
      exists i. unfold index_of. by rewrite Hfind.
Qed.

(** X3. When the header row is made of distinct expected names, the file
    parses whatever its other rows are: a row is either too short and
    skipped, or long enough to have a cell under every header. *)
Theorem csv_import_plain_header before headers after :
  Forall (fun row => is_header_row row = false) before →
  is_header_row headers = true →
  NoDup headers → Forall (fun h => h ∈ expected_headers) headers →
  ∃ records, csv_import (before ++ headers :: after) = Ok records.
Proof.
  intros Hbefore Hheaders Hnodup Hexpected. unfold csv_import.
  rewrite (find_headers_first before headers after) by done.
  destruct (import_rows (make_header_map headers) after) as [records|e] eqn:Hrun;
    [by eexists|].
  exfalso. apply import_rows_raises in Hrun
    as (_ & row & key & idx & _ & [_ Hidx]%elem_of_make_header_map & Hlen).
  rewrite length_make_header_map in Hlen by done.
  apply index_of_lt in Hidx. lia.
Qed.

Lemma csv_import_records_witness :
  Forall (fun row => is_header_row row = false) [["Client report"]]
  ∧ is_header_row example_headers = true
  ∧ csv_import example_reader = Ok (from_ok [] (csv_import example_reader))
  ∧ Forall2 (fun row entry =>
               ∀ key, entry !! key
                      = if decide (key ∈ expected_headers)
                        then idx ← index_of key example_headers; strip <$> row !! idx
                        else None)
      (filter (fun row => length (make_header_map example_headers) ≤ length row)
         example_after)
      (from_ok [] (csv_import example_reader)).
Proof.
  assert (Forall (fun row => is_header_row row = false) [["Client report"]]) as H1.
  { repeat constructor. }
  assert (is_header_row example_headers = true) as H2 by (vm_compute; reflexivity).
  assert (csv_import example_reader = Ok (from_ok [] (csv_import example_reader))) as H3.
  { apply from_ok_eq. vm_compute. reflexivity. }
  split; [exact H1|]. split; [exact H2|]. split; [exact H3|].
  exact (csv_import_records [["Client report"]] example_headers example_after _ H1 H2 H3).
Defined.

Lemma csv_import_plain_header_witness :
  Forall (fun row => is_header_row row = false) [["Client report"]]
  ∧ is_header_row example_headers = true
  ∧ NoDup example_headers
  ∧ Forall (fun h => h ∈ expected_headers) example_headers
  ∧ ∃ records, csv_import example_reader = Ok records.
Proof.
  assert (Forall (fun row => is_header_row row = false) [["Client report"]]) as H1.
  { repeat constructor. }
  assert (is_header_row example_headers = true) as H2 by (vm_compute; reflexivity).
  assert (NoDup example_headers) as H3.
  { apply (bool_decide_unpack (NoDup example_headers)). vm_compute. reflexivity. }
  assert (Forall (fun h => h ∈ expected_headers) example_headers) as H4.
  { apply (bool_decide_unpack (Forall (fun h => h ∈ expected_headers) example_headers)).
    vm_compute. reflexivity. }
  split; [exact H1|]. split; [exact H2|]. split; [exact H3|]. split; [exact H4|].
  exact (csv_import_plain_header [["Client report"]] example_headers example_after
           H1 H2 H3 H4).
Defined.

(** ** Ingestion of several sources *)

Lemma map_result_concat_elem {A B} (f : A → result (list B)) l yss y :
  map_result f l = Ok yss → y ∈ concat yss → ∃ x ys, x ∈ l ∧ f x = Ok ys ∧ y ∈ ys.
Proof.
  intros Hl%map_result_Ok. induction Hl as [|x ys l yss Hx _ IH]; simpl.
  - by intros ?%elem_of_nil.
  - intros [Hy|Hy]%elem_of_app.
    + exists x, ys. split; [left|done].
    + destruct (IH Hy) as (x' & ys' & ? & ? & ?). exists x', ys'. split; [by right|done].
Qed.

Lemma source_records_trigger_fields fs path records entry :
  source_records fs path = Ok records → entry ∈ records →
  is_Some (entry !! "location") ∧ is_Some (entry !! "sublocation")
  ∧ is_Some (entry !! "associate_vlan") ∧ is_Some (entry !! "device_mac").
Proof.
  unfold source_records. destruct (is_csv_name path).
  - unfold csv_import_path. destruct (fs !! path) as [f|]; [|done].
    intros (reader & _ & Hrows)%bind_Ok. by apply (csv_import_trigger_fields reader).
  - intros (z & _ & (rows & Hrows & [= <-])%bind_Ok)%bind_Ok Hentry.
    destruct (map_result_concat_elem _ _ _ _ Hrows Hentry) as (name & ys & _ & Hname & Hys).
    unfold csv_import_member in Hname. destruct (last _) as [m|]; [|done].
    apply bind_Ok in Hname as (reader & _ & Hname).
    by apply (csv_import_trigger_fields reader ys).
Qed.

(** X4. Every record that [ingest_files] returns, from whichever file or
    archive member it comes, has the four fields that make a header row:
    the callers may read [location] and [sublocation] of any record. *)
Theorem ingest_files_trigger_fields fs file_paths records entry :
  ingest_files fs file_paths = Ok records → entry ∈ records →
  is_Some (entry !! "location") ∧ is_Some (entry !! "sublocation")
  ∧ is_Some (entry !! "associate_vlan") ∧ is_Some (entry !! "device_mac").
Proof.
  unfold ingest_files. rewrite ingest_paths_concat.
  intros (rows & Hrows & [= <-])%bind_Ok Hentry.
  destruct (map_result_concat_elem _ _ _ _ Hrows Hentry) as (path & ys & _ & Hpath & Hys).
  by eapply source_records_trigger_fields.
Qed.

Lemma ingest_files_trigger_fields_witness :
  ingest_files example_files ["sessions.csv"]
  = Ok (from_ok [] (ingest_files example_files ["sessions.csv"]))
  ∧ default ∅ (head (from_ok [] (ingest_files example_files ["sessions.csv"])))
    ∈ from_ok [] (ingest_files example_files ["sessions.csv"])
  ∧ is_Some (default ∅ (head (from_ok [] (ingest_files example_files ["sessions.csv"])))
             !! "location").
Proof.
  assert (ingest_files example_files ["sessions.csv"]
          = Ok (from_ok [] (ingest_files example_files ["sessions.csv"]))) as H1.
  { apply from_ok_eq. vm_compute. reflexivity. }
  assert (default ∅ (head (from_ok [] (ingest_files example_files ["sessions.csv"])))
          ∈ from_ok [] (ingest_files example_files ["sessions.csv"])) as H2.
  { apply head_elem_of.
    assert (length (from_ok [] (ingest_files example_files ["sessions.csv"])) = 1) as ->;
      [vm_compute; reflexivity|lia]. }
  split; [exact H1|]. split; [exact H2|].
  exact (proj1 (ingest_files_trigger_fields example_files ["sessions.csv"] _ _ H1 H2)).
Defined.

Lemma map_result_filter_Raise {A B} (f : A → result B) (P : A → bool) l e :
  map_result f (filter (fun x => P x = true) l) = Raise e ↔
  ∃ l1 x l2, l = l1 ++ x :: l2 ∧ P x = true ∧ f x = Raise e
    ∧ Forall (fun y => P y = true → is_ok (f y) = true) l1.
Proof.
  revert e. induction l as [|y l IH]; intros e.
  - simpl. split; [done|]. intros (l1 & x & l2 & Hl & _). by destruct l1.
  - rewrite filter_cons. destruct (P y) eqn:Hy.
    + rewrite decide_True by done. simpl. destruct (f y) as [b|e'] eqn:Hfy; simpl.
      * destruct (map_result f (filter _ l)) as [ys|e''] eqn:Hrest; simpl.
        -- split; [done|]. intros (l1 & x & l2 & Hl & HP & Hx & Hall).
           destruct l1 as [|z l1]; simplify_eq/=; try congruence.
           apply Forall_cons in Hall as [_ Hall].
           assert (Ok ys = Raise e) as Habs; [|done].
           apply IH. by exists l1, x, l2.
        -- destruct (proj1 (IH e'') eq_refl) as (l1 & x & l2 & -> & HP & Hx & Hall). split.
           ++ intros [= <-]. exists (y :: l1), x, l2. split_and!; [done..|].
              constructor; [|done]. intros _. by rewrite Hfy.
           ++ intros (l1' & x' & l2' & Hl & HP' & Hx' & Hall').
              destruct l1' as [|z l1']; simplify_eq/=; try congruence.
              apply Forall_cons in Hall' as [_ Hall'].
              apply (IH e). by exists l1', x', l2'.
      * split.
        -- intros [= <-]. exists [], y, l. split_and!; [done..|constructor].
        -- intros (l1 & x & l2 & Hl & HP & Hx & Hall).
           destruct l1 as [|z l1]; simplify_eq/=; try congruence.
           apply Forall_cons in Hall as [Hz _]. specialize (Hz Hy). by rewrite Hfy in Hz.
    + rewrite decide_False by done. rewrite IH. split.
      * intros (l1 & x & l2 & -> & HP & Hx & Hall). exists (y :: l1), x, l2.
        split_and!; [done..|]. constructor; [|done]. intros ?. congruence.
      * intros (l1 & x & l2 & Hl & HP & Hx & Hall).
        destruct l1 as [|z l1]; simplify_eq/=; try congruence.
        apply Forall_cons in Hall as [_ Hall]. by exists l1, x, l2.
Qed.

(** X5. Ingestion is all or nothing. [ingest_files] raises exactly when
    some recognised path cannot be read or parsed, and it raises the
    exception of the first such path: the records of the paths before it
    are lost and the paths behind it are not looked at. *)
Theorem ingest_files_raises fs file_paths e :
  ingest_files fs file_paths = Raise e ↔
  ∃ before path after,
    file_paths = before ++ path :: after
    ∧ recognized path = true
    ∧ source_records fs path = Raise e
    ∧ Forall (fun p => recognized p = true → is_ok (source_records fs p) = true) before.
Proof.
  unfold ingest_files. rewrite ingest_paths_concat, <- map_result_filter_Raise.
  destruct (map_result _ _); simpl; split; congruence.
Qed.

(** ** The timestamps that [normalize_datetime] returns *)

Lemma format_items_long :
  format_items "%Y-%m-%d %H:%M:%S"
  = Some [Directive dir_Y; Literal "-"; Directive dir_m; Literal "-"; Directive dir_d;
          Whitespace; Directive dir_H; Literal ":"; Directive dir_M; Literal ":";
          Directive dir_S].
Proof. vm_compute. reflexivity. Qed.

Lemma format_items_short :
  format_items "%m/%d/%y %H:%M"
  = Some [Directive dir_m; Literal "/"; Directive dir_d; Literal "/"; Directive dir_y;
          Whitespace; Directive dir_H; Literal ":"; Directive dir_M].
Proof. vm_compute. reflexivity. Qed.

Lemma strptime_Some value fmt t :
  strptime value fmt = Some t ↔
  ∃ items rest, format_items fmt = Some items
    ∧ match_items items (mk_datetime 1900 1 1 0 0 0 0) value = (t, "") :: rest
    ∧ valid_datetime t = true.
Proof.
  unfold strptime. split.
  - destruct (format_items fmt) as [items|]; simpl; [|done].
    destruct (match_items items _ value) as [|[t' [|c s]] rest] eqn:Hmatch; try done.
    destruct (valid_datetime t') eqn:Hvalid; [|done]. intros [= ->]. by exists items, rest.
  - intros (items & rest & Hitems & Hmatch & Hvalid).
    rewrite Hitems. simpl. by rewrite Hmatch, Hvalid.
Qed.

Lemma digit_in_elem lo hi s d s' :
  (d, s') ∈ digit_in lo hi s →
  (lo ≤ d ≤ hi)%N ∧ ∃ c, s = String c s' ∧ digit_of c = Some d.
Proof.
  unfold digit_in. destruct s as [|c rest]; [by intros ?%elem_of_nil|].
  destruct (digit_of c) as [n|] eqn:Hc; [|by intros ?%elem_of_nil].
  destruct (_ && _) eqn:Hrange; [|by intros ?%elem_of_nil].
  intros [= -> ->]%list_elem_of_singleton.
  apply andb_true_iff in Hrange as [?%N.leb_le ?%N.leb_le]. eauto.
Qed.

Lemma two_digits_elem lo1 hi1 lo2 hi2 s n s' :
  (n, s') ∈ two_digits lo1 hi1 lo2 hi2 s →
  ∃ a b c1 c2, n = (10 * a + b)%N ∧ (lo1 ≤ a ≤ hi1)%N ∧ (lo2 ≤ b ≤ hi2)%N
    ∧ s = String c1 (String c2 s') ∧ digit_of c1 = Some a ∧ digit_of c2 = Some b.
Proof.
  unfold two_digits.
  intros ([a s1] & ([b s2] & [= -> ->]%list_elem_of_singleton & Hb)%list_elem_of_bind
            & Ha)%list_elem_of_bind.
  apply digit_in_elem in Ha as (? & c1 & -> & ?), Hb as (? & c2 & -> & ?).
  by exists a, b, c1, c2.
Qed.

Lemma match_items_Directive d items t s t' s' :
  (t', s') ∈ match_items (Directive d :: items) t s ↔
  ∃ n s1, (n, s1) ∈ directive_matcher d s ∧ (t', s') ∈ match_items items (set_field d n t) s1.
Proof.
  cbn [match_items]. rewrite list_elem_of_bind. split.
  - intros ([n s1] & ? & ?). eauto.
  - intros (n & s1 & ? & ?). by exists (n, s1).
Qed.

Lemma match_items_Literal c items t s t' s' :
  (t', s') ∈ match_items (Literal c :: items) t s ↔
  ∃ s1, s = String c s1 ∧ (t', s') ∈ match_items items t s1.
Proof.
  cbn [match_items]. rewrite list_elem_of_bind. unfold one_char. split.
  - intros ([[] s1] & ? & Hc). destruct s as [|c' rest]; [by apply elem_of_nil in Hc|].
    case_bool_decide; [|by apply elem_of_nil in Hc].
    apply list_elem_of_singleton in Hc as [= ->]. subst. eauto.
  - intros (s1 & -> & ?). exists (tt, s1). split; [done|].
    rewrite bool_decide_eq_true_2 by done. by left.
Qed.

Lemma match_items_Whitespace items t s t' s' :
  (t', s') ∈ match_items (Whitespace :: items) t s →
  ∃ s1, (t', s') ∈ match_items items t s1.
Proof.
  cbn [match_items]. rewrite list_elem_of_bind. intros ([[] s1] & ? & _). eauto.
Qed.

(** Takes a match of a sequence of format items apart. *)
Ltac match_inv H :=
  repeat first
    [ let n := fresh "n" in let s := fresh "s" in let Hn := fresh "Hn" in
      apply match_items_Directive in H as (n & s & Hn & H)
    | let s := fresh "s" in let Hs := fresh "Hs" in
      apply match_items_Literal in H as (s & Hs & H)
    | let s := fresh "s" in apply match_items_Whitespace in H as (s & H) ];
  cbn [match_items] in H; apply list_elem_of_singleton in H.

Lemma directive_matcher_y s n s' : (n, s') ∈ directive_matcher dir_y s → (n ≤ 99)%N.
Proof. intros (a & b & _ & _ & -> & ? & ? & _)%two_digits_elem. lia. Qed.

Lemma match_items_microsecond items t s t' s' :
  (t', s') ∈ match_items items t s → microsecond t' = microsecond t.
Proof.
  revert t s. induction items as [|[d| |c] items IH]; intros t s.
  - cbn [match_items]. by intros [= -> _]%list_elem_of_singleton.
  - intros (n & s1 & _ & ->%IH)%match_items_Directive. by destruct d.
  - intros (s1 & ?%IH)%match_items_Whitespace. done.
  - intros (s1 & _ & ?%IH)%match_items_Literal. done.
Qed.

Lemma strptime_short value t :
  strptime value "%m/%d/%y %H:%M" = Some t →
  second t = 0%N ∧ (1969 ≤ year t ≤ 2068)%N.
Proof.
  intros (items & rest & Hitems & Hmatch & _)%strptime_Some.
  rewrite format_items_short in Hitems. injection Hitems as <-.
  assert ((t, "") ∈ match_items
            [Directive dir_m; Literal "/"; Directive dir_d; Literal "/"; Directive dir_y;
             Whitespace; Directive dir_H; Literal ":"; Directive dir_M]
            (mk_datetime 1900 1 1 0 0 0 0) value) as H by (rewrite Hmatch; left).
  clear Hmatch. match_inv H.
  injection H as -> _. cbn.
  match goal with Hy : (_, _) ∈ directive_matcher dir_y _ |- _ =>
    apply directive_matcher_y in Hy end.
  split; [done|]. destruct (_ <=? _)%N eqn:Hle; [apply N.leb_le in Hle|apply N.leb_gt in Hle]; lia.
Qed.

(** X6. A timestamp that [normalize_datetime] returns is a date and time
    of the calendar (year 1 to 9999, a day that the month has, hour below
    24, minute and second below 60) with no fraction of a second; one read
    in the short pattern has no seconds and a year from 1969 to 2068, the
    two digits from 69 to 99 standing for the 1900s. *)
Theorem normalize_datetime_result value t :
  normalize_datetime value = Ok t →
  valid_datetime t = true
  ∧ microsecond t = 0%N
  ∧ (strptime value "%Y-%m-%d %H:%M:%S" = None →
     second t = 0%N ∧ (1969 ≤ year t ≤ 2068)%N).
Proof.
  rewrite normalize_datetime_unfold.
  assert (∀ fmt, strptime value fmt = Some t → valid_datetime t = true ∧ microsecond t = 0%N)
    as Hfmt.
  { intros fmt (items & rest & _ & Hmatch & Hvalid)%strptime_Some. split; [done|].
    apply (match_items_microsecond items (mk_datetime 1900 1 1 0 0 0 0) value t "").
    rewrite Hmatch. left. }
  destruct (strptime value "%Y-%m-%d %H:%M:%S") as [t1|] eqn:Hlong.
  - intros [= ->]. destruct (Hfmt _ Hlong). by split_and!.
  - destruct (strptime value "%m/%d/%y %H:%M") as [t2|] eqn:Hshort; [|done].
    intros [= ->]. destruct (Hfmt _ Hshort). split_and!; [done..|].
    intros _. by apply (strptime_short value).
Qed.

Lemma normalize_datetime_result_witness :
  normalize_datetime "3/1/69 13:45" = Ok (mk_datetime 1969 3 1 13 45 0 0)
  ∧ valid_datetime (mk_datetime 1969 3 1 13 45 0 0) = true
  ∧ microsecond (mk_datetime 1969 3 1 13 45 0 0) = 0%N.
Proof.
  assert (normalize_datetime "3/1/69 13:45" = Ok (mk_datetime 1969 3 1 13 45 0 0)) as H.
  { vm_compute. reflexivity. }
  split; [exact H|].
  destruct (normalize_datetime_result _ _ H) as (H1 & H2 & _). exact (conj H1 H2).
Defined.

Lemma directive_matcher_Y s n s' :
  (n, s') ∈ directive_matcher dir_Y s →
  ∃ c1 c2 c3 c4, s = String c1 (String c2 (String c3 (String c4 s')))
    ∧ is_Some (digit_of c1) ∧ is_Some (digit_of c2) ∧ is_Some (digit_of c3).
Proof.
  cbn [directive_matcher].
  intros ([a s1] & ([b s2] & [= -> ->]%list_elem_of_singleton & Hb)%list_elem_of_bind
            & Ha)%list_elem_of_bind.
  apply two_digits_elem in Ha as (? & ? & c1 & c2 & _ & _ & _ & -> & ? & ?).
  apply two_digits_elem in Hb as (? & ? & c3 & c4 & _ & _ & _ & -> & ? & ?).
  exists c1, c2, c3, c4. eauto.
Qed.

Lemma directive_matcher_m s n s' :
  (n, s') ∈ directive_matcher dir_m s →
  ∃ c1, is_Some (digit_of c1)
    ∧ (s = String c1 s' ∨ ∃ c2, s = String c1 (String c2 s') ∧ is_Some (digit_of c2)).
Proof.
  cbn [directive_matcher]. rewrite !elem_of_app.
  intros [H|[H|H]].
  - apply two_digits_elem in H as (? & ? & c1 & c2 & _ & _ & _ & -> & ? & ?).
    exists c1. eauto 6.
  - apply two_digits_elem in H as (? & ? & c1 & c2 & _ & _ & _ & -> & ? & ?).
    exists c1. eauto 6.
  - apply digit_in_elem in H as (_ & c1 & -> & ?). exists c1. eauto.
Qed.

Lemma strptime_long_digits value t :
  strptime value "%Y-%m-%d %H:%M:%S" = Some t →
  ∃ c1 c2 c3 rest, value = String c1 (String c2 (String c3 rest))
    ∧ is_Some (digit_of c1) ∧ is_Some (digit_of c2) ∧ is_Some (digit_of c3).
Proof.
  intros (items & rest & Hitems & Hmatch & _)%strptime_Some.
  rewrite format_items_long in Hitems. injection Hitems as <-.
  assert ((t, "") ∈ match_items
            [Directive dir_Y; Literal "-"; Directive dir_m; Literal "-"; Directive dir_d;
             Whitespace; Directive dir_H; Literal ":"; Directive dir_M; Literal ":";
             Directive dir_S]
            (mk_datetime 1900 1 1 0 0 0 0) value) as H by (rewrite Hmatch; left).
  apply match_items_Directive in H as (n & s & (c1 & c2 & c3 & c4 & -> & ? & ? & ?)%directive_matcher_Y & _).
  by exists c1, c2, c3, (String c4 s).
Qed.

Lemma strptime_short_slash value t :
  strptime value "%m/%d/%y %H:%M" = Some t →
  ∃ c1, is_Some (digit_of c1)
    ∧ ((∃ rest, value = String c1 (String "/" rest))
       ∨ (∃ c2 rest, value = String c1 (String c2 (String "/" rest)))).
Proof.
  intros (items & rest & Hitems & Hmatch & _)%strptime_Some.
  rewrite format_items_short in Hitems. injection Hitems as <-.
  assert ((t, "") ∈ match_items
            [Directive dir_m; Literal "/"; Directive dir_d; Literal "/"; Directive dir_y;
             Whitespace; Directive dir_H; Literal ":"; Directive dir_M]
            (mk_datetime 1900 1 1 0 0 0 0) value) as H by (rewrite Hmatch; left).
  apply match_items_Directive in H as (n & s & (c1 & ? & Hs)%directive_matcher_m & H').
  apply match_items_Literal in H' as (s1 & -> & _).
  exists c1. split; [done|]. destruct Hs as [->|(c2 & -> & _)]; eauto.
Qed.

(** X7. A value that is empty, or whose first character is not a decimal
    digit, matches neither pattern: [normalize_datetime] raises
    [ValueError] on it. White space in front of a timestamp is not
    skipped. *)
Theorem normalize_datetime_needs_digit value :
  (∀ c, first_char value = Some c → digit_of c = None) →
  normalize_datetime value = Raise ValueError.
Proof.
  intros Hfirst. rewrite normalize_datetime_unfold.
  destruct (strptime value "%Y-%m-%d %H:%M:%S") as [t|] eqn:Hlong.
  { apply strptime_long_digits in Hlong as (c1 & ? & ? & ? & -> & [a Ha] & _).
    rewrite (Hfirst c1 eq_refl) in Ha. done. }
  destruct (strptime value "%m/%d/%y %H:%M") as [t|] eqn:Hshort; [|done].
  apply strptime_short_slash in Hshort as (c1 & [a Ha] & [[rest ->]|(c2 & rest & ->)]);
    rewrite (Hfirst c1 eq_refl) in Ha; done.
Qed.

Lemma normalize_datetime_needs_digit_witness :
  (∀ c, first_char " 2024-03-01 13:45:00" = Some c → digit_of c = None)
  ∧ normalize_datetime " 2024-03-01 13:45:00" = Raise ValueError.
Proof.
  assert (∀ c, first_char " 2024-03-01 13:45:00" = Some c → digit_of c = None) as H.
  { intros c [= <-]. vm_compute. reflexivity. }
  split; [exact H|]. exact (normalize_datetime_needs_digit _ H).
Defined.

(** X8. No value matches both patterns: the first asks for a digit in the
    second and in the third place, the second for a ["/"] in one of them.
    The order in which line 32 lists the patterns never decides what a
    value parses to. *)
Theorem normalize_datetime_patterns_disjoint value :
  strptime value "%Y-%m-%d %H:%M:%S" = None ∨ strptime value "%m/%d/%y %H:%M" = None.
Proof.
  destruct (strptime value "%Y-%m-%d %H:%M:%S") as [t1|] eqn:Hlong; [|by left].
  destruct (strptime value "%m/%d/%y %H:%M") as [t2|] eqn:Hshort; [|by right].
  exfalso.
  apply strptime_long_digits in Hlong as (c1 & c2 & c3 & rest & -> & _ & [a2 H2] & [a3 H3]).
  apply strptime_short_slash in Hshort as (c1' & _ & [[rest' Heq]|(c2' & rest' & Heq)]);
    injection Heq as -> -> ?; subst; vm_compute in H2, H3; discriminate.
Qed.

(** ** The date range that the window passes *)

Lemma valid_datetime_time t :
  valid_datetime t = true →
  (hour t ≤ 23 ∧ minute t ≤ 59 ∧ second t ≤ 59 ∧ microsecond t ≤ 999999)%N.
Proof.
  unfold valid_datetime. rewrite !andb_true_iff, !N.leb_le. tauto.
Qed.

Lemma normalize_datetime_valid value t :
  normalize_datetime value = Ok t → valid_datetime t = true.
Proof.
  rewrite normalize_datetime_unfold.
  destruct (strptime value "%Y-%m-%d %H:%M:%S") as [t1|] eqn:Hlong.
  - intros [= <-]. by apply strptime_Some in Hlong as (_ & _ & _ & _ & ?).
  - destruct (strptime value "%m/%d/%y %H:%M") as [t2|] eqn:Hshort; [|done].
    intros [= <-]. by apply strptime_Some in Hshort as (_ & _ & _ & _ & ?).
Qed.

Lemma build_frame_valid data df r :
  build_frame data = Ok df → r ∈ rows df →
  valid_datetime (start_time r) = true ∧ valid_datetime (end_time r) = true.
Proof.
  intros Hrows%build_frame_rows Hr.
  apply list_elem_of_lookup in Hr as [i Hi].
  destruct (Forall2_lookup_r _ _ _ _ _ Hrows Hi)
    as (entry & _ & _ & (? & _ & ?%normalize_datetime_valid)
          & (? & _ & ?%normalize_datetime_valid) & _).
  done.
Qed.

Lemma compare_zero_l n : N.compare 0 n ≠ Gt.
Proof. by destruct n. Qed.

Lemma dt_le_min_time d t :
  dt_le (combine d min_time) t ↔ dt_le (combine d min_time) (normalize t).
Proof.
  unfold dt_le, dt_leb, combine, normalize, dt_fields, min_time.
  cbn [lex_compare year month day hour minute second microsecond
       time_hour time_minute time_second time_microsecond].
  destruct (date_year d ?= year t)%N; [|done..].
  destruct (date_month d ?= month t)%N; [|done..].
  destruct (date_day d ?= day t)%N; [|done..].
  pose proof (compare_zero_l (hour t)). pose proof (compare_zero_l (minute t)).
  pose proof (compare_zero_l (second t)). pose proof (compare_zero_l (microsecond t)).
  destruct (0 ?= hour t)%N; [|done..].
  destruct (0 ?= minute t)%N; [|done..].
  destruct (0 ?= second t)%N; [|done..].
  destruct (0 ?= microsecond t)%N; done.
Qed.

Lemma dt_le_max_time d t :
  valid_datetime t = true →
  dt_le t (combine d max_time) ↔ dt_le (normalize t) (combine d min_time).
Proof.
  intros (Hh & Hm & Hs & Hu)%valid_datetime_time.
  unfold dt_le, dt_leb, combine, normalize, dt_fields, min_time, max_time.
  cbn [lex_compare year month day hour minute second microsecond
       time_hour time_minute time_second time_microsecond].
  destruct (year t ?= date_year d)%N; [|done..].
  destruct (month t ?= date_month d)%N; [|done..].
  destruct (day t ?= date_day d)%N; [|done..].
  apply N.compare_le_iff in Hh, Hm, Hs, Hu.
  destruct (hour t ?= 23)%N; [|done..].
  destruct (minute t ?= 59)%N; [|done..].
  destruct (second t ?= 59)%N; [|done..].
  destruct (microsecond t ?= 999999)%N; done.
Qed.

(** X9. With the bounds that the window passes, the first instant of the
    day chosen in the from field and the last microsecond of the day
    chosen in the to field, the date range is a range of calendar days: a
    record of the frame stays exactly when the day its end time falls on
    is neither before the first day nor after the second. *)
Theorem window_bounds_are_calendar_days data df date_from date_to r :
  build_frame data = Ok df → r ∈ rows df →
  r ∈ rows (date_filter (Some (combine date_from min_time))
              (Some (combine date_to max_time)) df) ↔
  dt_le (combine date_from min_time) (normalize (end_time r))
  ∧ dt_le (normalize (end_time r)) (combine date_to min_time).
Proof.
  intros Hdf Hr. destruct (build_frame_valid _ _ _ Hdf Hr) as [_ Hvalid].
  destruct (build_frame_row _ _ _ Hdf Hr) as (_ & Hdate & _).
  rewrite elem_of_date_filter, Hdate.
  rewrite <- dt_le_min_time, <- (dt_le_max_time date_to) by done. split.
  - intros (_ & Hfrom & Hto). split; [by apply Hfrom | by apply Hto].
  - intros [Hfrom Hto]. split_and!; [done|by intros ? [= <-]..].
Qed.

Lemma window_bounds_are_calendar_days_witness :
  build_frame example_data = Ok example_frame
  ∧ example_row ∈ rows example_frame
  ∧ (example_row ∈ rows (date_filter (Some (combine (mk_date 2024 1 1) min_time))
                           (Some (combine (mk_date 2024 1 1) max_time)) example_frame) ↔
     dt_le (combine (mk_date 2024 1 1) min_time) (normalize (end_time example_row))
     ∧ dt_le (normalize (end_time example_row)) (combine (mk_date 2024 1 1) min_time)).
Proof.
  split; [exact example_frame_built|]. split; [exact example_row_in_frame|].
  exact (window_bounds_are_calendar_days example_data example_frame (mk_date 2024 1 1)
           (mk_date 2024 1 1) example_row example_frame_built example_row_in_frame).
Defined.

(** ** The files of a run *)

Lemma M_bind_run {S A B} (m : M S A) (f : A → M S B) s s' r :
  (m ≫= f) s = (s', r) ↔
  (∃ s1 a, m s = (s1, Ok a) ∧ f a s1 = (s', r)) ∨ (∃ e, m s = (s', Raise e) ∧ r = Raise e).
Proof.
  unfold mbind, M_bind. destruct (m s) as [s1 [a|e]]; split.
  - eauto.
  - by intros [(? & ? & [= <- <-] & ?)|(? & [=] & _)].
  - intros [= <- <-]. eauto.
  - by intros [(? & ? & [=] & _)|(? & [= <- <-] & ->)].
Qed.

Lemma keeps_files_mret {A} (a : A) : keeps_files (mret a).
Proof. intros w w' r [= <- <-]. eauto. Qed.

Lemma keeps_files_lift {A} (x : result A) : keeps_files (lift x).
Proof. intros w w' r [= <- <-]. eauto. Qed.

Lemma keeps_files_bind {A B} (m : M world A) (f : A → M world B) :
  keeps_files m → (∀ a, keeps_files (f a)) → keeps_files (m ≫= f).
Proof.
  intros Hm Hf w w' r [(w1 & a & H1 & H2)|(e & H1 & ->)]%M_bind_run.
  - destruct (Hm _ _ _ H1) as [Hfiles1 Hbook1], (Hf a _ _ _ H2) as [Hfiles2 Hbook2].
    split; [congruence|]. intros path sheets Hw.
    destruct (Hbook1 _ _ Hw) as [sheets1 Hw1]. by apply (Hbook2 _ sheets1).
  - by apply (Hm _ _ _ H1).
Qed.

Lemma keeps_files_for_each {A} (l : list A) (body : A → M world unit) :
  (∀ x, keeps_files (body x)) → keeps_files (for_each l body).
Proof.
  intros Hbody. induction l as [|x l IH]; simpl; [apply keeps_files_mret|].
  apply keeps_files_bind; [apply Hbody|]. intros _. apply IH.
Qed.

Lemma keeps_files_with_workbook {A} (m : M (list worksheet) A) :
  keeps_files (with_workbook m).
Proof.
  intros w w' r. unfold with_workbook. destruct (workbook w) as [[path sheets]|] eqn:Hw.
  - destruct (m sheets) as [sheets' r']. intros [= <- <-]. split; [done|].
    intros ? ? [= <- <-]. by eexists.
  - intros [= <- <-]. by rewrite Hw.
Qed.

Section files.
Context `{Xlsx}.

Lemma keeps_files_sheets (df : frame) (date_cols : list datetime)
    (selected_sites : list string) (aggregate_floors tab_per_building : bool) :
  keeps_files
    (_ ← (if (1 <? length selected_sites)%nat then
            agg_df ← lift (where_isin df "location" selected_sites);
            with_workbook (generate_site_report agg_df "Report" date_cols aggregate_floors)
          else mret tt);
     _ ← for_each selected_sites (fun site =>
            site_df ← lift (where_eq df "location" (Some site));
            if negb (empty site_df) then
              with_workbook (generate_site_report site_df site date_cols aggregate_floors)
            else mret tt);
     (if aggregate_floors && tab_per_building then
        building_df ← lift (where_isin df "location" selected_sites);
        buildings ← lift (column building_df "building");
        for_each (sorted_strings (unique (dropna buildings))) (fun building =>
          bldg_df ← lift (where_eq building_df "building" (Some building));
          if empty bldg_df then mret tt
          else
            let sheet_name := str_take 31 ("Bldg - " +:+ building) in
            with_workbook (generate_site_report bldg_df sheet_name date_cols true))
      else mret tt)).
Proof.
  repeat match goal with
    | |- ∀ _, keeps_files _ => intros ?
    | |- keeps_files (if ?b then _ else _) => destruct b
    | |- keeps_files (_ ≫= _) => apply keeps_files_bind
    | |- keeps_files (for_each _ _) => apply keeps_files_for_each
    | |- keeps_files (lift _) => apply keeps_files_lift
    | |- keeps_files (mret _) => apply keeps_files_mret
    | |- keeps_files (with_workbook _) => apply keeps_files_with_workbook
    | |- keeps_files (let _ := _ in _) => cbv zeta
    end.
Qed.

Lemma generate_excel_report_Raise data selected_sites output_path date_from date_to
    aggregate_floors tab_per_building w w' e :
  generate_excel_report data selected_sites output_path date_from date_to
    aggregate_floors tab_per_building w = (w', Raise e) →
  files w' = files w.
Proof.
  unfold generate_excel_report.
  intros [(w0 & df & [= <- Hdf] & Hrun)|(e' & [= <- _] & _)]%M_bind_run; [|done].
  apply M_bind_run in Hrun as [(w1 & [] & [= <-] & Hrun)|(e' & [=] & _)].
  set (df' := date_filter date_from date_to df) in Hrun.
  pose proof (keeps_files_sheets df' (day_columns df') selected_sites aggregate_floors
                tab_per_building) as Hkeeps.
  set (w1 := mk_world (Some (output_path, [])) (files w)) in *.
  apply M_bind_run in Hrun as [(w2 & [] & H1 & Hrun)|(e' & H1 & _)].
  - apply M_bind_run in Hrun as [(w3 & [] & H2 & Hrun)|(e' & H2 & _)].
    + apply M_bind_run in Hrun as [(w4 & [] & H3 & Hrun)|(e' & H3 & _)].
      * destruct (Hkeeps w1 w4 (Ok tt)) as [_ Hbook].
        { apply M_bind_run. left. exists w2, tt. split; [done|].
          apply M_bind_run. left. exists w3, tt. split; [done|]. done. }
        destruct (Hbook output_path [] eq_refl) as [sheets Hw4].
        unfold close in Hrun. by rewrite Hw4 in Hrun.
      * destruct (Hkeeps w1 w' (Raise e')) as [Hfiles _]; [|done].
        apply M_bind_run. left. exists w2, tt. split; [done|].
        apply M_bind_run. left. exists w3, tt. split; [done|]. done.
    + destruct (Hkeeps w1 w' (Raise e')) as [Hfiles _]; [|done].
      apply M_bind_run. left. exists w2, tt. split; [done|].
      apply M_bind_run. right. by exists e'.
  - destruct (Hkeeps w1 w' (Raise e')) as [Hfiles _]; [|done].
    apply M_bind_run. right. by exists e'.
Qed.

(** X10. A run of [generate_excel_report] that returns has written one
    file, the workbook at [output_path], which has at least one worksheet,
    and has touched no other; a run that raises, wherever it does, has
    written nothing: [close] is not reached. *)
Theorem generate_excel_report_files data selected_sites output_path date_from date_to
    aggregate_floors tab_per_building w w' r :
  generate_excel_report data selected_sites output_path date_from date_to
    aggregate_floors tab_per_building w = (w', r) →
  match r with
  | Ok _ => ∃ sheets, sheets ≠ [] ∧ files w' = <[output_path := sheets]> (files w)
  | Raise _ => files w' = files w
  end.
Proof.
  intros Hrun. destruct r as [[]|e].
  - apply generate_excel_report_Ok in Hrun as (df0 & sheets & _ & _ & ->). cbn [files].
    destruct sheets as [|ws sheets]; eexists; (split; [|done]); done.
  - by apply generate_excel_report_Raise in Hrun.
Qed.

End files.

Lemma generate_excel_report_files_witness :
  example_run = (example_run.1, Ok tt)
  ∧ ∃ sheets, sheets ≠ [] ∧ files example_run.1 = <["report.xlsx" := sheets]> ∅.
Proof.
  split; [exact example_run_returned|].
  exact (@generate_excel_report_files xlsxwriter_check_sheetname example_data
           ["Site A"; "Site B"] "report.xlsx" None None true true fresh_world
           example_run.1 (Ok tt) example_run_returned).
Defined.

(** ** A run without rows at the selected sites *)

Lemma M_bind_step {S A B} (m : M S A) (f : A → M S B) s s1 a :
  m s = (s1, Ok a) → (m ≫= f) s = f a s1.
Proof. unfold mbind, M_bind. by intros ->. Qed.

Lemma M_bind_raise {S A B} (m : M S A) (f : A → M S B) s s1 e :
  m s = (s1, Raise e) → (m ≫= f) s = (s1, Raise e).
Proof. unfold mbind, M_bind. by intros ->. Qed.

Lemma columns_date_filter date_from date_to df :
  columns (date_filter date_from date_to df) = columns df.
Proof. by destruct date_from, date_to. Qed.

Lemma select_nil mask df :
  (∀ r, r ∈ rows df → mask r = false) → rows (select mask df) = [].
Proof.
  intros Hmask. apply elem_of_nil_inv. intros r [Hr Htrue]%elem_of_select.
  rewrite (Hmask r Hr) in Htrue. done.
Qed.

Lemma for_each_skip {S A} (l : list A) (body : A → M S unit) s :
  (∀ x, x ∈ l → body x s = (s, Ok tt)) → for_each l body s = (s, Ok tt).
Proof.
  induction l as [|x l IH]; intros Hbody; simpl; [done|].
  rewrite (M_bind_step _ _ s s tt) by (apply Hbody; left).
  apply IH. intros y Hy. apply Hbody. by right.
Qed.

Lemma column_present df name : name ∈ columns df → column df name = Ok (cell_of name <$> rows df).
Proof.
  intros Hname. unfold column. by rewrite (bool_decide_eq_true_2 (name ∈ columns df)), orb_true_r.
Qed.



(** ** When a sheet can be rendered *)

Lemma returns_mret {S A} (a : A) : returns (mret a : M S A).
Proof. intros s. by exists s, a. Qed.

Lemma returns_bind {S A B} (m : M S A) (f : A → M S B) :
  returns m → (∀ a, returns (f a)) → returns (m ≫= f).
Proof.
  intros Hm Hf s. destruct (Hm s) as (s1 & a & H1), (Hf a s1) as (s' & b & H2).
  exists s', b. by rewrite (M_bind_step _ _ _ _ _ H1).
Qed.

Lemma returns_lift_bind {S A B} (r : result A) (f : A → M S B) a :
  r = Ok a → returns (f a) → returns (lift r ≫= f).
Proof.
  intros -> Hf s. destruct (Hf s) as (s' & b & H2). exists s', b.
  by rewrite (M_bind_step _ _ s s a eq_refl).
Qed.

Lemma returns_write {A} (r c : nat) (v : cell) (f : unit → M (gmap (nat * nat) cell) A) :
  returns (f tt) → returns (write r c v ≫= f).
Proof.
  intros Hf t. destruct (Hf (<[(r, c) := v]> t)) as (t' & b & H2). exists t', b.
  by rewrite (M_bind_step _ _ t (<[(r, c) := v]> t) tt eq_refl).
Qed.

Lemma returns_for_each {S A} (l : list A) (body : A → M S unit) :
  (∀ x, x ∈ l → returns (body x)) → returns (for_each l body).
Proof.
  induction l as [|x l IH]; intros Hbody; simpl; [apply returns_mret|].
  apply returns_bind; [apply Hbody; left|]. intros _. apply IH.
  intros y Hy. apply Hbody. by right.
Qed.

Lemma returns_fold_each {S A B} (l : list A) (acc : B) (body : B → A → M S B) :
  (∀ acc x, x ∈ l → returns (body acc x)) → returns (fold_each l acc body).
Proof.
  revert acc. induction l as [|x l IH]; intros acc Hbody; simpl; [apply returns_mret|].
  apply returns_bind; [apply Hbody; left|]. intros acc'. apply IH.
  intros acc'' y Hy. apply Hbody. by right.
Qed.

Lemma column_Ok_present df name cells :
  column df name = Ok cells → name = "building" ∨ name ∈ columns df.
Proof.
  unfold column. destruct (_ || _) eqn:Hname; [|done]. intros _.
  apply orb_true_iff in Hname as [?%bool_decide_eq_true|?%bool_decide_eq_true]; auto.
Qed.

Lemma returns_write_counts r sub date_cols :
  "client_mac" ∈ columns sub → returns (write_counts r sub date_cols).
Proof.
  intros Hmac. unfold write_counts. apply returns_write.
  eapply returns_lift_bind; [by apply column_present|]. apply returns_write.
  apply returns_for_each. intros [i day] _. apply returns_write.
  eapply returns_lift_bind; [by apply column_present|].
  intros t. by eexists _, tt.
Qed.

Lemma returns_lines {K} (sub_of : K → frame) (sel : K → result frame) (label_col : nat)
    (label : K → string) date_cols (keys : list K) cursor :
  (∀ key, sel key = Ok (sub_of key)) →
  (∀ key, "client_mac" ∈ columns (sub_of key)) →
  returns (fold_each keys cursor (fun cursor key =>
    sub ← lift (sel key);
    let cursor := cursor + 1 in
    _ ← write (cursor - 1) label_col (Text (label key));
    _ ← write_counts (cursor - 1) sub date_cols;
    mret cursor)).
Proof.
  intros Hsel Hmac. apply returns_fold_each. intros acc key _.
  eapply returns_lift_bind; [apply Hsel|]. cbv zeta. apply returns_write.
  apply returns_bind; [by apply returns_write_counts|]. intros _. apply returns_mret.
Qed.

Lemma where_eq_present df name value :
  name ∈ columns df →
  where_eq df name value = Ok (select (fun r => eq_scalar value (cell_of name r)) df).
Proof. intros Hname. unfold where_eq. by rewrite column_present. Qed.

Lemma where_eq_building df value :
  where_eq df "building" value
  = Ok (select (fun r => eq_scalar value (cell_of "building" r)) df).
Proof. reflexivity. Qed.

Lemma mode_nonempty l : l ≠ [] → mode l ≠ [].
Proof.
  intros Hl. unfold mode.
  set (count x := length (filter (fun y => y = x) l)).
  assert (∃ x, x ∈ l ∧ ∀ y, y ∈ l → count y ≤ count x) as (x & Hx & Hmax).
  { generalize count. intros f. clear count. induction l as [|a l IH]; [done|].
    destruct l as [|b l].
    - exists a. split; [left|]. by intros y ->%list_elem_of_singleton.
    - destruct IH as (x & Hx & Hmax); [done|].
      destruct (decide (f x ≤ f a)).
      + exists a. split; [left|]. intros y [->|Hy]%elem_of_cons; [done|].
        specialize (Hmax y Hy). lia.
      + exists x. split; [by right|]. intros y [->|Hy]%elem_of_cons; [lia|by apply Hmax]. }
  intros Hnil. apply (proj1 (elem_of_nil x)). rewrite <- Hnil.
  apply elem_of_sorted_strings, elem_of_unique, list_elem_of_filter. split; [|done].
  apply forallb_forall. intros y Hy%list_elem_of_In. apply Nat.leb_le. by apply Hmax.
Qed.

Lemma returns_write_end (r c : nat) (v : cell) : returns (write r c v).
Proof. intros t. by eexists _, tt. Qed.

Lemma sorted_datetimes_nonempty l : l ≠ [] → sorted_datetimes l ≠ [].
Proof.
  destruct l as [|x l]; [done|]. intros _ Hnil.
  apply (proj1 (elem_of_nil x)). rewrite <- Hnil. apply elem_of_sorted_datetimes. left.
Qed.

Lemma last_nonempty {A} (l : list A) : l ≠ [] → is_Some (last l).
Proof.
  induction l as [|x [|y l] IH]; [done|by eexists|]. intros _. by apply IH.
Qed.

Ltac returns_writes :=
  unfold merge_range;
  repeat first [ apply returns_write_end | apply returns_mret | apply returns_write ].

Lemma returns_write_title df sheet_name :
  rows df ≠ [] → returns (write_title df sheet_name).
Proof.
  intros Hrows. unfold write_title.
  destruct (mode (strftime_B ∘ start_time <$> rows df)) as [|month months] eqn:Hmode.
  { apply mode_nonempty in Hmode; [done|]. by destruct (rows df). }
  eapply returns_lift_bind; [reflexivity|]. returns_writes.
Qed.

Lemma returns_write_summary df : "client_mac" ∈ columns df → returns (write_summary df).
Proof.
  intros Hmac. unfold write_summary. returns_writes.
  eapply returns_lift_bind; [by apply column_present|]. returns_writes.
Qed.

Lemma returns_write_day_headers df date_cols :
  "client_mac" ∈ columns df → returns (write_day_headers df date_cols).
Proof.
  intros Hmac. unfold write_day_headers. apply returns_for_each. intros [idx day] _.
  returns_writes. eapply returns_lift_bind; [by apply column_present|]. returns_writes.
Qed.

Lemma returns_write_time_range df date_cols :
  rows df ≠ [] → returns (write_time_range df date_cols).
Proof.
  intros Hrows. unfold write_time_range.
  assert (sorted_datetimes (end_time <$> rows df) ≠ []) as Hsorted.
  { apply sorted_datetimes_nonempty. by destruct (rows df). }
  cbv zeta. returns_writes.
  destruct (sorted_datetimes (end_time <$> rows df)) as [|first timeset] eqn:Htimeset; [done|].
  eapply returns_lift_bind; [reflexivity|]. returns_writes.
  destruct (last_nonempty (first :: timeset)) as [final Hfinal]; [done|].
  eapply returns_lift_bind; [unfold last_item; by rewrite Hfinal|]. returns_writes.
Qed.

Lemma returns_write_data_rows df date_cols aggregate_floors :
  "client_mac" ∈ columns df → "location" ∈ columns df → "ssid" ∈ columns df →
  (aggregate_floors = false → "sublocation" ∈ columns df) →
  returns (write_data_rows df date_cols aggregate_floors).
Proof.
  intros Hmac Hlocation Hssid Hsub. unfold write_data_rows.
  eapply returns_lift_bind; [by apply column_present|].
  apply returns_fold_each. intros cursor location _. unfold write_location_block.
  eapply returns_lift_bind; [by apply where_eq_present|]. cbv zeta. apply returns_write.
  apply returns_bind; [by apply returns_write_counts|]. intros _.
  apply returns_bind.
  - unfold write_ssid_rows. eapply returns_lift_bind; [by apply column_present|].
    apply (returns_lines
             (fun ssid => select (fun r => eq_scalar ssid (cell_of "ssid" r))
                            (select (fun r => eq_scalar location (cell_of "location" r)) df)));
      [|done]. intros ssid. by apply where_eq_present.
  - intros cursor'. unfold write_group_rows. destruct aggregate_floors.
    + eapply returns_lift_bind; [reflexivity|].
      apply (returns_lines
               (fun name => select (fun r => eq_scalar (Some name) (cell_of "building" r))
                              (select (fun r => eq_scalar location (cell_of "location" r)) df)));
        [|done]. intros name. apply where_eq_building.
    + eapply returns_lift_bind; [apply column_present; by apply Hsub|].
      apply (returns_lines
               (fun name => select (fun r => eq_scalar (Some name) (cell_of "sublocation" r))
                              (select (fun r => eq_scalar location (cell_of "location" r)) df)));
        [|done]. intros name. apply where_eq_present. by apply Hsub.
Qed.

Lemma returns_site_report_cells df sheet_name date_cols aggregate_floors :
  rows df ≠ [] →
  "client_mac" ∈ columns df → "location" ∈ columns df → "ssid" ∈ columns df →
  (aggregate_floors = false → "sublocation" ∈ columns df) →
  returns (site_report_cells df sheet_name date_cols aggregate_floors).
Proof.
  intros Hrows Hmac Hlocation Hssid Hsub. unfold site_report_cells.
  apply returns_bind; [by apply returns_write_title|]. intros _.
  apply returns_bind; [by apply returns_write_summary|]. intros _.
  apply returns_bind; [unfold write_static_headers; returns_writes|]. intros _.
  apply returns_bind; [by apply returns_write_day_headers|]. intros _.
  apply returns_bind; [by apply returns_write_time_range|]. intros _.
  apply returns_bind; [by apply returns_write_data_rows|]. intros _.
  apply returns_mret.
Qed.

Lemma column_Ok_columns df name cells :
  name ≠ "building" → column df name = Ok cells → name ∈ columns df.
Proof. intros Hname [?|?]%column_Ok_present; done. Qed.

Lemma site_report_cells_Ok_columns df sheet_name date_cols aggregate_floors t t' :
  site_report_cells df sheet_name date_cols aggregate_floors t = (t', Ok tt) →
  rows df ≠ []
  ∧ "client_mac" ∈ columns df ∧ "location" ∈ columns df ∧ "ssid" ∈ columns df
  ∧ (aggregate_floors = false → "sublocation" ∈ columns df).
Proof.
  intros Hrun.
  assert (rows df ≠ []) as Hrows.
  { intros Hnil. by rewrite site_report_cells_empty in Hrun. }
  split; [done|].
  unfold site_report_cells in Hrun. m_inv.
  assert ("client_mac" ∈ columns df) as Hmac.
  { match goal with H : write_summary _ _ = _ |- _ => unfold write_summary in H end.
    m_inv. by eapply column_Ok_columns. }
  split; [done|].
  match goal with H : write_data_rows _ _ _ _ = _ |- _ => unfold write_data_rows in H end.
  m_inv.
  assert ("location" ∈ columns df) as Hlocation by (by eapply column_Ok_columns).
  match goal with E : column df "location" = Ok _ |- _ => apply column_Ok in E as -> end.
  split; [done|].
  destruct (rows df) as [|r0 rest] eqn:Hdf; [done|].
  rewrite fmap_cons in *. cbn [unique fold_each] in *. m_inv.
  match goal with
  | H : write_location_block _ _ _ _ _ _ = _ |- _ => unfold write_location_block in H
  end.
  m_inv.
  match goal with E : where_eq _ _ _ = Ok ?sub |- _ => apply where_eq_Ok in E as -> end.
  match goal with H : write_ssid_rows _ _ _ _ = _ |- _ => unfold write_ssid_rows in H end.
  match goal with H : write_group_rows _ _ _ _ _ = _ |- _ => unfold write_group_rows in H end.
  m_inv.
  split.
  - match goal with E : column _ "ssid" = Ok _ |- _ =>
      by apply column_Ok_columns in E end.
  - intros ->.
    match goal with E : column _ "sublocation" = Ok _ |- _ =>
      by apply column_Ok_columns in E end.
Qed.

Section returns.
Context `{Xlsx}.

(** X12. [generate_site_report] returns exactly when xlsxwriter accepts
    the sheet name, the frame has a row, and it has the columns
    [client_mac], [location] and [ssid], and [sublocation] too when floors
    are not aggregated. The last eight of the expected headers are
    optional for [csv_import]; three of them are not for the report. *)
Theorem generate_site_report_returns df sheet_name date_cols aggregate_floors sheets :
  (∃ sheets', generate_site_report df sheet_name date_cols aggregate_floors sheets
              = (sheets', Ok tt))
  ↔ is_ok (check_sheetname (ws_name <$> sheets) (str_take 31 sheet_name)) = true
    ∧ rows df ≠ []
    ∧ "client_mac" ∈ columns df ∧ "location" ∈ columns df ∧ "ssid" ∈ columns df
    ∧ (aggregate_floors = false → "sublocation" ∈ columns df).
Proof.
  unfold generate_site_report.
  destruct (check_sheetname (ws_name <$> sheets) (str_take 31 sheet_name)) as [name|e].
  - destruct (site_report_cells df sheet_name date_cols aggregate_floors ∅) as [table r]
      eqn:Hcells.
    split.
    + intros [sheets' [= <- ->]]. split; [done|]. by eapply site_report_cells_Ok_columns.
    + intros (_ & Hrows & Hmac & Hlocation & Hssid & Hsub).
      destruct (returns_site_report_cells df sheet_name date_cols aggregate_floors
                  Hrows Hmac Hlocation Hssid Hsub ∅) as (table' & [] & Hreturns).
      rewrite Hreturns in Hcells. injection Hcells as <- <-. by eexists.
  - split; [by intros [? [=]]|]. by intros [[=] _].
Qed.

End returns.

(** ** The head of a sheet *)

Ltac lookup_writes :=
  repeat first [ rewrite lookup_write_same by lia | rewrite lookup_write_other by lia ].

Lemma write_title_cells df sheet_name t t' :
  write_title df sheet_name t = (t', Ok tt) →
  t' !! (0, 0) = Some (Text "WiFi Statistics Summary Report")
  ∧ t' !! (1, 0) = Some (Text sheet_name)
  ∧ (∀ r c, 2 ≤ r ∨ c ≠ 0 → t' !! (r, c) = t !! (r, c)).
Proof.
  unfold write_title. intros Hrun. m_inv. split_and!.
  - by lookup_writes.
  - by lookup_writes.
  - intros r c Hrc. by lookup_writes.
Qed.

Lemma write_summary_texts df t t' :
  write_summary df t = (t', Ok tt) →
  t' !! (3, 2) = Some (Text "Client User Summary")
  ∧ t' !! (4, 2) = Some (Text "Number of Sessions")
  ∧ t' !! (4, 3) = Some (Text "Number of Users")
  ∧ (∀ r c, r < 3 ∨ 5 < r ∨ c < 2 ∨ 3 < c → t' !! (r, c) = t !! (r, c)).
Proof.
  unfold write_summary. intros Hrun. m_inv. split_and!.
  - by lookup_writes.
  - by lookup_writes.
  - by lookup_writes.
  - intros r c Hrc. by lookup_writes.
Qed.

Lemma write_static_headers_cells t t' :
  write_static_headers t = (t', Ok tt) →
  t' !! (7, 0) = Some (Text "Locations")
  ∧ t' !! (7, 1) = Some (Text "SSID")
  ∧ t' !! (7, 2) = Some (Text "Number of Sessions")
  ∧ t' !! (7, 3) = Some (Text "Number of Users")
  ∧ t' !! (7, 4) = Some Blank.
Proof.
  unfold write_static_headers. intros Hrun. m_inv. split_and!; by lookup_writes.
Qed.

Lemma write_day_headers_loop_footprint df start date_cols t t' :
  for_each (enumerate_from start date_cols) (fun '(idx, day) =>
    let base_col := 5 + idx * 2 in
    _ ← merge_range 5 base_col (Text (strftime_d_b day));
    _ ← write 6 base_col (Text "Sessions");
    _ ← write 6 (base_col + 1) (Text "Users");
    let day_df := on_day day df in
    _ ← write 7 base_col (Number (len day_df));
    macs ← lift (column day_df "client_mac");
    write 7 (base_col + 1) (Number (nunique macs))) t = (t', Ok tt) →
  ∀ r c, 5 + 2 * (start + length date_cols) ≤ c → t' !! (r, c) = t !! (r, c).
Proof.
  revert start t. induction date_cols as [|d date_cols IH]; intros start t Hrun r c Hc.
  - simpl in Hrun. by m_inv.
  - cbn [for_each enumerate_from] in Hrun. m_inv. cbn [length] in Hc.
    rewrite (IH _ _ Hrun) by lia. by lookup_writes.
Qed.

Lemma write_day_headers_footprint df date_cols t t' :
  write_day_headers df date_cols t = (t', Ok tt) →
  ∀ r c, r < 5 ∨ 7 < r ∨ c < 5 ∨ 5 + 2 * length date_cols ≤ c → t' !! (r, c) = t !! (r, c).
Proof.
  intros Hrun r c Hrc. destruct (decide (5 + 2 * length date_cols ≤ c)).
  - by apply (write_day_headers_loop_footprint df 0 date_cols).
  - apply write_day_headers_cells in Hrun as (_ & _ & Hframe). apply Hframe. lia.
Qed.

Lemma StronglySorted_last {A} (R : relation A) `{!Reflexive R} l z :
  StronglySorted R l → last l = Some z → ∀ x, x ∈ l → R x z.
Proof.
  induction 1 as [|y l Hsorted IH Hy]; [done|]. intros Hlast x Hx.
  destruct l as [|y' l].
  - injection Hlast as <-. by apply list_elem_of_singleton in Hx as ->.
  - apply elem_of_cons in Hx as [->|Hx]; [|by apply IH].
    apply (proj1 (Forall_forall _ _) Hy). by apply last_Some_elem_of.
Qed.

Lemma sorted_datetimes_first l first rest :
  sorted_datetimes l = first :: rest → first ∈ l ∧ ∀ x, x ∈ l → dt_le first x.
Proof.
  intros Hsorted.
  assert (StronglySorted dt_le (first :: rest)) as Hs.
  { rewrite <- Hsorted. apply StronglySorted_merge_sort; apply _. }
  split.
  - apply elem_of_sorted_datetimes. rewrite Hsorted. left.
  - intros x Hx%elem_of_sorted_datetimes. rewrite Hsorted in Hx.
    apply elem_of_cons in Hx as [->|Hx]; [done|].
    apply StronglySorted_inv in Hs as [_ Hfirst].
    by apply (proj1 (Forall_forall _ _) Hfirst).
Qed.

Lemma sorted_datetimes_last l final :
  last (sorted_datetimes l) = Some final → final ∈ l ∧ ∀ x, x ∈ l → dt_le x final.
Proof.
  intros Hlast. split.
  - by apply elem_of_sorted_datetimes, last_Some_elem_of.
  - intros x Hx%elem_of_sorted_datetimes.
    apply (StronglySorted_last dt_le (sorted_datetimes l)); [|done..].
    apply StronglySorted_merge_sort; apply _.
Qed.

Lemma write_time_range_cells df date_cols t t' :
  write_time_range df date_cols t = (t', Ok tt) →
  (∃ first final,
     (first ∈ end_time <$> rows df) ∧ (final ∈ end_time <$> rows df)
     ∧ (∀ x, x ∈ end_time <$> rows df → dt_le first x ∧ dt_le x final)
     ∧ t' !! (4, 7 + 2 * length date_cols) = Some (Text "Time Stamps from Client Summary")
     ∧ t' !! (5, 7 + 2 * length date_cols) = Some (Text "Start time:")
     ∧ t' !! (5, 8 + 2 * length date_cols) = Some (Text (str_datetime first))
     ∧ t' !! (6, 7 + 2 * length date_cols) = Some (Text "End time:")
     ∧ t' !! (6, 8 + 2 * length date_cols) = Some (Text (str_datetime final)))
  ∧ (∀ r c, r < 4 ∨ 6 < r ∨ c < 7 + 2 * length date_cols ∨ 8 + 2 * length date_cols < c →
       t' !! (r, c) = t !! (r, c)).
Proof.
  unfold write_time_range. intros Hrun. m_inv.
  match goal with
  | E : first_item _ _ = Ok ?x |- _ => rename x into first, E into Hfirst
  end.
  match goal with
  | E : last_item _ = Ok ?x |- _ => rename x into final, E into Hfinal
  end.
  split.
  - exists first, final.
    destruct (sorted_datetimes (end_time <$> rows df)) as [|x timeset] eqn:Hsorted; [done|].
    injection Hfirst as ->.
    apply sorted_datetimes_first in Hsorted as Hmin.
    unfold last_item in Hfinal. rewrite <- Hsorted in Hfinal.
    destruct (last (sorted_datetimes (end_time <$> rows df))) as [y|] eqn:Hlast; [|done].
    injection Hfinal as ->. apply sorted_datetimes_last in Hlast as Hmax.
    destruct Hmin as [? Hmin], Hmax as [? Hmax].
    split_and!; [done|done|by auto|..]; by lookup_writes.
  - intros r c Hrc. by lookup_writes.
Qed.

(** Takes a successful run of the body of [generate_site_report] apart
    into what each of its parts wrote and what it left alone. *)
Ltac site_report_inv Hrun :=
  unfold site_report_cells in Hrun; m_inv;
  repeat match goal with
  | H : write_title _ _ _ = _ |- _ =>
      apply write_title_cells in H as (Htitle & Hlabel & Hframe_title)
  | H : write_summary _ _ = _ |- _ =>
      apply write_summary_texts in H as (Hsum1 & Hsum2 & Hsum3 & Hframe_summary)
  | H : write_static_headers _ = _ |- _ =>
      pose proof (write_static_headers_frame _ _ H) as Hframe_static;
      apply write_static_headers_cells in H as (Hst0 & Hst1 & Hst2 & Hst3 & Hst4)
  | H : write_day_headers _ _ _ = _ |- _ =>
      pose proof (write_day_headers_footprint _ _ _ _ H) as Hframe_days; clear H
  | H : write_time_range _ _ _ = _ |- _ =>
      apply write_time_range_cells in H as (Hrange & Hframe_range)
  end.

(** X13. On a rendered sheet the box to the right of the day columns
    shows, under its title, the earliest and the latest end time of the
    sheet's records, each as the text of the timestamp. *)
Theorem time_range_box df sheet_name date_cols aggregate_floors t0 t :
  site_report_cells df sheet_name date_cols aggregate_floors t0 = (t, Ok tt) →
  ∃ first final,
    (∃ r, r ∈ rows df ∧ end_time r = first)
    ∧ (∃ r, r ∈ rows df ∧ end_time r = final)
    ∧ (∀ r, r ∈ rows df → dt_le first (end_time r) ∧ dt_le (end_time r) final)
    ∧ t !! (4, 7 + 2 * length date_cols) = Some (Text "Time Stamps from Client Summary")
    ∧ t !! (5, 7 + 2 * length date_cols) = Some (Text "Start time:")
    ∧ t !! (5, 8 + 2 * length date_cols) = Some (Text (str_datetime first))
    ∧ t !! (6, 7 + 2 * length date_cols) = Some (Text "End time:")
    ∧ t !! (6, 8 + 2 * length date_cols) = Some (Text (str_datetime final)).
Proof.
  intros Hrun. site_report_inv Hrun.
  match goal with
  | H : write_data_rows _ _ _ _ = _ |- _ => apply write_data_rows_cells in H as [_ Hframe_rows]
  end.
  destruct Hrange as (first & final & Hfirst & Hfinal & Hbounds & H1 & H2 & H3 & H4 & H5).
  exists first, final.
  apply list_elem_of_fmap in Hfirst as (r1 & -> & Hr1), Hfinal as (r2 & -> & Hr2).
  split_and!; [by exists r1|by exists r2| |rewrite Hframe_rows by lia; done..].
  intros r Hr. apply Hbounds, list_elem_of_fmap. by exists r.
Qed.

Lemma time_range_box_witness :
  site_report_cells example_frame "Site A" (day_columns example_frame) false ∅
  = ((site_report_cells example_frame "Site A" (day_columns example_frame) false ∅).1, Ok tt)
  ∧ ∃ first final,
      (∃ r, r ∈ rows example_frame ∧ end_time r = first)
      ∧ (∃ r, r ∈ rows example_frame ∧ end_time r = final)
      ∧ (∀ r, r ∈ rows example_frame → dt_le first (end_time r) ∧ dt_le (end_time r) final)
      ∧ (site_report_cells example_frame "Site A" (day_columns example_frame) false ∅).1
          !! (4, 7 + 2 * length (day_columns example_frame))
        = Some (Text "Time Stamps from Client Summary")
      ∧ (site_report_cells example_frame "Site A" (day_columns example_frame) false ∅).1
          !! (5, 7 + 2 * length (day_columns example_frame))
        = Some (Text "Start time:")
      ∧ (site_report_cells example_frame "Site A" (day_columns example_frame) false ∅).1
          !! (5, 8 + 2 * length (day_columns example_frame))
        = Some (Text (str_datetime first))
      ∧ (site_report_cells example_frame "Site A" (day_columns example_frame) false ∅).1
          !! (6, 7 + 2 * length (day_columns example_frame))
        = Some (Text "End time:")
      ∧ (site_report_cells example_frame "Site A" (day_columns example_frame) false ∅).1
          !! (6, 8 + 2 * length (day_columns example_frame))
        = Some (Text (str_datetime final)).
Proof.
  assert (site_report_cells example_frame "Site A" (day_columns example_frame) false ∅
          = ((site_report_cells example_frame "Site A" (day_columns example_frame) false ∅).1,
             Ok tt)) as Hrun.
  { apply run_returned. vm_compute. reflexivity. }
  split; [exact Hrun|].
  exact (time_range_box example_frame "Site A" (day_columns example_frame) false ∅ _ Hrun).
Defined.



(** ** The labels and the extent of the data rows *)

Lemma day_counts_loop_footprint r sub start date_cols t t' :
  for_each (enumerate_from start date_cols) (fun '(i, day) =>
    let base_col := 5 + i * 2 in
    let day_df := on_day day sub in
    _ ← write r base_col (Number (len day_df));
    macs ← lift (column day_df "client_mac");
    write r (base_col + 1) (Number (nunique macs))) t = (t', Ok tt) →
  ∀ r' c, r' ≠ r ∨ c < 5 + 2 * start ∨ 5 + 2 * (start + length date_cols) ≤ c →
    t' !! (r', c) = t !! (r', c).
Proof.
  revert start t. induction date_cols as [|d date_cols IH]; intros start t Hrun r' c Hc.
  - simpl in Hrun. by m_inv.
  - cbn [for_each enumerate_from] in Hrun. m_inv. cbn [length] in Hc.
    rewrite (IH _ _ Hrun) by lia. by lookup_writes.
Qed.

Lemma write_counts_footprint r sub date_cols t t' :
  write_counts r sub date_cols t = (t', Ok tt) →
  ∀ r' c, r' ≠ r ∨ (c ≠ 2 ∧ c ≠ 3 ∧ (c < 5 ∨ 5 + 2 * length date_cols ≤ c)) →
    t' !! (r', c) = t !! (r', c).
Proof.
  unfold write_counts. intros Hrun r' c Hc. m_inv.
  rewrite (day_counts_loop_footprint _ _ 0 _ _ _ Hrun) by lia. by lookup_writes.
Qed.

Lemma lines_written_nil t top n : lines_written t t top [] n.
Proof. split; [|done]. intros j g. by rewrite lookup_nil. Qed.

Lemma lines_written_app t0 t1 t2 top lines1 lines2 n :
  lines_written t0 t1 top lines1 n →
  lines_written t1 t2 (top + length lines1) lines2 n →
  lines_written t0 t2 top (lines1 ++ lines2) n.
Proof.
  intros [Hlines1 Hframe1] [Hlines2 Hframe2]. split.
  - intros j g [Hg|[Hj Hg]]%lookup_app_Some.
    + pose proof (lookup_lt_Some _ _ _ Hg).
      destruct (Hlines1 j g Hg) as (c & text & Hlabel & Hcell & Hrest).
      exists c, text. split_and!; [done|by rewrite Hframe2 by lia|].
      intros c' ????. rewrite Hframe2 by lia. by apply Hrest.
    + destruct (Hlines2 _ g Hg) as (c & text & Hlabel & Hcell & Hrest).
      replace (top + length lines1 + (j - length lines1)) with (top + j) in * by lia.
      exists c, text. split_and!; [done..|].
      intros c' ????. rewrite Hrest by done. apply Hframe1. lia.
  - intros r c Hr. rewrite length_app in Hr. rewrite Hframe2, Hframe1 by lia. done.
Qed.

(** A loop that writes one line for each key, from row [cursor] down. *)
Lemma fold_lines_written {K} (sel : K → result frame) (label_col : nat) (label : K → string)
    (line : K → granularity) date_cols (keys : list K) cursor t t' cursor' :
  label_col < 2 →
  (∀ key, line_label (line key) = Some (label_col, label key)) →
  fold_each keys cursor (fun cursor key =>
    sub ← lift (sel key);
    let cursor := cursor + 1 in
    _ ← write (cursor - 1) label_col (Text (label key));
    _ ← write_counts (cursor - 1) sub date_cols;
    mret cursor) t = (t', Ok cursor') →
  cursor' = cursor + length keys
  ∧ lines_written t t' cursor (line <$> keys) (length date_cols).
Proof.
  intros Hcol Hlabel. revert cursor t.
  induction keys as [|key keys IH]; intros cursor t Hrun.
  - simpl in Hrun. m_inv. split; [simpl; lia|apply lines_written_nil].
  - cbn [fold_each] in Hrun. m_inv.
    match goal with
    | H : write_counts _ _ _ _ = _ |- _ =>
        pose proof (write_counts_footprint _ _ _ _ _ H) as Hcounts; clear H
    end.
    apply IH in Hrun as (-> & Hrest).
    replace (cursor + 1 - 1) with cursor in * by lia.
    split; [simpl; lia|]. rewrite fmap_cons.
    eapply (lines_written_app _ _ _ _ [line key]); [|exact Hrest].
    split.
    + intros [|j] g Hg; simplify_eq/=.
      exists label_col, (label key). replace (cursor + 0) with cursor by lia.
      split_and!; [done| |].
      * rewrite Hcounts by lia. by lookup_writes.
      * intros c' ????. rewrite Hcounts by lia. by lookup_writes.
    + intros r c Hr. cbn [length] in Hr. rewrite Hcounts by lia. by lookup_writes.
Qed.

Lemma write_ssid_rows_written aggregate_floors df l date_cols cursor t t' cursor' :
  let loc_df := subset aggregate_floors (Location l) df in
  let lines := Ssid l <$> unique (cell_of "ssid" <$> rows loc_df) in
  write_ssid_rows loc_df date_cols cursor t = (t', Ok cursor') →
  cursor' = cursor + length lines ∧ lines_written t t' cursor lines (length date_cols).
Proof.
  intros loc_df lines Hrun. unfold write_ssid_rows in Hrun. m_inv.
  apply column_Ok in E as ->.
  apply (fold_lines_written (fun ssid => where_eq loc_df "ssid" ssid) 1
           (fun ssid => "    " +:+ fmt_value ssid) (Ssid l)) in Hrun as (-> & Hlines);
    [|lia|done].
  unfold lines. by rewrite length_fmap.
Qed.

Lemma write_group_rows_written aggregate_floors df l date_cols cursor t t' cursor' :
  let loc_df := subset aggregate_floors (Location l) df in
  let lines :=
    Group l <$> unique (dropna (cell_of (group_column aggregate_floors) <$> rows loc_df)) in
  write_group_rows loc_df date_cols aggregate_floors cursor t = (t', Ok cursor') →
  cursor' = cursor + length lines ∧ lines_written t t' cursor lines (length date_cols).
Proof.
  intros loc_df lines Hrun. unfold write_group_rows in Hrun. m_inv.
  apply column_Ok in E as ->. fold (group_column aggregate_floors) in Hrun.
  apply (fold_lines_written
           (fun name => where_eq loc_df (group_column aggregate_floors) (Some name)) 0
           (fun name => "        " +:+ name) (Group l)) in Hrun as (-> & Hlines);
    [|lia|done].
  unfold lines. by rewrite length_fmap.
Qed.

Lemma write_location_block_written aggregate_floors df date_cols cursor l t t' cursor' :
  let lines := location_lines aggregate_floors df l in
  write_location_block df date_cols aggregate_floors cursor l t = (t', Ok cursor') →
  cursor' = cursor + length lines ∧ lines_written t t' cursor lines (length date_cols).
Proof.
  intros lines Hrun. unfold write_location_block in Hrun. m_inv.
  match goal with H : where_eq _ _ _ = _ |- _ => apply where_eq_Ok in H as -> end.
  match goal with
  | H : write_counts _ _ _ _ = _ |- _ =>
      pose proof (write_counts_footprint _ _ _ _ _ H) as Hcounts; clear H
  end.
  match goal with
  | H : write_ssid_rows _ _ _ _ = _ |- _ =>
      apply (write_ssid_rows_written aggregate_floors df l) in H as (-> & Hssid)
  end.
  apply (write_group_rows_written aggregate_floors df l) in Hrun as (-> & Hgroup).
  replace (cursor + 1 - 1) with cursor in * by lia.
  unfold lines, location_lines. cbn [length]. rewrite length_app. split; [lia|].
  eapply (lines_written_app _ _ _ _ [Location l]);
    [|cbn [length]; eapply lines_written_app; [exact Hssid|exact Hgroup]].
  - split.
    + intros [|j] g Hg; simplify_eq/=.
      exists 0, ("    " +:+ fmt_value l). replace (cursor + 0) with cursor by lia.
      split_and!; [done| |].
      * rewrite Hcounts by lia. by lookup_writes.
      * intros c' ????. rewrite Hcounts by lia. by lookup_writes.
    + intros r c Hr. cbn [length] in Hr. rewrite Hcounts by lia. by lookup_writes.
Qed.

Lemma fold_location_blocks_written aggregate_floors df date_cols locations cursor t t'
    cursor' :
  let lines := locations ≫= location_lines aggregate_floors df in
  fold_each locations cursor (write_location_block df date_cols aggregate_floors) t
    = (t', Ok cursor') →
  cursor' = cursor + length lines ∧ lines_written t t' cursor lines (length date_cols).
Proof.
  revert cursor t. induction locations as [|l locations IH]; intros cursor t lines Hrun.
  - simpl in Hrun. m_inv. split; [simpl; lia|apply lines_written_nil].
  - cbn [fold_each] in Hrun. m_inv.
    match goal with
    | H : write_location_block _ _ _ _ _ _ = _ |- _ =>
        apply write_location_block_written in H as (-> & Hblock)
    end.
    apply IH in Hrun as (-> & Hrest).
    unfold lines. rewrite bind_cons, length_app. split; [lia|].
    eapply lines_written_app; [exact Hblock|exact Hrest].
Qed.

Lemma write_data_rows_written df date_cols aggregate_floors t t' cursor' :
  write_data_rows df date_cols aggregate_floors t = (t', Ok cursor') →
  lines_written t t' 8 (report_lines aggregate_floors df) (length date_cols).
Proof.
  unfold write_data_rows. intros Hrun. m_inv. apply column_Ok in E as ->.
  by apply fold_location_blocks_written in Hrun as (_ & Hlines).
Qed.

Lemma line_label_column g c text : line_label g = Some (c, text) → c < 2.
Proof. destruct g; intros [=]; lia. Qed.

(** The rows from 8 down are empty when the data rows begin. *)
Ltac head_frames :=
  repeat match goal with
  | H : ∀ r c, _ → ?t !! (r, c) = _ |- context [?t !! (_, _)] => rewrite H by lia
  end.

(** X15. On a rendered sheet every line of the data rows has its label:
    a location its name, after four spaces, in column A; an SSID its name,
    after four spaces, in column B; a building or sublocation its name,
    after eight spaces, in column A. The other of the two columns, and
    column E, stay empty in that row. *)
Theorem data_line_labels df sheet_name date_cols aggregate_floors t :
  site_report_cells df sheet_name date_cols aggregate_floors ∅ = (t, Ok tt) →
  ∀ j g, report_lines aggregate_floors df !! j = Some g →
    ∃ c text, line_label g = Some (c, text)
      ∧ t !! (8 + j, c) = Some (Text text)
      ∧ t !! (8 + j, 1 - c) = None
      ∧ t !! (8 + j, 4) = None.
Proof.
  intros Hrun j g Hg. site_report_inv Hrun.
  match goal with
  | H : write_data_rows _ _ _ _ = _ |- _ => apply write_data_rows_written in H as [Hlines _]
  end.
  destruct (Hlines j g Hg) as (c & text & Hline & Hcell & Hrest).
  pose proof (line_label_column _ _ _ Hline) as Hc.
  exists c, text. split_and!; [done..| |].
  - rewrite Hrest by lia. head_frames. apply lookup_empty.
  - rewrite Hrest by lia. head_frames. apply lookup_empty.
Qed.

Lemma data_line_labels_witness :
  site_report_cells example_frame "Site A" (day_columns example_frame) false ∅
  = ((site_report_cells example_frame "Site A" (day_columns example_frame) false ∅).1, Ok tt)
  ∧ report_lines false example_frame !! 1 = Some (Ssid (Some "Site A") (Some "Guest"))
  ∧ ∃ c text, line_label (Ssid (Some "Site A") (Some "Guest")) = Some (c, text)
      ∧ (site_report_cells example_frame "Site A" (day_columns example_frame) false ∅).1
          !! (8 + 1, c) = Some (Text text)
      ∧ (site_report_cells example_frame "Site A" (day_columns example_frame) false ∅).1
          !! (8 + 1, 1 - c) = None
      ∧ (site_report_cells example_frame "Site A" (day_columns example_frame) false ∅).1
          !! (8 + 1, 4) = None.
Proof.
  assert (site_report_cells example_frame "Site A" (day_columns example_frame) false ∅
          = ((site_report_cells example_frame "Site A" (day_columns example_frame) false ∅).1,
             Ok tt)) as Hrun.
  { apply run_returned. vm_compute. reflexivity. }
  assert (report_lines false example_frame !! 1 = Some (Ssid (Some "Site A") (Some "Guest")))
    as Hline.
  { vm_compute. reflexivity. }
  split; [exact Hrun|]. split; [exact Hline|].
  exact (data_line_labels example_frame "Site A" (day_columns example_frame) false _ Hrun
           1 _ Hline).
Defined.

(** X16. A rendered sheet has nothing outside its head and its data
    rows. In the eight rows of the head no cell is written to the right of
    the time stamps, column [8 + 2 n] for [n] day columns; below them a
    cell is written only in the row of a line, and there only in columns A
    to D and in the day columns. *)
Theorem sheet_extent df sheet_name date_cols aggregate_floors t :
  site_report_cells df sheet_name date_cols aggregate_floors ∅ = (t, Ok tt) →
  ∀ r c, is_Some (t !! (r, c)) →
    (r < 8 ∧ c ≤ 8 + 2 * length date_cols)
    ∨ (8 ≤ r < 8 + length (report_lines aggregate_floors df)
       ∧ (c < 4 ∨ 5 ≤ c < 5 + 2 * length date_cols)).
Proof.
  intros Hrun r c Hsome. site_report_inv Hrun.
  match goal with
  | H : write_data_rows _ _ _ _ = _ |- _ =>
      apply write_data_rows_written in H as [Hlines Hframe_rows]
  end.
  destruct (decide (r < 8)) as [Hr|Hr].
  - left. split; [done|]. destruct (decide (c ≤ 8 + 2 * length date_cols)); [done|].
    exfalso. rewrite Hframe_rows in Hsome by lia. revert Hsome. head_frames.
    rewrite lookup_empty. by intros [? ?].
  - right. destruct (decide (r < 8 + length (report_lines aggregate_floors df))) as [Hr'|Hr'].
    + split; [lia|].
      destruct (decide (c < 4 ∨ 5 ≤ c < 5 + 2 * length date_cols)); [done|]. exfalso.
      destruct (lookup_lt_is_Some_2 (report_lines aggregate_floors df) (r - 8)) as [g Hg];
        [lia|].
      destruct (Hlines _ g Hg) as (c0 & text & Hline & _ & Hrest).
      pose proof (line_label_column _ _ _ Hline) as Hc.
      replace (8 + (r - 8)) with r in Hrest by lia.
      rewrite Hrest in Hsome by lia. revert Hsome. head_frames.
      rewrite lookup_empty. by intros [? ?].
    + exfalso. rewrite Hframe_rows in Hsome by lia. revert Hsome. head_frames.
      rewrite lookup_empty. by intros [? ?].
Qed.

Lemma sheet_extent_witness :
  site_report_cells example_frame "Site A" (day_columns example_frame) false ∅
  = ((site_report_cells example_frame "Site A" (day_columns example_frame) false ∅).1, Ok tt)
  ∧ ∀ r c,
      is_Some ((site_report_cells example_frame "Site A" (day_columns example_frame) false ∅).1
                 !! (r, c)) →
      (r < 8 ∧ c ≤ 8 + 2 * length (day_columns example_frame))
      ∨ (8 ≤ r < 8 + length (report_lines false example_frame)
         ∧ (c < 4 ∨ 5 ≤ c < 5 + 2 * length (day_columns example_frame))).
Proof.
  assert (site_report_cells example_frame "Site A" (day_columns example_frame) false ∅
          = ((site_report_cells example_frame "Site A" (day_columns example_frame) false ∅).1,
             Ok tt)) as Hrun.
  { apply run_returned. vm_compute. reflexivity. }
  split; [exact Hrun|].
  exact (sheet_extent example_frame "Site A" (day_columns example_frame) false _ Hrun).
Defined.

(** ** The window *)

Lemma load_csv_options fs paths ui ui' shown :
  ReportUI.load_csv fs paths ui = Ok (ui', shown) →
  ReportUI.combine_floors_cb ui' = ReportUI.combine_floors_cb ui
  ∧ ReportUI.tab_per_building ui' = ReportUI.tab_per_building ui
  ∧ ReportUI.tab_per_building_enabled ui' = ReportUI.tab_per_building_enabled ui.
Proof.
  unfold ReportUI.load_csv. case_bool_decide; [by intros [= <- _]|].
  destruct (ingest_files fs paths) as [rows|e]; [|by intros [= <- _]].
  case_bool_decide; [by intros [= <- _]|].
  destruct (ReportUI.scan_dates rows) as [dates|e]; [|done]. simpl.
  case_bool_decide; [by intros [= <- _]|].
  destruct (map_result _ rows) as [sites|e]; [|done]. simpl. by intros [= <- _].
Qed.

(** X17. In every state of the window that the user can bring about,
    the box [tab_per_building] is enabled exactly when [combine_floors_cb]
    is checked, and it is checked only when [combine_floors_cb] is: the
    window never asks for a tab per building without floor aggregation,
    the combination that line 106 of the report builder guards against. *)
Theorem tab_per_building_needs_combine_floors ui :
  reachable ui →
  ReportUI.tab_per_building_enabled ui = ReportUI.combine_floors_cb ui
  ∧ (ReportUI.tab_per_building ui = true → ReportUI.combine_floors_cb ui = true).
Proof.
  induction 1 as [|ui c _ [IH1 IH2]|ui fs paths ui' shown _ [IH1 IH2] Hload].
  - done.
  - destruct c; unfold ReportUI.on_click, ReportUI.toggle_combine_floors.
    + destruct (ReportUI.combine_floors_cb ui); simpl; split; done.
    + destruct (ReportUI.tab_per_building_enabled ui) eqn:Henabled; simpl.
      * split; [done|]. intros _. by rewrite <- IH1.
      * split; [congruence|done].
  - apply load_csv_options in Hload as (-> & -> & ->). done.
Qed.

Lemma tab_per_building_needs_combine_floors_witness :
  reachable (ReportUI.on_click ReportUI.click_tab_per_building
               (ReportUI.on_click ReportUI.click_combine_floors_cb ReportUI.init))
  ∧ ReportUI.tab_per_building_enabled
      (ReportUI.on_click ReportUI.click_tab_per_building
         (ReportUI.on_click ReportUI.click_combine_floors_cb ReportUI.init))
    = ReportUI.combine_floors_cb
        (ReportUI.on_click ReportUI.click_tab_per_building
           (ReportUI.on_click ReportUI.click_combine_floors_cb ReportUI.init)).
Proof.
  assert (reachable (ReportUI.on_click ReportUI.click_tab_per_building
                       (ReportUI.on_click ReportUI.click_combine_floors_cb ReportUI.init)))
    as Hreach.
  { apply reachable_click, reachable_click, reachable_init. }
  split; [exact Hreach|].
  exact (proj1 (tab_per_building_needs_combine_floors _ Hreach)).
Defined.

Lemma rev_app_append s acc : String.rev_app s acc = String.rev_app s "" +:+ acc.
Proof.
  revert acc. induction s as [|a s IH]; intros acc; simpl; [done|].
  rewrite (IH (String a acc)), (IH (String a "")). by rewrite app_assoc_str.
Qed.

Lemma rev_app_app s t acc :
  String.rev_app (s +:+ t) acc = String.rev_app t (String.rev_app s acc).
Proof.
  revert acc. induction s as [|a s IH]; intros acc; [done|].
  rewrite app_String. simpl. apply IH.
Qed.

Lemma startswith_app p s : startswith p (p +:+ s) = true.
Proof.
  induction p as [|a p IH]; [done|]. rewrite app_String. simpl.
  by rewrite bool_decide_eq_true_2, IH.
Qed.

Lemma endswith_app s suffix : endswith (s +:+ suffix) suffix = true.
Proof.
  unfold endswith, String.rev.
  rewrite rev_app_app, (rev_app_append suffix (String.rev_app s "")).
  apply startswith_app.
Qed.

Section window.
Context `{Xlsx}.

(** X18. [generate_report] never lets an exception out. Without records
    or without a selected site it warns and touches nothing. Otherwise the
    only file it may write is one whose name ends in [.xlsx], the answer
    of the save dialog with the extension added when it lacks it, and it
    has written it only when it says that the report is done; when it
    shows an error it has written none. *)
Theorem generate_report_effects ui selected_sites chosen date_from date_to w w' r :
  ReportUI.generate_report ui selected_sites chosen date_from date_to w = (w', r) →
  ∃ shown, r = Ok shown
    ∧ (ReportUI.data ui = [] ∨ selected_sites = [] →
       w' = w ∧ (shown = [Warning "No Data"] ∨ shown = [Warning "No Sites"]))
    ∧ (∀ path, files w' !! path ≠ files w !! path →
       endswith path ".xlsx" = true ∧ Information "Done" ∈ shown).
Proof.
  unfold ReportUI.generate_report.
  case_bool_decide as Hdata.
  { intros [= <- <-]. eexists. split_and!; [done|by auto|done]. }
  case_bool_decide as Hsites.
  { intros [= <- <-]. eexists. split_and!; [done|by auto|done]. }
  cbv zeta.
  destruct (generate_excel_report _ _ _ _ _ _ _ w) as [w1 [[]|e]] eqn:Hrun;
    intros [= <- <-]; eexists; (split; [done|]); (split; [by intros [?|?]|]).
  - apply generate_excel_report_Ok in Hrun as (df0 & sheets & _ & _ & ->). cbn [files].
    intros path Hpath. split; [|left].
    destruct (decide (path = if endswith chosen ".xlsx" then chosen else chosen +:+ ".xlsx"))
      as [->|Hne]; [|by rewrite lookup_insert_ne in Hpath].
    destruct (endswith chosen ".xlsx") eqn:Hchosen; [done|apply endswith_app].
  - apply generate_excel_report_Raise in Hrun. intros path Hpath. by rewrite Hrun in Hpath.
Qed.

End window.

Lemma generate_report_effects_witness :
  @ReportUI.generate_report xlsxwriter_check_sheetname
    (ReportUI.mk example_data ["Site A"] false false false false) ["Site A"] "report"
    (mk_date 2024 1 1) (mk_date 2024 1 1) fresh_world
  = ((@ReportUI.generate_report xlsxwriter_check_sheetname
        (ReportUI.mk example_data ["Site A"] false false false false) ["Site A"] "report"
        (mk_date 2024 1 1) (mk_date 2024 1 1) fresh_world).1,
     Ok [Information "Done"])
  ∧ ∃ shown, Ok [Information "Done"] = Ok shown
      ∧ (example_data = [] ∨ ["Site A"] = [] →
         (@ReportUI.generate_report xlsxwriter_check_sheetname
            (ReportUI.mk example_data ["Site A"] false false false false) ["Site A"] "report"
            (mk_date 2024 1 1) (mk_date 2024 1 1) fresh_world).1 = fresh_world
         ∧ (shown = [Warning "No Data"] ∨ shown = [Warning "No Sites"]))
      ∧ (∀ path,
           files (@ReportUI.generate_report xlsxwriter_check_sheetname
                    (ReportUI.mk example_data ["Site A"] false false false false)
                    ["Site A"] "report" (mk_date 2024 1 1) (mk_date 2024 1 1) fresh_world).1
             !! path ≠ files fresh_world !! path →
           endswith path ".xlsx" = true ∧ Information "Done" ∈ shown).
Proof.
  assert (@ReportUI.generate_report xlsxwriter_check_sheetname
            (ReportUI.mk example_data ["Site A"] false false false false) ["Site A"] "report"
            (mk_date 2024 1 1) (mk_date 2024 1 1) fresh_world
          = ((@ReportUI.generate_report xlsxwriter_check_sheetname
                (ReportUI.mk example_data ["Site A"] false false false false) ["Site A"]
                "report" (mk_date 2024 1 1) (mk_date 2024 1 1) fresh_world).1,
             Ok [Information "Done"])) as Hrun.
  { apply run_returned. vm_compute. reflexivity. }
  split; [exact Hrun|].
  exact (@generate_report_effects xlsxwriter_check_sheetname _ _ _ _ _ _ _ _ Hrun).
Defined.

Lemma normalize_datetime_raises_ValueError value e :
  normalize_datetime value = Raise e → e = ValueError.
Proof.
  rewrite normalize_datetime_unfold.
  destruct (strptime value "%Y-%m-%d %H:%M:%S"), (strptime value "%m/%d/%y %H:%M");
    by intros [=].
Qed.

Lemma scan_dates_returns rows : ∃ dates, ReportUI.scan_dates rows = Ok dates.
Proof.
  induction rows as [|row rows [dates IH]]; simpl; [by eexists|].
  destruct (row !! "end_time") as [end_time|]; [|by eexists].
  case_bool_decide; [by eexists|].
  destruct (normalize_datetime end_time) as [d|e] eqn:Hd.
  - rewrite IH. by eexists.
  - apply normalize_datetime_raises_ValueError in Hd as ->. by eexists.
Qed.

Lemma locations_Ok (rows : list (gmap string string)) :
  (∀ d, d ∈ rows → is_Some (d !! "location")) →
  ∃ sites,
    map_result (fun d : gmap string string =>
                  match d !! "location" with
                  | Some site => Ok site
                  | None => Raise KeyError
                  end) rows = Ok sites
    ∧ ∀ site, site ∈ sites ↔ ∃ d, d ∈ rows ∧ d !! "location" = Some site.
Proof.
  induction rows as [|row rows IH]; intros Hrows.
  - exists []. split; [done|]. intros site. split.
    + by intros ?%elem_of_nil.
    + by intros (? & ?%elem_of_nil & _).
  - destruct IH as (sites & Hsites & Hin); [intros d Hd; apply Hrows; by right|].
    destruct (Hrows row) as [site Hsite]; [left|].
    exists (site :: sites). simpl. rewrite Hsite, Hsites. split; [done|].
    intros site'. rewrite elem_of_cons, Hin. split.
    + intros [->|(d & Hd & Hloc)]; [exists row; split; [left|done]|].
      exists d. split; [by right|done].
    + intros (d & [->|Hd]%elem_of_cons & Hloc); [left; congruence|].
      right. by exists d.
Qed.

Lemma StronglySorted_NoDup_strict l :
  StronglySorted String.le l → NoDup l → StronglySorted string_lt l.
Proof.
  induction 1 as [|x l Hsorted IH Hx]; intros Hnodup; [constructor|].
  apply NoDup_cons in Hnodup as [Hnotin Hnodup]. constructor; [by apply IH|].
  apply Forall_forall. intros y Hy. split.
  - by apply (proj1 (Forall_forall _ _) Hx).
  - by intros ->.
Qed.

(** X19. [load_csv] never lets an exception out: what ingestion raises
    is shown, a record whose end time does not parse is passed over, and
    every ingested record has a [location]. When it shows nothing after
    files were chosen, the window holds the ingested records and its site
    list holds their locations, each once, in ascending order. When it
    shows a message the site list is left as it was. *)
Theorem load_csv_outcome fs paths ui :
  ∃ ui' shown,
    ReportUI.load_csv fs paths ui = Ok (ui', shown)
    ∧ (shown = [] → paths ≠ [] →
       ingest_files fs paths = Ok (ReportUI.data ui')
       ∧ StronglySorted string_lt (ReportUI.site_list ui')
       ∧ ∀ site, site ∈ ReportUI.site_list ui' ↔
                 ∃ d, d ∈ ReportUI.data ui' ∧ d !! "location" = Some site)
    ∧ (shown ≠ [] → ReportUI.site_list ui' = ReportUI.site_list ui).
Proof.
  unfold ReportUI.load_csv. case_bool_decide as Hpaths.
  { exists ui, []. split_and!; done. }
  destruct (ingest_files fs paths) as [rows|e] eqn:Hingest.
  2:{ eexists ui, _. split_and!; done. }
  case_bool_decide as Hrows.
  { eexists _, _. split_and!; done. }
  destruct (scan_dates_returns rows) as [dates ->]. simpl.
  case_bool_decide as Hdates.
  { eexists _, _. split_and!; done. }
  destruct (locations_Ok rows) as (sites & -> & Hsites).
  { intros d Hd. unfold ingest_files in Hingest. rewrite ingest_paths_concat in Hingest.
    apply bind_Ok in Hingest as (records & Hrecords & [= <-]).
    destruct (map_result_concat_elem _ _ _ _ Hrecords Hd) as (path & ys & _ & Hpath & Hys).
    by destruct (source_records_trigger_fields _ _ _ _ Hpath Hys) as [? _]. }
  simpl. eexists _, _. split_and!; [done| |done].
  intros _ _. cbn [ReportUI.data ReportUI.site_list]. split_and!; [done| |].
  - apply StronglySorted_NoDup_strict.
    + unfold sorted_strings. apply StronglySorted_merge_sort; apply _.
    + unfold sorted_strings. rewrite merge_sort_Permutation. apply NoDup_unique.
  - intros site. by rewrite elem_of_sorted_strings, elem_of_unique.
Qed.

(** ** Sheet names that the workbook refuses *)

Lemma build_frame_columns data df :
  build_frame data = Ok df → columns df = ⋃ (dom <$> data).
Proof.
  unfold build_frame.
  intros (starts & _ & (ends & _ & (c3 & _ & [= <-])%bind_Ok)%bind_Ok)%bind_Ok. done.
Qed.

Lemma build_frame_field_column data df r name value :
  build_frame data = Ok df → r ∈ rows df → fields r !! name = Some value →
  name ∈ columns df.
Proof.
  intros Hdf Hr Hname. rewrite (build_frame_columns _ _ Hdf).
  destruct (build_frame_row _ _ _ Hdf Hr) as (Hentry & _).
  apply elem_of_union_list. exists (dom (fields r)). split.
  - apply list_elem_of_fmap. by exists (fields r).
  - apply elem_of_dom. by eexists.
Qed.

(** X20. The name of a site is cut to 31 characters to name its sheet and
    is not changed otherwise. When the workbook refuses the name of the
    one selected site, which has records in the date range, the run raises
    what the workbook raises, with no sheet rendered and no file
    written. *)
Theorem refused_site_name `{Xlsx} data df site output_path date_from date_to
    aggregate_floors tab_per_building w r0 e :
  build_frame data = Ok df →
  r0 ∈ rows (date_filter date_from date_to df) →
  fields r0 !! "location" = Some site →
  check_sheetname [] (str_take 31 site) = Raise e →
  generate_excel_report data [site] output_path date_from date_to
    aggregate_floors tab_per_building w
  = (mk_world (Some (output_path, [])) (files w), Raise e).
Proof.
  intros Hdf Hr0 Hsite Hname. unfold generate_excel_report. rewrite Hdf.
  rewrite (M_bind_step _ _ w w df) by reflexivity.
  set (df' := date_filter date_from date_to df) in *.
  set (w1 := mk_world (Some (output_path, [])) (files w)).
  rewrite (M_bind_step _ _ w w1 tt) by reflexivity.
  rewrite (M_bind_step _ _ w1 w1 tt) by reflexivity.
  apply M_bind_raise. cbn [for_each]. apply M_bind_raise.
  assert ("location" ∈ columns df') as Hlocation.
  { unfold df'. rewrite columns_date_filter.
    apply elem_of_date_filter in Hr0 as (Hr0 & _). by eapply build_frame_field_column. }
  rewrite where_eq_present by done.
  rewrite (M_bind_step (lift _) _ w1 w1 _ eq_refl).
  assert (empty (select (fun r => eq_scalar (Some site) (cell_of "location" r)) df') = false)
    as ->.
  { unfold empty. apply bool_decide_eq_false. intros Hnil.
    assert (r0 ∈ rows (select (fun r => eq_scalar (Some site) (cell_of "location" r)) df'))
      as Hin; [|by rewrite Hnil in Hin; apply elem_of_nil in Hin].
    apply elem_of_select. split; [done|]. unfold cell_of. cbn [bool_decide].
    rewrite bool_decide_eq_false_2 by done. rewrite Hsite. simpl.
    by apply bool_decide_eq_true. }
  cbn [negb]. unfold with_workbook, generate_site_report. cbn [workbook w1 files].
  cbn [fmap list_fmap]. by rewrite Hname.
Qed.

Lemma refused_site_name_witness :
  build_frame [session_slash] = Ok slash_frame
  ∧ slash_row ∈ rows (date_filter None None slash_frame)
  ∧ fields slash_row !! "location" = Some "North/South"
  ∧ xlsxwriter_check_sheetname [] (str_take 31 "North/South") = Raise SheetNameError
  ∧ @generate_excel_report xlsxwriter_check_sheetname [session_slash] ["North/South"]
      "report.xlsx" None None false false fresh_world
    = (mk_world (Some ("report.xlsx", [])) (files fresh_world), Raise SheetNameError).
Proof.
  assert (build_frame [session_slash] = Ok slash_frame) as Hdf.
  { apply from_ok_eq. vm_compute. reflexivity. }
  assert (slash_row ∈ rows (date_filter None None slash_frame)) as Hrow.
  { change (slash_row ∈ rows slash_frame). apply head_elem_of.
    assert (length (rows slash_frame) = 1) as ->; [vm_compute; reflexivity|lia]. }
  assert (fields slash_row !! "location" = Some "North/South") as Hsite.
  { vm_compute. reflexivity. }
  assert (xlsxwriter_check_sheetname [] (str_take 31 "North/South") = Raise SheetNameError)
    as Hname.
  { vm_compute. reflexivity. }
  split; [exact Hdf|]. split; [exact Hrow|]. split; [exact Hsite|]. split; [exact Hname|].
  exact (@refused_site_name xlsxwriter_check_sheetname [session_slash] slash_frame
           "North/South" "report.xlsx" None None false false fresh_world slash_row
           SheetNameError Hdf Hrow Hsite Hname).
Defined.
